(** * deep2nep: deepmd trajectories to the NEP [train.in] layout

    A shallow embedding of [tools/nep_related/deep2nep.py].  The script
    reads a tree of per-system, per-subset numpy arrays, merges the frames
    into one frame-indexed collection and writes them in a line-oriented
    text layout.

    Python exceptions are values of [exn]; every function that can raise
    returns a [result].  A directory is a record of the files the script
    looks at.  numpy arrays are nested lists in row-major order; the
    float64 scalar is an interface ([Float64]) with one instance over the
    IEEE binary64 format of [SpecFloat]. *)

From Stdlib Require Import ZArith String Ascii List DecimalString DecimalZ Lia.
From Stdlib Require Import Floats.SpecFloat.
From stdpp Require Import base option list strings gmap.

Local Open Scope Z_scope.

(** ** Python runtime *)

Module Py.

(** The key a dict was asked for: a string, or an integer frame index. *)
Inductive key : Type :=
| Name (s : string)
| Index (i : Z).

(** The exceptions the script can run into. *)
Inductive exn : Type :=
| FileNotFoundError
| ValueError
| AssertionError
| UnboundLocalError (name : string)
| KeyError (k : key)
| IndexError
| TypeError.

Inductive result (A : Type) : Type :=
| Ok (a : A)
| Err (e : exn).
Arguments Ok {A} a.
Arguments Err {A} e.

Definition is_Ok {A} (r : result A) : Prop := ∃ a, r = Ok a.
Definition is_Err {A} (r : result A) : Prop := ∃ e, r = Err e.

Definition bind {A B} (f : A → result B) (m : result A) : result B :=
  match m with
  | Ok a => f a
  | Err e => Err e
  end.

(** A [for] loop whose body may raise: the first exception ends it. *)
Fixpoint for_each {A S} (body : A → S → result S) (l : list A) (s : S)
  : result S :=
  match l with
  | [] => Ok s
  | x :: l' => bind (for_each body l') (body x s)
  end.

(** [range(n)] for an integer [n]. *)
Definition range (n : Z) : list Z := seqZ 0 n.

(** [l[i]], with Python's wrap-around of negative indices. *)
Definition getitem {A} (l : list A) (i : Z) : result A :=
  let n := Z.of_nat (length l) in
  let k := if decide (i < 0) then i + n else i in
  if decide (0 ≤ k < n)
  then match l !! Z.to_nat k with
       | Some x => Ok x
       | None => Err IndexError
       end
  else Err IndexError.

(** [l[i] = v] on a list or on the first axis of an array. *)
Definition setitem {A} (l : list A) (i : Z) (v : A) : result (list A) :=
  let n := Z.of_nat (length l) in
  let k := if decide (i < 0) then i + n else i in
  if decide (0 ≤ k < n)
  then Ok (<[Z.to_nat k := v]> l)
  else Err IndexError.

(** [d[k]] on a dict keyed by frame index. *)
Definition dict_get {A} (d : gmap Z A) (k : Z) : result A :=
  match d !! k with
  | Some x => Ok x
  | None => Err (KeyError (Index k))
  end.

(** [d[name]] for a key that the record keeps as an optional field. *)
Definition field {A} (name : string) (o : option A) : result A :=
  match o with
  | Some x => Ok x
  | None => Err (KeyError (Name name))
  end.

(** [str(n)] of an integer: decimal digits, a minus sign when negative. *)
Definition str_int (n : Z) : string :=
  NilZero.string_of_int (Z.to_int n).

(** [int(s)] on the text of an integer. *)
Definition int_of_str (s : string) : option Z :=
  Z.of_int <$> NilZero.int_of_string s.

(** [sep.join(l)]. *)
Definition join (sep : string) (l : list string) : string :=
  String.concat sep l.

(** [os.path.join(a, b)] on POSIX paths. *)
Definition path_join (a b : string) : string :=
  if String.prefix "/" b then b
  else if decide (a = ""%string) then b
  else if String.eqb (String.substring (String.length a - 1) 1 a) "/"
       then (a +:+ b)
       else (a +:+ "/" +:+ b).

End Py.

Export Py.

#[export] Instance result_ret : MRet result := @Ok.
#[export] Instance result_bind : MBind result := @Py.bind.

(** ** The float64 scalar

    What the script asks of numpy's float64: storing an integer or a
    boolean in a float array, [int(x)], truth value, the three arithmetic
    operations of the volume, and [str(x)].  The laws are the facts about
    binary64 the proofs rely on: integers up to 2^53 survive the round trip
    through a float slot, arithmetic is exact on 0.0 and 1.0, and the text
    of a float holds neither a blank nor a line break. *)

Definition bool_to_Z (b : bool) : Z := if b then 1 else 0.

Definition plain_char (c : ascii) : bool :=
  negb (Ascii.eqb c " " || Ascii.eqb c "010")%bool.

Definition plain (s : string) : Prop :=
  forallb plain_char (list_ascii_of_string s) = true.

Class Float64 : Type := {
  float : Type;
  of_int : Z → float;
  to_int : float → option Z;
  truthy : float → bool;
  fadd : float → float → float;
  fsub : float → float → float;
  fmul : float → float → float;
  str_float : float → string;
  to_int_of_int : ∀ n, 0 ≤ n ≤ 2 ^ 53 → to_int (of_int n) = Some n;
  truthy_of_bool : ∀ b : bool, truthy (of_int (bool_to_Z b)) = b;
  fmul_bool : ∀ a b : bool,
    fmul (of_int (bool_to_Z a)) (of_int (bool_to_Z b))
    = of_int (bool_to_Z (a && b));
  fsub_bool : ∀ a : bool,
    fsub (of_int (bool_to_Z a)) (of_int 0) = of_int (bool_to_Z a);
  fadd_bool_l : ∀ a : bool,
    fadd (of_int 0) (of_int (bool_to_Z a)) = of_int (bool_to_Z a);
  fadd_bool_r : ∀ a : bool,
    fadd (of_int (bool_to_Z a)) (of_int 0) = of_int (bool_to_Z a);
  str_float_plain : ∀ x, plain (str_float x)
}.

(** A one-dimensional float64 array, and a two-dimensional one as the
    list of its rows. *)
Abbreviation vector := (list float).
Abbreviation matrix := (list (list float)).

(** ** numpy *)

Module Np.

Section Arrays.
Context `{Float64}.

(** The scalar [np.sum] returns: int64 for a list of integers, and the
    float64 0.0 for the empty list, whose array has dtype float64. *)
Inductive scalar : Type :=
| Int64 (n : Z)
| Flt64 (x : float).

Definition sum (l : list Z) : scalar :=
  match l with
  | [] => Flt64 (of_int 0)
  | _ => Int64 (foldr Z.add 0 l)
  end.

(** [scalar.__index__]: what [range] and the array constructors need. *)
Definition index (s : scalar) : result Z :=
  match s with
  | Int64 n => Ok n
  | Flt64 _ => Err TypeError
  end.

(** [np.max] raises on an empty array. *)
Definition max (l : list Z) : result Z :=
  match l with
  | [] => Err ValueError
  | x :: l' => Ok (foldr Z.max x l')
  end.

(** [np.count_nonzero(a == v)]. *)
Definition count_eq (a : list Z) (v : Z) : Z :=
  Z.of_nat (length (filter (λ x, x = v) a)).

(** [np.zeros(n)], [np.zeros((n, k))], [np.ones(n, dtype=bool)]. *)
Definition zeros (n : Z) : vector := replicate (Z.to_nat n) (of_int 0).
Definition zeros2 (n : Z) (k : nat) : matrix :=
  replicate (Z.to_nat n) (replicate k (of_int 0)).
Definition ones_bool (n : nat) : list bool := replicate n true.
Definition zeros_bool (n : nat) : list bool := replicate n false.

(** [np.reshape]: only the number of elements of the argument matters,
    so an array that is about to be reshaped is its row-major list. *)

(** [np.reshape(a, [-1,3,3]).shape[0]] *)
Definition count_33 (a : vector) : result nat :=
  if decide (length a `mod` 9 = 0)%nat
  then Ok (length a `div` 9)%nat
  else Err ValueError.

(** [np.reshape(a, [n,3,3])] *)
Definition reshape_33 (a : vector) (n : nat) : result (list matrix) :=
  if decide (length a = n * 9)%nat
  then Ok (reshape [3; 3; 3]%nat <$> reshape (replicate n 9%nat) a)
  else Err ValueError.

(** [np.reshape(a, [n,-1,3])]: the known sizes must not multiply to
    zero and must divide the number of elements. *)
Definition reshape_x3 (a : vector) (n : nat) : result (list matrix) :=
  let known := (n * 3)%nat in
  if decide (known = 0%nat ∨ (length a `mod` known)%nat ≠ 0%nat)
  then Err ValueError
  else
    let m := (length a `div` known)%nat in
    Ok (reshape (replicate m 3%nat) <$> reshape (replicate n (m * 3)%nat) a).

(** [np.reshape(a, [n])] *)
Definition reshape_1 (a : vector) (n : nat) : result vector :=
  if decide (length a = n) then Ok a else Err ValueError.

(** [np.reshape(m, 9)] of a matrix. *)
Definition reshape_9 (m : matrix) : result vector :=
  if decide (length (concat m) = 9%nat) then Ok (concat m) else Err ValueError.

(** [np.concatenate(arrs, axis=0)] when the element type fixes the other
    axes: it only fails on an empty list of arrays. *)
Definition concatenate {A} (arrs : list (list A)) : result (list A) :=
  match arrs with
  | [] => Err ValueError
  | _ => Ok (concat arrs)
  end.

(** Second axis of an array of shape [n, m, 3] with [n] at least 1. *)
Definition axis1 (a : list matrix) : nat :=
  match a with
  | [] => 0%nat
  | fr :: _ => length fr
  end.

(** [np.concatenate(arrs, axis=0)] for arrays of shape [n, m, 3]: the
    second axes have to agree. *)
Definition concatenate_x3 (arrs : list (list matrix)) : result (list matrix) :=
  match arrs with
  | [] => Err ValueError
  | a :: rest =>
      if decide (Forall (λ b, axis1 b = axis1 a) rest)
      then Ok (concat arrs)
      else Err ValueError
  end.

(** [m[i,j]] *)
Definition getitem2 (m : matrix) (i j : Z) : result float :=
  row ← getitem m i; getitem row j.

(** [np.cross] of two 3-vectors:
    [cp0 = a1*b2 - a2*b1], [cp1 = a2*b0 - a0*b2], [cp2 = a0*b1 - a1*b0]. *)
Definition cross (a b : vector) : result vector :=
  match a, b with
  | [a0; a1; a2], [b0; b1; b2] =>
      Ok [fsub (fmul a1 b2) (fmul a2 b1);
          fsub (fmul a2 b0) (fmul a0 b2);
          fsub (fmul a0 b1) (fmul a1 b0)]
  | _, _ => Err ValueError
  end.

(** [np.dot] of two vectors of one length, accumulated from 0.0 in index
    order as the reference dot routine does. *)
Definition dot (a b : vector) : result float :=
  if decide (length a = length b)
  then Ok (foldl fadd (of_int 0) (zip_with fmul a b))
  else Err ValueError.

End Arrays.
End Np.

(** ** The input tree

    A subset directory holds up to five [.npy] files; a system directory
    holds [type.raw], maybe [type_map.raw] and the marker file [nopbc], and
    its [set.*] entries in the order [sorted(glob.glob(...))] yields them.
    A missing file is [None]. *)

Section Tree.
Context `{Float64}.

Record set_dir : Type := {
  box_npy : option vector;
  coord_npy : option vector;
  energy_npy : option vector;
  force_npy : option vector;
  virial_npy : option vector
}.

Record system_dir : Type := {
  type_raw : option (list Z);
  type_map_raw : option (list string);
  nopbc_file : bool;
  sets : list set_dir
}.

(** An entry of the parent directory, as [os.path.isdir] sees it. *)
Inductive entry : Type :=
| File
| Dir (d : system_dir).

(** [np.load(fname)] and [np.loadtxt(fname, ndmin=1).astype(int)]. *)
Definition np_load {A} (f : option A) : result A :=
  match f with
  | Some a => Ok a
  | None => Err FileNotFoundError
  end.

End Tree.

(** ** Records of the script's dicts *)

(** [data] of [load_type]. *)

Module Topology.
Record t : Type := {
  atom_types : list Z;
  atom_numbs : list Z;
  atom_names : list string
}.
End Topology.

(** [data] of [to_system_data], and [idata] once [read_multi_deepmd] has
    added the key [has_virial].  Keys that are set under a condition are
    optional fields. *)

Module System.

Section S.
Context `{Float64}.
Record t : Type := {
  atom_types : list Z;
  atom_numbs : list Z;
  atom_names : list string;
  orig : vector;
  docname : string;
  frames : nat;
  cells : list matrix;
  coords : list matrix;
  energies : option vector;
  forces : option (list matrix);
  virials : option (list matrix);
  nopbc : option bool;
  has_virial : option (list bool)
}.
End S.
End System.

(** [data] of [read_multi_deepmd]: the merged collection. *)

Module Merged.

Section M.
Context `{Float64}.
Record t : Type := {
  nframe : Z;
  docname : list string;
  atom_numbs : vector;
  has_virial : vector;
  energies : vector;
  virials : matrix;
  cells : matrix;
  volume : vector;
  atom_types : gmap Z (list Z);
  coords : gmap Z matrix;
  forces : gmap Z matrix
}.
End M.
End Merged.

(** ** The script *)

Section Script.
Context `{Float64}.

Definition convervirial (invirial : matrix) : result vector :=
  vxx ← Np.getitem2 invirial 0 0;
  vxy ← Np.getitem2 invirial 0 1;
  vzx ← Np.getitem2 invirial 0 2;
  vyy ← Np.getitem2 invirial 1 1;
  vyz ← Np.getitem2 invirial 1 2;
  vzz ← Np.getitem2 invirial 2 2;
  Ok [vxx; vyy; vzz; vxy; vyz; vzx].

Definition vec2volume (cells : vector) : result float :=
  let va := take 3 cells in
  let vb := take 3 (drop 3 cells) in
  let vc := drop 6 cells in
  cr ← Np.cross vb vc;
  Np.dot va cr.

Definition cond_load_data (fname : option vector) : option vector :=
  match fname with
  | Some a => Some a
  | None => None
  end.

(** The three sources of type names, in the order the script tries them. *)
Definition resolve_type_map (file : option (list string))
    (type_map : option (list string)) (ntypes : Z) : list string :=
  match file with
  | Some tokens => tokens
  | None =>
      match type_map with
      | Some names => names
      | None => (λ ii, "Type_" +:+ str_int ii) <$> range ntypes
      end
  end.

Definition load_type (folder : system_dir) (type_map : option (list string))
  : result Topology.t :=
  atom_types ← np_load (type_raw folder);
  top ← Np.max atom_types;
  let ntypes := top + 1 in
  let atom_numbs := (λ ii, Np.count_eq atom_types ii) <$> range ntypes in
  let my_type_map := resolve_type_map (type_map_raw folder) type_map ntypes in
  if decide (length atom_numbs ≤ length my_type_map)%nat
  then
    atom_names ← mapM (getitem my_type_map)
                      (range (Z.of_nat (length atom_numbs)));
    Ok {| Topology.atom_types := atom_types;
          Topology.atom_numbs := atom_numbs;
          Topology.atom_names := atom_names |}
  else Err AssertionError.

Definition load_set (folder : set_dir)
  : result (vector * vector * option vector * option vector * option vector) :=
  cells ← np_load (box_npy folder);
  coords ← np_load (coord_npy folder);
  let eners := cond_load_data (energy_npy folder) in
  let forces := cond_load_data (force_npy folder) in
  let virs := cond_load_data (virial_npy folder) in
  Ok (cells, coords, eners, forces, virs).

(** The local variables the loop over the subsets of [to_system_data]
    assigns; [nframes] is unbound until the first subset is read. *)
Record sets_acc : Type := {
  nframes : option nat;
  all_cells : list (list matrix);
  all_coords : list (list matrix);
  all_eners : list vector;
  all_forces : list (list matrix);
  all_virs : list (list matrix)
}.

Definition sets_acc0 : sets_acc :=
  {| nframes := None; all_cells := []; all_coords := []; all_eners := [];
     all_forces := []; all_virs := [] |}.

(** [if a is not None and a.size > 0: acc.append(reshape(a))] *)
Definition append_if_data {A} (a : option vector)
    (reshape : vector → result A) (acc : list A) : result (list A) :=
  match a with
  | Some v =>
      if decide (0 < length v)%nat
      then r ← reshape v; Ok (acc ++ [r])
      else Ok acc
  | None => Ok acc
  end.

Definition sets_step (ii : set_dir) (acc : sets_acc) : result sets_acc :=
  '(cells, coords, eners, forces, virs) ← load_set ii;
  n ← Np.count_33 cells;
  c ← Np.reshape_33 cells n;
  co ← Np.reshape_x3 coords n;
  eners ← match eners with
          | Some e => e' ← Np.reshape_1 e n; Ok (Some e')
          | None => Ok None
          end;
  es ← append_if_data eners (λ e, Np.reshape_1 e n) (all_eners acc);
  fs ← append_if_data forces (λ f, Np.reshape_x3 f n) (all_forces acc);
  vs ← append_if_data virs (λ v, Np.reshape_33 v n) (all_virs acc);
  Ok {| nframes := Some n;
        all_cells := all_cells acc ++ [c];
        all_coords := all_coords acc ++ [co];
        all_eners := es; all_forces := fs; all_virs := vs |}.

(** [if len(acc) > 0: data[key] = np.concatenate(acc, axis = 0)] *)
Definition concat_if_any {A} (conc : list A → result A) (acc : list A)
  : result (option A) :=
  match acc with
  | [] => Ok None
  | _ => r ← conc acc; Ok (Some r)
  end.

Definition to_system_data (path : string) (folder : system_dir)
  : result System.t :=
  data ← load_type folder None;
  acc ← for_each sets_step (sets folder) sets_acc0;
  n ← match nframes acc with
      | Some n => Ok n
      | None => Err (UnboundLocalError "nframes")
      end;
  cells ← Np.concatenate (all_cells acc);
  coords ← Np.concatenate_x3 (all_coords acc);
  energies ← concat_if_any Np.concatenate (all_eners acc);
  forces ← concat_if_any Np.concatenate_x3 (all_forces acc);
  virials ← concat_if_any Np.concatenate (all_virs acc);
  Ok {| System.atom_types := Topology.atom_types data;
        System.atom_numbs := Topology.atom_numbs data;
        System.atom_names := Topology.atom_names data;
        System.orig := Np.zeros 3;
        System.docname := path;
        System.frames := n;
        System.cells := cells;
        System.coords := coords;
        System.energies := energies;
        System.forces := forces;
        System.virials := virials;
        System.nopbc := if nopbc_file folder then Some true else None;
        System.has_virial := None |}.

(** Lines 141 to 145: the key [has_virial] of a system. *)
Definition with_has_virial (idata : System.t) : System.t :=
  let flags :=
    match System.virials idata with
    | Some vs =>
        if decide (length vs = System.frames idata)
        then Np.ones_bool (System.frames idata)
        else Np.zeros_bool (System.frames idata)
    | None => Np.zeros_bool (System.frames idata)
    end in
  {| System.atom_types := System.atom_types idata;
     System.atom_numbs := System.atom_numbs idata;
     System.atom_names := System.atom_names idata;
     System.orig := System.orig idata;
     System.docname := System.docname idata;
     System.frames := System.frames idata;
     System.cells := System.cells idata;
     System.coords := System.coords idata;
     System.energies := System.energies idata;
     System.forces := System.forces idata;
     System.virials := System.virials idata;
     System.nopbc := System.nopbc idata;
     System.has_virial := Some flags |}.

(** The first loop of [read_multi_deepmd]: [data_multi] maps the position
    of a subdirectory in the listing to its system; as a dict it keeps
    the order of insertion. *)
Definition scan_step (folder : string) (e : Z * (string * entry))
    (data_multi : list (Z * System.t)) : result (list (Z * System.t)) :=
  let '(i, (fi, ent)) := e in
  match ent with
  | Dir d =>
      let ifold := path_join folder fi in
      idata ← to_system_data ifold d;
      Ok (data_multi ++ [(i, with_has_virial idata)])
  | File => Ok data_multi
  end.

Definition enumerate {A} (l : list A) : list (Z * A) :=
  zip (seqZ 0 (Z.of_nat (length l))) l.

Definition scan (folder : string) (listing : list (string * entry))
  : result (list (Z * System.t)) :=
  for_each (scan_step folder) (enumerate listing) [].

(** The body of the two nested loops, lines 172 to 184, on the counter
    [ifr] and the collection [data]. *)
Definition merge_frame (idata : System.t) (j : Z) (st : Z * Merged.t)
  : result (Z * Merged.t) :=
  let '(ifr, data) := st in
  let ifr := ifr + 1 in
  atom_numbs ← setitem (Merged.atom_numbs data) ifr
                 (of_int (Z.of_nat (length (System.atom_types idata))));
  flags ← field "has_virial" (System.has_virial idata);
  flag ← getitem flags j;
  has_virial ← setitem (Merged.has_virial data) ifr (of_int (bool_to_Z flag));
  es ← field "energies" (System.energies idata);
  e ← getitem es j;
  energies ← setitem (Merged.energies data) ifr e;
  stored ← getitem has_virial ifr;
  virials ← (if truthy stored
             then vs ← field "virials" (System.virials idata);
                  v ← getitem vs j;
                  v6 ← convervirial v;
                  setitem (Merged.virials data) ifr v6
             else Ok (Merged.virials data));
  c ← getitem (System.cells idata) j;
  c9 ← Np.reshape_9 c;
  cells ← setitem (Merged.cells data) ifr c9;
  flat ← getitem cells ifr;
  vol ← vec2volume flat;
  volume ← setitem (Merged.volume data) ifr vol;
  co ← getitem (System.coords idata) j;
  fs ← field "forces" (System.forces idata);
  f ← getitem fs j;
  docname ← setitem (Merged.docname data) ifr (System.docname idata);
  Ok (ifr,
      {| Merged.nframe := Merged.nframe data;
         Merged.docname := docname;
         Merged.atom_numbs := atom_numbs;
         Merged.has_virial := has_virial;
         Merged.energies := energies;
         Merged.virials := virials;
         Merged.cells := cells;
         Merged.volume := volume;
         Merged.atom_types :=
           <[ifr := System.atom_types idata]> (Merged.atom_types data);
         Merged.coords := <[ifr := co]> (Merged.coords data);
         Merged.forces := <[ifr := f]> (Merged.forces data) |}).

Definition merge_system (e : Z * System.t) (st : Z * Merged.t)
  : result (Z * Merged.t) :=
  for_each (merge_frame e.2) (range (Z.of_nat (System.frames e.2))) st.

(** Lines 151 to 162: the collection before any frame is copied. *)
Definition allocate (n : Z) : Merged.t :=
  {| Merged.nframe := n;
     Merged.docname := replicate (Z.to_nat n) ""%string;
     Merged.atom_numbs := Np.zeros n;
     Merged.has_virial := Np.zeros n;
     Merged.energies := Np.zeros n;
     Merged.virials := Np.zeros2 n 6;
     Merged.cells := Np.zeros2 n 9;
     Merged.volume := Np.zeros n;
     Merged.atom_types := ∅;
     Merged.coords := ∅;
     Merged.forces := ∅ |}.

Definition merge (data_multi : list (Z * System.t)) : result Merged.t :=
  let nframes :=
    Np.sum ((λ e, Z.of_nat (System.frames e.2)) <$> data_multi) in
  n ← Np.index nframes;
  st ← for_each merge_system data_multi (-1, allocate n);
  Ok st.2.

Definition read_multi_deepmd (folder : string)
    (listing : list (string * entry)) : result Merged.t :=
  data_multi ← scan folder listing;
  merge data_multi.

(** [int(x)] of a float64.  It raises on nan ([ValueError]) and on the
    infinities ([OverflowError]); one exception stands for both. *)
Definition int_of_float (x : float) : result Z :=
  match to_int x with
  | Some n => Ok n
  | None => Err ValueError
  end.

Definition newline : string := String "010" "".

(** [' '.join(map(str, v))] *)
Definition join_floats (v : vector) : string :=
  join " " (str_float <$> v).

(** What [check_data] prints for frame [i], lines 193 to 203, after the
    text [out]; an exception leaves what the earlier [print] calls
    wrote. *)
Definition check_frame (data : Merged.t) (i : Z) (out : string)
  : string * result () :=
  match getitem (Merged.docname data) i with
  | Err e => (out, Err e)
  | Ok doc =>
  let out := out +:+ str_int i +:+ " " +:+ doc +:+ newline in
  match a ← getitem (Merged.atom_numbs data) i; int_of_float a with
  | Err e => (out, Err e)
  | Ok n =>
  let out := out +:+ "    atom_numbs " +:+ str_int n +:+ " " in
  match dict_get (Merged.atom_types data) i with
  | Err e => (out, Err e)
  | Ok types =>
  let out := out +:+ "atom_types " +:+ str_int (Z.of_nat (length types))
                 +:+ newline in
  match dict_get (Merged.coords data) i with
  | Err e => (out, Err e)
  | Ok cs =>
  let out := out +:+ "    coords " +:+ str_int (Z.of_nat (length cs))
                 +:+ " " in
  match dict_get (Merged.forces data) i with
  | Err e => (out, Err e)
  | Ok fs =>
      (out +:+ "forces " +:+ str_int (Z.of_nat (length fs)) +:+ newline,
       Ok ())
  end end end end end.

Fixpoint check_frames (data : Merged.t) (frames : list Z) (out : string)
  : string * result () :=
  match frames with
  | [] => (out, Ok ())
  | i :: rest =>
      match check_frame data i out with
      | (out', Ok _) => check_frames data rest out'
      | (out', Err e) => (out', Err e)
      end
  end.

(** [check_data]: the text it prints and how the call ended. *)
Definition check_data (data : Merged.t) : string * result () :=
  check_frames data (range (Merged.nframe data))
               ("Nframes: " +:+ str_int (Merged.nframe data) +:+ newline).

(** One step of the header loop of [dump], line 212. *)
Definition header_step (data : Merged.t) (i : Z) (outstr : string)
  : result string :=
  a ← getitem (Merged.atom_numbs data) i;
  n ← int_of_float a;
  h ← getitem (Merged.has_virial data) i;
  b ← int_of_float h;
  Ok (outstr +:+ str_int n +:+ " " +:+ str_int b +:+ newline).

Definition header (data : Merged.t) : result string :=
  for_each (header_step data) (range (Merged.nframe data))
           (str_int (Merged.nframe data) +:+ newline).

(** One step of the loop over the atoms of frame [i], lines 224 to 226. *)
Definition atom_step (data : Merged.t) (i j : Z) (outstr : string)
  : result string :=
  types ← dict_get (Merged.atom_types data) i;
  t ← getitem types j;
  cs ← dict_get (Merged.coords data) i;
  c ← getitem cs j;
  fs ← dict_get (Merged.forces data) i;
  f ← getitem fs j;
  Ok (outstr +:+ str_int (t + 1) +:+ " "
             +:+ join_floats c +:+ " "
             +:+ join_floats f +:+ newline).

(** The text of frame [i], lines 216 to 226. *)
Definition record (data : Merged.t) (i : Z) : result string :=
  flag ← getitem (Merged.has_virial data) i;
  e ← getitem (Merged.energies data) i;
  outstr ← (if truthy flag
            then v ← getitem (Merged.virials data) i;
                 Ok (str_float e +:+ " " +:+ join_floats v +:+ newline)
            else Ok (str_float e +:+ newline));
  c ← getitem (Merged.cells data) i;
  let outstr := outstr +:+ join_floats c +:+ newline in
  a ← getitem (Merged.atom_numbs data) i;
  n ← int_of_float a;
  for_each (atom_step data i) (range n) outstr.

(** The body loop of [dump] on the text [fout] has received so far: an
    exception leaves what the earlier [write] calls put there. *)
Fixpoint write_records (data : Merged.t) (frames : list Z) (fout : string)
  : string * result () :=
  match frames with
  | [] => (fout, Ok ())
  | i :: rest =>
      match record data i with
      | Ok outstr => write_records data rest (fout +:+ outstr)
      | Err e => (fout, Err e)
      end
  end.

(** [dump]: the text of [train.in] and how the call ended.  The file is
    opened before anything is written, so it exists, maybe empty,
    whatever happens next. *)
Definition dump (data : Merged.t) : string * result () :=
  match header data with
  | Ok outstr =>
      write_records data (range (Merged.nframe data)) outstr
  | Err e => (""%string, Err e)
  end.

(** [main]: [train.in] if [dump] was reached, and how the run ended. *)
Definition main (instr : string) (listing : list (string * entry))
  : option string * result () :=
  match read_multi_deepmd ("./" +:+ instr) listing with
  | Ok data => let '(fout, r) := dump data in (Some fout, r)
  | Err e => (None, Err e)
  end.

End Script.

(** * Notions the properties are stated with *)

(** ** Systems and frames *)

(** Whether the concatenated virial sequence has as many entries as the
    system's frame count [frames]. *)
Definition virial_complete `{Float64} (idata : System.t) : bool :=
  match System.virials idata with
  | Some vs => bool_decide (length vs = System.frames idata)
  | None => false
  end.

Section Frames.
Context `{Float64}.

(** What the collection holds for one global frame index. *)
Record frame : Type := {
  f_docname : string;
  f_atom_numbs : float;
  f_has_virial : float;
  f_energy : float;
  f_virial : vector;
  f_cell : vector;
  f_volume : float;
  f_atom_types : list Z;
  f_coords : matrix;
  f_forces : matrix
}.

Definition frame_at (data : Merged.t) (k : nat) : option frame :=
  docname ← Merged.docname data !! k;
  atom_numbs ← Merged.atom_numbs data !! k;
  has_virial ← Merged.has_virial data !! k;
  energy ← Merged.energies data !! k;
  virial ← Merged.virials data !! k;
  cell ← Merged.cells data !! k;
  volume ← Merged.volume data !! k;
  atom_types ← Merged.atom_types data !! Z.of_nat k;
  coords ← Merged.coords data !! Z.of_nat k;
  forces ← Merged.forces data !! Z.of_nat k;
  Some {| f_docname := docname; f_atom_numbs := atom_numbs;
          f_has_virial := has_virial; f_energy := energy;
          f_virial := virial; f_cell := cell; f_volume := volume;
          f_atom_types := atom_types; f_coords := coords;
          f_forces := forces |}.

Definition to_option {A} (r : result A) : option A :=
  match r with
  | Ok a => Some a
  | Err _ => None
  end.

Definition zero6 : vector := replicate 6 (of_int 0).

(** What frame [j] of the system [s] contributes. *)
Definition frame_of (s : System.t) (j : nat) : option frame :=
  flags ← System.has_virial s;
  flag ← flags !! j;
  es ← System.energies s;
  e ← es !! j;
  v6 ← (if flag : bool
        then vs ← System.virials s; v ← vs !! j; to_option (convervirial v)
        else Some zero6);
  c ← System.cells s !! j;
  c9 ← to_option (Np.reshape_9 c);
  vol ← to_option (vec2volume c9);
  co ← System.coords s !! j;
  fs ← System.forces s;
  f ← fs !! j;
  Some {| f_docname := System.docname s;
          f_atom_numbs := of_int (Z.of_nat (length (System.atom_types s)));
          f_has_virial := of_int (bool_to_Z flag);
          f_energy := e;
          f_virial := v6;
          f_cell := c9;
          f_volume := vol;
          f_atom_types := System.atom_types s;
          f_coords := co;
          f_forces := f |}.

(** The frames in the order the two nested loops visit them: each system
    of [data_multi] with the local indices below its [frames]. *)
Definition origins (dm : list (Z * System.t)) : list (System.t * nat) :=
  dm ≫= λ e, (λ j, (e.2, j)) <$> seq 0 (System.frames e.2).

Definition total_frames (dm : list (Z * System.t)) : Z :=
  foldr Z.add 0 ((λ e, Z.of_nat (System.frames e.2)) <$> dm).

(** The state of the merge after the frames [done]. *)
Record merge_inv (n : Z) (done : list (System.t * nat)) (st : Z * Merged.t)
  : Prop := {
  inv_ifr : st.1 = Z.of_nat (length done) - 1;
  inv_nframe : Merged.nframe st.2 = n;
  inv_docname : length (Merged.docname st.2) = Z.to_nat n;
  inv_atom_numbs : length (Merged.atom_numbs st.2) = Z.to_nat n;
  inv_has_virial : length (Merged.has_virial st.2) = Z.to_nat n;
  inv_energies : length (Merged.energies st.2) = Z.to_nat n;
  inv_virials : length (Merged.virials st.2) = Z.to_nat n;
  inv_cells : length (Merged.cells st.2) = Z.to_nat n;
  inv_volume : length (Merged.volume st.2) = Z.to_nat n;
  inv_done : ∀ k s j, done !! k = Some (s, j) →
             ∃ fr, frame_of s j = Some fr ∧ frame_at st.2 k = Some fr;
  inv_rest : ∀ k, (length done ≤ k < Z.to_nat n)%nat →
             Merged.virials st.2 !! k = Some zero6;
  inv_bound : (length done ≤ Z.to_nat n)%nat
}.

(** [ntypes] and [atom_numbs] for a type list whose largest entry is known. *)
Definition ntypes_of (atom_types : list Z) : Z :=
  match atom_types with
  | [] => 0
  | x :: l => foldr Z.max x l + 1
  end.

Definition atom_numbs_of (atom_types : list Z) : list Z :=
  (λ ii, Np.count_eq atom_types ii) <$> range (ntypes_of atom_types).

(** Every row of the matrix has three entries. *)
Definition rows3 (m : matrix) : Prop := Forall (λ row, length row = 3%nat) m.

(** Frames of one subset: the 3x3 blocks of [box.npy]. *)
Definition subset_frames (sd : set_dir) : nat :=
  match box_npy sd with
  | Some b => (length b `div` 9)%nat
  | None => 0%nat
  end.

(** A 3x3 matrix. *)
Definition is33 (m : matrix) : Prop := length m = 3%nat ∧ rows3 m.

(** The loop over the subsets of [to_system_data]. *)
Record sets_inv (done : list set_dir) (acc : sets_acc) : Prop := {
  si_nframes :
    match nframes acc with
    | None => done = []
    | Some n => (1 ≤ n)%nat ∧ (subset_frames <$> last done) = Some n
    end;
  si_cells : length (concat (all_cells acc)) = sum_list_with subset_frames done;
  si_cells33 : Forall (Forall is33) (all_cells acc);
  si_coords_len :
    length (concat (all_coords acc)) = length (concat (all_cells acc));
  si_coords : Forall (Forall rows3) (all_coords acc);
  si_eners : Forall (λ e, e ≠ []) (all_eners acc);
  si_forces : Forall (Forall rows3) (all_forces acc);
  si_virs : Forall (Forall is33) (all_virs acc)
}.

End Frames.

(** ** The text as a table *)

(** [s.split(c)] for a one-character separator. *)
Fixpoint split_on (c : ascii) (s : string) : list string :=
  match s with
  | EmptyString => [EmptyString]
  | String a s' =>
      if Ascii.eqb a c then EmptyString :: split_on c s'
      else match split_on c s' with
           | h :: t => String a h :: t
           | [] => [String a EmptyString]
           end
  end.

Definition nl : ascii := "010"%char.

(** The lines of a text whose lines all end in a line break. *)
Definition lines (text : string) : list string :=
  match reverse (split_on nl text) with
  | EmptyString :: r => reverse r
  | _ => split_on nl text
  end.

(** The table of blank-separated fields of a text, line by line. *)
Definition read_table (text : string) : list (list string) :=
  split_on " " <$> lines text.

(** The text of a table. *)
Definition unlines (ls : list string) : string :=
  foldr (λ l acc, l +:+ newline +:+ acc) ""%string ls.

Definition write_table (rows : list (list string)) : string :=
  unlines (join " " <$> rows).

Definition free_of (c : ascii) (s : string) : Prop :=
  forallb (λ x, negb (Ascii.eqb x c)) (list_ascii_of_string s) = true.

Section Rows.
Context `{Float64}.

(** The fields of the lines [dump] writes for one frame. *)
Definition header_row (fr : frame) : option (list string) :=
  a ← to_int (f_atom_numbs fr);
  b ← to_int (f_has_virial fr);
  Some [str_int a; str_int b].

Definition energy_row (fr : frame) : list string :=
  str_float (f_energy fr)
  :: (if truthy (f_has_virial fr) then str_float <$> f_virial fr else []).

Definition cell_row (fr : frame) : list string := str_float <$> f_cell fr.

Definition atom_row (fr : frame) (j : nat) : option (list string) :=
  t ← f_atom_types fr !! j;
  c ← f_coords fr !! j;
  f ← f_forces fr !! j;
  Some (str_int (t + 1) :: (str_float <$> c) ++ (str_float <$> f)).

(** [rows] are the lines of the record of [fr]: the energy line, the cell
    line and one line for each of the [int(atom_numbs)] atoms. *)
Definition frame_rows (fr : frame) (rows : list (list string)) : Prop :=
  ∃ a atoms,
    to_int (f_atom_numbs fr) = Some a ∧
    Forall2 (λ j row, atom_row fr j = Some row) (seq 0 (Z.to_nat a)) atoms ∧
    rows = energy_row fr :: cell_row fr :: atoms.

(** The shapes the arrays of a frame have after the merge. *)
Record frame_wf (fr : frame) : Prop := {
  wf_virial : length (f_virial fr) = 6%nat;
  wf_cell : length (f_cell fr) = 9%nat;
  wf_coords : rows3 (f_coords fr);
  wf_forces : rows3 (f_forces fr)
}.

(** The subdirectories of a listing with their positions in it. *)
Definition dirs_of (l : list (Z * (string * entry)))
  : list (Z * (string * system_dir)) :=
  omap (λ e, match e.2.2 with
             | Dir d => Some (e.1, (e.2.1, d))
             | File => None
             end) l.

Definition subdirs (listing : list (string * entry))
  : list (Z * (string * system_dir)) :=
  dirs_of (enumerate listing).

(** [x] is the entry of [data_multi] for the subdirectory [e]. *)
Definition system_of (folder : string) (e : Z * (string * system_dir))
    (x : Z * System.t) : Prop :=
  x.1 = e.1 ∧
  ∃ idata, to_system_data (path_join folder e.2.1) e.2.2 = Ok idata ∧
           x.2 = with_has_virial idata.

(** What the merge relies on in a system of [data_multi]. *)
Record system_wf (s : System.t) : Prop := {
  sw_frames : (1 ≤ System.frames s)%nat;
  sw_cells : (System.frames s ≤ length (System.cells s))%nat;
  sw_coords_len : length (System.coords s) = length (System.cells s);
  sw_cells33 : Forall is33 (System.cells s);
  sw_coords : Forall rows3 (System.coords s);
  sw_energies : ∀ es, System.energies s = Some es → es ≠ [];
  sw_forces : ∀ fs, System.forces s = Some fs → Forall rows3 fs;
  sw_virials : ∀ vs, System.virials s = Some vs → Forall is33 vs;
  sw_flags : System.has_virial s
             = Some (replicate (System.frames s) (virial_complete s))
}.

(** Frames of the last subset of a system directory. *)
Definition last_subset_frames (d : system_dir) : nat :=
  default 0%nat (subset_frames <$> last (sets d)).

(** Frames of all the subsets of a system directory. *)
Definition all_subset_frames (d : system_dir) : nat :=
  sum_list_with subset_frames (sets d).

End Rows.

(** ** The header block *)

Definition parse_pair (row : list string) : option (Z * Z) :=
  match row with
  | [a; b] => x ← int_of_str a; y ← int_of_str b; Some (x, y)
  | _ => None
  end.

(** The header block of a [train.in] text: the first line is the frame
    count, each of the next lines of that count is an atom count and a
    flag. *)
Definition parse_header (text : string) : option (list (Z * Z)) :=
  match read_table text with
  | [count] :: rows =>
      n ← int_of_str count;
      if decide (0 ≤ n ∧ (Z.to_nat n ≤ length rows)%nat)
      then mapM parse_pair (take (Z.to_nat n) rows)
      else None
  | _ => None
  end.

Section Header.
Context `{Float64}.

(** Atoms of a system directory, as [type.raw] lists them. *)
Definition atom_count (d : system_dir) : Z :=
  match type_raw d with
  | Some atom_types => Z.of_nat (length atom_types)
  | None => 0
  end.

(** No system has more atoms than float64 counts exactly. *)
Definition exact_counts (listing : list (string * entry)) : Prop :=
  Forall (λ e, atom_count e.2.2 ≤ 2 ^ 53) (subdirs listing).

(** The header line of a frame of system [s]. *)
Definition pair_of (s : System.t) : Z * Z :=
  (Z.of_nat (length (System.atom_types s)), bool_to_Z (virial_complete s)).

Definition pair_row (p : Z * Z) : list string := [str_int p.1; str_int p.2].

(** An atom line: the type index plus one, then six numbers. *)
Definition atom_line (t : Z) (row : list string) : Prop :=
  ∃ rest, row = str_int (t + 1) :: rest ∧ length rest = 6%nat.

(** A system whose energy and force sequences are there for all its
    frames. *)
Definition has_energies_and_forces (s : System.t) : Prop :=
  ∃ es fs, System.energies s = Some es ∧ System.forces s = Some fs ∧
           (System.frames s ≤ length es)%nat ∧
           (System.frames s ≤ length fs)%nat.

End Header.

(** ** Notions of the further properties *)

Section Further.
Context `{Float64}.

(** The entry [m[i,j]] of an array, if there is one. *)
Definition entry_at (m : matrix) (i j : nat) : option float :=
  row ← m !! i; row !! j.

(** Frame [j] of the system has a coordinate row and a force row for
    every atom of [type.raw]. *)
Definition rows_cover (s : System.t) (j : nat) : Prop :=
  ∃ co fs f,
    System.coords s !! j = Some co ∧
    System.forces s = Some fs ∧ fs !! j = Some f ∧
    (length (System.atom_types s) ≤ length co)%nat ∧
    (length (System.atom_types s) ≤ length f)%nat.

(** The atom lines of the frame, when every atom the frame counts has a
    type, a coordinate row and a force row. *)
Definition atom_rows (fr : frame) : option (list (list string)) :=
  a ← to_int (f_atom_numbs fr);
  mapM (atom_row fr) (seq 0 (Z.to_nat a)).

(** The integer keys of the three dicts of the collection lie between 0
    and the frame counter. *)
Definition keys_upto (st : Z * Merged.t) : Prop :=
  -1 ≤ st.1 ∧
  ∀ k, (is_Some (Merged.atom_types st.2 !! k)
        ∨ is_Some (Merged.coords st.2 !! k)
        ∨ is_Some (Merged.forces st.2 !! k)) → 0 ≤ k ≤ st.1.

(** [os.path.isdir] on an entry of the listing. *)
Definition is_dir (e : entry) : bool :=
  match e with
  | Dir _ => true
  | File => false
  end.

(** Two runs of the first loop over listings with the same directories
    in the same order. *)
Definition same_systems (r r' : result (list (Z * System.t))) : Prop :=
  match r, r' with
  | Ok dm, Ok dm' => dm.*2 = dm'.*2
  | Err e, Err e' => e = e'
  | _, _ => False
  end.

(** The lines [check_data] prints for global frame [k], which is frame
    [sj.2] of the system [sj.1]. *)
Definition report_of (k : nat) (sj : System.t * nat) : string :=
  let natoms := Z.of_nat (length (System.atom_types sj.1)) in
  let ncoords :=
    Z.of_nat (default 0%nat (length <$> System.coords sj.1 !! sj.2)) in
  let nforces :=
    Z.of_nat (default 0%nat
                (length <$> (System.forces sj.1 ≫= λ fs, fs !! sj.2))) in
  str_int (Z.of_nat k) +:+ " " +:+ System.docname sj.1 +:+ newline
  +:+ "    atom_numbs " +:+ str_int natoms +:+ " "
  +:+ "atom_types " +:+ str_int natoms +:+ newline
  +:+ "    coords " +:+ str_int ncoords +:+ " "
  +:+ "forces " +:+ str_int nforces +:+ newline.

(** [a is not None and a.size > 0] *)
Definition has_data (a : option vector) : bool :=
  match a with
  | Some v => bool_decide (0 < length v)%nat
  | None => false
  end.

(** The subsets in which the file [file] is there and not empty. *)
Definition subsets_with (file : set_dir → option vector)
    (sds : list set_dir) : list set_dir :=
  filter (λ sd, has_data (file sd)) sds.

(** Rows per frame of an array that was reshaped to [n, -1, 3]. *)
Definition rows_per_frame (file : option vector) (n : nat) : nat :=
  match file with
  | Some v => (length v `div` (n * 3))%nat
  | None => 0%nat
  end.

Definition coord_rows (sd : set_dir) : nat :=
  rows_per_frame (coord_npy sd) (subset_frames sd).

Definition force_rows (sd : set_dir) : nat :=
  rows_per_frame (force_npy sd) (subset_frames sd).

(** An array of shape [n, m, 3] for the subset: [n] frames of [m] rows. *)
Definition frames_rows (n m : nat) (arr : list matrix) : Prop :=
  length arr = n ∧ Forall (λ fr, length fr = m) arr.

(** What the loop of [to_system_data] has collected from the subsets
    [done]. *)
Record sets_arrays (done : list set_dir) (acc : sets_acc) : Prop := {
  sa_frames : Forall (λ sd, 1 ≤ subset_frames sd)%nat done;
  sa_coords :
    Forall2 (λ sd arr, frames_rows (subset_frames sd) (coord_rows sd) arr)
            done (all_coords acc);
  sa_eners :
    Forall2 (λ sd e, length e = subset_frames sd)
            (subsets_with energy_npy done) (all_eners acc);
  sa_forces :
    Forall2 (λ sd arr, frames_rows (subset_frames sd) (force_rows sd) arr)
            (subsets_with force_npy done) (all_forces acc);
  sa_virs :
    Forall2 (λ sd arr, length arr = subset_frames sd)
            (subsets_with virial_npy done) (all_virs acc)
}.

(** A subset directory of [n] frames for a system of [m] atoms: a cell,
    [m] coordinate rows, an energy and [m] force rows for each frame,
    and a virial for each frame or none. *)
Definition subset_wf (m : nat) (sd : set_dir) : Prop :=
  ∃ n b c e f,
    (1 ≤ n)%nat ∧
    box_npy sd = Some b ∧ length b = (n * 9)%nat ∧
    coord_npy sd = Some c ∧ length c = (m * (n * 3))%nat ∧
    energy_npy sd = Some e ∧ length e = n ∧
    force_npy sd = Some f ∧ length f = (m * (n * 3))%nat ∧
    match virial_npy sd with
    | Some v => v = [] ∨ length v = (n * 9)%nat
    | None => True
    end.

(** A system directory the script converts: a [type.raw] with at least
    one atom, enough names in [type_map.raw] if it is there, and at
    least one subset, all of them for that many atoms. *)
Definition system_dir_wf (d : system_dir) : Prop :=
  ∃ types,
    type_raw d = Some types ∧ types ≠ [] ∧
    match type_map_raw d with
    | Some names => (length (atom_numbs_of types) ≤ length names)%nat
    | None => True
    end ∧
    sets d ≠ [] ∧ Forall (subset_wf (length types)) (sets d).

Definition entry_wf (e : entry) : Prop :=
  match e with
  | Dir d => system_dir_wf d
  | File => True
  end.

(** Two entries of a listing with the same name and, for directories,
    the same [type.raw] and the same subsets; [type_map.raw] and the
    marker [nopbc] may differ. *)
Definition same_data (e e' : string * entry) : Prop :=
  e.1 = e'.1 ∧
  match e.2, e'.2 with
  | File, File => True
  | Dir d, Dir d' => type_raw d = type_raw d' ∧ sets d = sets d'
  | _, _ => False
  end.

(** A system without its names and its [nopbc] key. *)
Definition unnamed (s : System.t) : System.t :=
  {| System.atom_types := System.atom_types s;
     System.atom_numbs := System.atom_numbs s;
     System.atom_names := [];
     System.orig := System.orig s;
     System.docname := System.docname s;
     System.frames := System.frames s;
     System.cells := System.cells s;
     System.coords := System.coords s;
     System.energies := System.energies s;
     System.forces := System.forces s;
     System.virials := System.virials s;
     System.nopbc := None;
     System.has_virial := System.has_virial s |}.

(** The shapes the loop of [to_system_data] accepts in a subset whose
    [box.npy] and [coord.npy] are [b] and [c]. *)
Definition shapes_ok (sd : set_dir) (b c : vector) : Prop :=
  let n := (length b `div` 9)%nat in
  (length b `mod` 9 = 0)%nat ∧
  (1 ≤ n)%nat ∧
  (length c `mod` (n * 3) = 0)%nat ∧
  (∀ e, energy_npy sd = Some e → length e = n) ∧
  (∀ f, force_npy sd = Some f → f ≠ [] →
        (length f `mod` (n * 3) = 0)%nat) ∧
  (∀ v, virial_npy sd = Some v → v ≠ [] → length v = (n * 9)%nat).

(** A step that can only raise [ValueError]. *)
Definition raises_ValueError {A} (r : result A) : Prop :=
  ∀ e, r = Err e → e = ValueError.

(** The subset with only its two required files. *)
Definition required_only (sd : set_dir) : set_dir :=
  {| box_npy := box_npy sd; coord_npy := coord_npy sd;
     energy_npy := None; force_npy := None; virial_npy := None |}.

(** The system directory without the [energy.npy], [force.npy] and
    [virial.npy] of its subsets. *)
Definition required_files_only (d : system_dir) : system_dir :=
  {| type_raw := type_raw d; type_map_raw := type_map_raw d;
     nopbc_file := nopbc_file d; sets := required_only <$> sets d |}.

(** The loop variables of [to_system_data] on a system and on the same
    system with only the required files. *)
Definition same_required (acc acc' : sets_acc) : Prop :=
  nframes acc' = nframes acc ∧
  all_cells acc' = all_cells acc ∧
  all_coords acc' = all_coords acc ∧
  all_eners acc' = [] ∧ all_forces acc' = [] ∧ all_virs acc' = [].

(** What the first loop of [read_multi_deepmd] holds for a system: the
    number of concatenated frames, the number of concatenated virials,
    the entry [frames] and the flags. *)
Definition flag_summary (x : Z * System.t)
  : nat * option nat * nat * option (list bool) :=
  (length (System.cells x.2), length <$> System.virials x.2,
   System.frames x.2, System.has_virial x.2).

End Further.

(** ** Text without blanks *)

Lemma plain_app (a b : string) : plain a → plain b → plain (a +:+ b).
Proof.
  unfold plain. intros Ha Hb. induction a as [|c a IH]; simpl in *; [done|].
  apply andb_true_iff in Ha as [Hc Ha]. rewrite Hc. simpl. auto.
Qed.

Lemma plain_uint (d : Decimal.uint) : plain (NilEmpty.string_of_uint d).
Proof. unfold plain. induction d; simpl; auto. Qed.

Lemma plain_str_int (n : Z) : plain (str_int n).
Proof.
  unfold str_int, NilZero.string_of_int, NilZero.string_of_uint.
  destruct (Z.to_int n) as [d|d]; destruct d; try reflexivity;
    try apply (plain_uint (_ _));
    apply (plain_app "-"); try reflexivity; apply (plain_uint (_ _)).
Qed.

(** ** The binary64 instance of the float64 interface

    IEEE binary64 as [SpecFloat] defines it (53 bits of precision, exponent
    bound 1024), rounding to nearest even. *)

Module Binary64.

Definition prec : Z := 53.
Definition emax : Z := 1024.

Definition from_int (n : Z) : spec_float :=
  binary_normalize prec emax n 0 false.

(** Truncation toward zero of a finite value. *)
Definition trunc (x : spec_float) : option Z :=
  match x with
  | S754_zero _ => Some 0
  | S754_finite s m e => Some (cond_Zopp s (Z.shiftl (Z.pos m) e))
  | _ => None
  end.

Definition nonzero (x : spec_float) : bool :=
  match x with
  | S754_zero _ => false
  | _ => true
  end.

(** The text of a float.  Python prints the shortest decimal that reads
    back as the same float; here a whole number is printed that way
    ([1.0], [-12.0]) and any other finite value as its mantissa and
    binary exponent.  No statement below depends on the digits. *)
Definition str (x : spec_float) : string :=
  match x with
  | S754_zero s => if s then "-0.0" else "0.0"
  | S754_infinity s => if s then "-inf" else "inf"
  | S754_nan => "nan"
  | S754_finite s m e =>
      let sign : string := if s then "-" else "" in
      let whole := Z.shiftl (Z.pos m) e in
      if decide (Z.shiftl whole (- e) = Z.pos m)
      then sign +:+ str_int whole +:+ ".0"
      else sign +:+ str_int (Z.pos m) +:+ "p" +:+ str_int e
  end.

Lemma digits2_size p : digits2_pos p = Pos.size p.
Proof. induction p; simpl; congruence. Qed.

Lemma size_bound p : Z.pos p < 2 ^ 53 → Z.pos (Pos.size p) ≤ 53.
Proof.
  intros Hp. pose proof (Pos.size_le p) as Hle.
  destruct (Z_le_gt_dec (Z.pos (Pos.size p)) 53) as [|Hgt]; [done|].
  exfalso.
  assert (2 ^ 54 ≤ Z.pos (2 ^ Pos.size p)).
  { rewrite Pos2Z.inj_pow. apply Z.pow_le_mono_r; lia. }
  assert (Z.pos (2 ^ Pos.size p) ≤ Z.pos p~0)
    by (apply Pos2Z.pos_le_pos; exact Hle).
  rewrite Pos2Z.inj_xO in *. lia.
Qed.

Lemma iter_xO_size p k :
  Pos.size (Pos.iter xO p k) = (Pos.size p + k)%positive.
Proof.
  induction k using Pos.peano_ind.
  - simpl. lia.
  - rewrite Pos.iter_succ. simpl. rewrite IHk. lia.
Qed.

Lemma iter_xO_val p k : Z.pos (Pos.iter xO p k) = Z.pos p * 2 ^ Z.pos k.
Proof.
  induction k using Pos.peano_ind.
  - simpl. lia.
  - rewrite Pos.iter_succ, Pos2Z.inj_xO, IHk, Pos2Z.inj_succ, Z.pow_succ_r;
      lia.
Qed.

(** An integer below 2^53 is stored with its digits shifted up to 53
    bits and comes back unchanged. *)
Lemma trunc_from_int_lt n : 0 ≤ n < 2 ^ 53 → trunc (from_int n) = Some n.
Proof.
  intros [H0 Hn]. destruct n as [|p|p]; [done| |lia].
  unfold from_int, binary_normalize, binary_round.
  pose proof (size_bound p Hn) as Hs.
  rewrite digits2_size.
  assert (Hf : fexp prec emax (Z.pos (Pos.size p) + 0)
               = Z.pos (Pos.size p) - 53).
  { unfold fexp, emin, prec, emax. lia. }
  rewrite Hf. unfold shl_align.
  destruct (Z.pos (Pos.size p) - 53 - 0) as [|d|d] eqn:Hd; [|lia|].
  - unfold binary_round_aux, shr_fexp. simpl Zdigits2. rewrite digits2_size.
    replace (fexp prec emax (Z.pos (Pos.size p) + 0) - 0) with 0
      by (rewrite Hf; lia).
    simpl. rewrite digits2_size.
    replace (fexp prec emax (Z.pos (Pos.size p) + 0) - 0) with 0
      by (rewrite Hf; lia).
    simpl. done.
  - set (m := Pos.iter xO p d).
    assert (Hm : Z.pos (Pos.size m) = 53).
    { unfold m. rewrite iter_xO_size. lia. }
    set (e := Z.pos (Pos.size p) - 53).
    assert (He : e = - Z.pos d) by (unfold e; lia).
    assert (Hfe : fexp prec emax (Z.pos (Pos.size m) + e) - e = 0).
    { unfold fexp, emin, prec, emax. lia. }
    unfold binary_round_aux, shr_fexp. simpl Zdigits2.
    rewrite digits2_size, Hfe.
    simpl. rewrite digits2_size, Hfe. simpl.
    replace (e <=? emax - prec) with true
      by (symmetry; apply Z.leb_le; unfold emax, prec; lia).
    simpl. f_equal. rewrite Z.shiftl_div_pow2 by lia.
    unfold m. rewrite iter_xO_val, He, Z.opp_involutive.
    apply Z.div_mul. lia.
Qed.

Lemma trunc_from_int n : 0 ≤ n ≤ 2 ^ 53 → trunc (from_int n) = Some n.
Proof.
  intros Hn. destruct (decide (n = 2 ^ 53)) as [->|Hne].
  - vm_compute. reflexivity.
  - apply trunc_from_int_lt. lia.
Qed.

Lemma str_plain x : plain (str x).
Proof.
  destruct x as [[]|[]| |s m e]; try reflexivity.
  unfold str. case_decide.
  - apply plain_app; [by destruct s|].
    apply plain_app; [apply plain_str_int|reflexivity].
  - apply plain_app; [by destruct s|].
    apply plain_app; [apply plain_str_int|].
    apply (plain_app "p"); [reflexivity|apply plain_str_int].
Qed.

Lemma nonzero_bool (b : bool) : nonzero (from_int (bool_to_Z b)) = b.
Proof. by destruct b. Qed.

Lemma mul_bool (a b : bool) :
  SFmul prec emax (from_int (bool_to_Z a)) (from_int (bool_to_Z b))
  = from_int (bool_to_Z (a && b)).
Proof. by destruct a, b. Qed.

Lemma sub_bool (a : bool) :
  SFsub prec emax (from_int (bool_to_Z a)) (from_int 0)
  = from_int (bool_to_Z a).
Proof. by destruct a. Qed.

Lemma add_bool_l (a : bool) :
  SFadd prec emax (from_int 0) (from_int (bool_to_Z a))
  = from_int (bool_to_Z a).
Proof. by destruct a. Qed.

Lemma add_bool_r (a : bool) :
  SFadd prec emax (from_int (bool_to_Z a)) (from_int 0)
  = from_int (bool_to_Z a).
Proof. by destruct a. Qed.

#[global] Instance binary64 : Float64 := {|
  float := spec_float;
  of_int := from_int;
  to_int := trunc;
  truthy := nonzero;
  fadd := SFadd prec emax;
  fsub := SFsub prec emax;
  fmul := SFmul prec emax;
  str_float := str;
  to_int_of_int := trunc_from_int;
  truthy_of_bool := nonzero_bool;
  fmul_bool := mul_bool;
  fsub_bool := sub_bool;
  fadd_bool_l := add_bool_l;
  fadd_bool_r := add_bool_r;
  str_float_plain := str_plain
|}.

End Binary64.

(** ** Sample trees and their runs

    Two atoms of types 0 and 1.  [set_000] holds two frames with virial
    data, [set_001] one frame without. *)

Module Sample.
Import Binary64.

Definition fl (l : list Z) : list spec_float := from_int <$> l.

Definition set_000 : set_dir := {|
  box_npy := Some (fl [1; 0; 0; 0; 1; 0; 0; 0; 1;  2; 0; 0; 0; 2; 0; 0; 0; 2]);
  coord_npy := Some (fl [0; 0; 0; 1; 1; 1;  0; 0; 0; 2; 2; 2]);
  energy_npy := Some (fl [5; 6]);
  force_npy := Some (fl [1; 2; 3; 4; 5; 6;  6; 5; 4; 3; 2; 1]);
  virial_npy := Some (fl [1; 2; 3; 4; 5; 6; 7; 8; 9;  9; 8; 7; 6; 5; 4; 3; 2; 1])
|}.

Definition set_001 : set_dir := {|
  box_npy := Some (fl [3; 0; 0; 0; 3; 0; 0; 0; 3]);
  coord_npy := Some (fl [0; 0; 0; 3; 3; 3]);
  energy_npy := Some (fl [7]);
  force_npy := Some (fl [0; 0; 1; 0; 0; 2]);
  virial_npy := None
|}.

Definition system (ss : list set_dir) : system_dir :=
  {| type_raw := Some [0; 1]; type_map_raw := None; nopbc_file := false;
     sets := ss |}.

(** One system with virial data, one without. *)
Definition two_systems : list (string * entry) :=
  [("init.000"%string, Dir (system [set_000]));
   ("README"%string, File);
   ("init.001"%string, Dir (system [set_001]))].

(** One system with two subsets of two frames and one frame. *)
Definition two_subsets : list (string * entry) :=
  [("init.000"%string, Dir (system [set_000; set_001]))].

End Sample.

Module Evaluated.

(** [data_multi] and the merged collection of [Sample.two_systems]. *)
Definition data_multi : list (Z * System.t) :=
  Eval vm_compute in
    match scan "./deepmd" Sample.two_systems with
    | Ok dm => dm
    | Err _ => []
    end.

Definition merged : Merged.t :=
  Eval vm_compute in
    match read_multi_deepmd "./deepmd" Sample.two_systems with
    | Ok d => d
    | Err _ => allocate 0
    end.

Definition train_in : string :=
  Eval vm_compute in (dump merged).1.

Lemma scan_two_systems : scan "./deepmd" Sample.two_systems = Ok data_multi.
Proof. vm_cast_no_check (eq_refl (Ok data_multi)). Qed.

Lemma read_two_systems :
  read_multi_deepmd "./deepmd" Sample.two_systems = Ok merged.
Proof. vm_cast_no_check (eq_refl (Ok merged)). Qed.

Lemma main_two_systems :
  main "deepmd" Sample.two_systems = (Some train_in, Ok ()).
Proof. vm_cast_no_check (eq_refl (Some train_in, Ok ())). Qed.

End Evaluated.

(** A directory whose [type.raw] is empty and whose [type_map.raw] names
    one type. *)
Definition no_atoms_dir : system_dir :=
  {| type_raw := Some []; type_map_raw := Some ["H"%string];
     nopbc_file := false; sets := [] |}.

(** A system with energies but no force file. *)
Definition no_forces : list (string * entry) :=
  [("init.000"%string,
    Dir (Sample.system
           [{| box_npy := box_npy Sample.set_001;
               coord_npy := coord_npy Sample.set_001;
               energy_npy := energy_npy Sample.set_001;
               force_npy := None;
               virial_npy := None |}]))].

Definition no_forces_data : list (Z * System.t) :=
  Eval vm_compute in
    match scan "./deepmd" no_forces with
    | Ok dm => dm
    | Err _ => []
    end.

(** A system of two atoms whose subset has coordinates and forces for
    one atom only. *)
Definition short_rows : list (string * entry) :=
  [("init.000"%string,
    Dir (Sample.system
           [{| box_npy := box_npy Sample.set_001;
               coord_npy := Some (Sample.fl [0; 0; 0]);
               energy_npy := energy_npy Sample.set_001;
               force_npy := Some (Sample.fl [0; 0; 1]);
               virial_npy := None |}]))].

Definition short_rows_merged : Merged.t :=
  Eval vm_compute in
    match read_multi_deepmd "./deepmd" short_rows with
    | Ok d => d
    | Err _ => allocate 0
    end.

Definition short_rows_text : string :=
  Eval vm_compute in (dump short_rows_merged).1.

(** A subset of one frame with virial data, and a subset of two frames
    without. *)
Definition virial_subset : set_dir := {|
  box_npy := Some (Sample.fl [4; 0; 0; 0; 4; 0; 0; 0; 4]);
  coord_npy := Some (Sample.fl [0; 0; 0; 4; 4; 4]);
  energy_npy := Some (Sample.fl [8]);
  force_npy := Some (Sample.fl [0; 0; 3; 0; 0; 4]);
  virial_npy := Some (Sample.fl [2; 0; 0; 0; 2; 0; 0; 0; 2])
|}.

Definition plain_subset : set_dir := {|
  box_npy := box_npy Sample.set_000;
  coord_npy := coord_npy Sample.set_000;
  energy_npy := energy_npy Sample.set_000;
  force_npy := force_npy Sample.set_000;
  virial_npy := None
|}.

(** One system whose two subsets both have virial data, and one whose
    first subset has none. *)
Definition all_virial : list (string * entry) :=
  [("init.000"%string, Dir (Sample.system [Sample.set_000; virial_subset]))].

Definition late_virial : list (string * entry) :=
  [("init.000"%string, Dir (Sample.system [plain_subset; virial_subset]))].

(** * Properties *)

(** ** The exception monad and the loops *)

Lemma bind_Ok {A B} (f : A → result B) (m : result A) (b : B) :
  m ≫= f = Ok b ↔ ∃ a, m = Ok a ∧ f a = Ok b.
Proof.
  destruct m as [a|e]; simpl; split.
  - eauto.
  - by intros (a' & [= <-] & ?).
  - done.
  - by intros (? & ? & ?).
Qed.

Lemma bind_Err {A B} (f : A → result B) (m : result A) (e : exn) :
  m = Err e → m ≫= f = Err e.
Proof. by intros ->. Qed.

(** Take apart a hypothesis that a sequence of steps returned. *)
Ltac inv_ok :=
  repeat match goal with
  | H : Ok _ = Ok _ |- _ => injection H as H; try subst
  | H : Err _ = Ok _ |- _ => discriminate H
  | H : _ ≫= _ = Ok _ |- _ =>
      let x := fresh "x" in
      let Hx := fresh "Hx" in
      apply bind_Ok in H as (x & Hx & H)
  | H : (if decide ?P then _ else _) = Ok _ |- _ => destruct (decide P)
  end.

Lemma for_each_app {A S} (body : A → S → result S) (l1 l2 : list A) (s : S) :
  for_each body (l1 ++ l2) s = for_each body l1 s ≫= for_each body l2.
Proof.
  revert s. induction l1 as [|x l1 IH]; intros s; simpl; [done|].
  destruct (body x s) as [s1|e]; simpl; [apply IH|done].
Qed.

(** Loop invariant rule: a property of the items handled so far and the
    state, kept by every step that returns. *)
Lemma for_each_inv {A S} (body : A → S → result S) (P : list A → S → Prop)
    (l : list A) (s s' : S) :
  P [] s →
  (∀ pre x s1 s2, P pre s1 → body x s1 = Ok s2 → P (pre ++ [x]) s2) →
  for_each body l s = Ok s' →
  P l s'.
Proof.
  intros H0 Hstep.
  enough (Hgen : ∀ l pre s1, P pre s1 → for_each body l s1 = Ok s' →
                             P (pre ++ l) s') by (apply (Hgen l [] s H0)).
  clear l s H0. intros l. induction l as [|x l IH]; intros pre s1 Hp Hrun.
  - simpl in Hrun. injection Hrun as <-. by rewrite app_nil_r.
  - simpl in Hrun. destruct (body x s1) as [s2|e] eqn:Hb; [|done].
    simpl in Hrun. rewrite cons_middle, app_assoc.
    eapply IH; [|exact Hrun]. eapply Hstep; eauto.
Qed.

Lemma range_nat (n : nat) : range (Z.of_nat n) = Z.of_nat <$> seq 0 n.
Proof.
  unfold range, seqZ. rewrite Nat2Z.id. apply list_fmap_ext.
  intros i x _. lia.
Qed.

Lemma getitem_nat {A} (l : list A) (i : nat) (x : A) :
  getitem l (Z.of_nat i) = Ok x ↔ l !! i = Some x.
Proof.
  unfold getitem. destruct (decide (Z.of_nat i < 0)) as [|_]; [lia|].
  rewrite Nat2Z.id. case_decide as Hi.
  - destruct (l !! i) eqn:E; split; congruence.
  - split; [done|]. intros Hl. apply lookup_lt_Some in Hl. lia.
Qed.

Lemma getitem_Ok {A} (l : list A) (i : Z) (x : A) :
  0 ≤ i → getitem l i = Ok x → l !! Z.to_nat i = Some x.
Proof.
  intros Hi Hg. apply getitem_nat. by rewrite Z2Nat.id.
Qed.

Lemma setitem_Ok {A} (l l' : list A) (i : Z) (v : A) :
  0 ≤ i → setitem l i v = Ok l' →
  (Z.to_nat i < length l)%nat ∧ l' = <[Z.to_nat i := v]> l.
Proof.
  unfold setitem. intros Hi. destruct (decide (i < 0)); [lia|].
  case_decide; [|done]. intros [= <-]. split; [lia|done].
Qed.

Lemma setitem_nat {A} (l : list A) (i : nat) (v : A) :
  (i < length l)%nat → setitem l (Z.of_nat i) v = Ok (<[i := v]> l).
Proof.
  intros Hi. unfold setitem. destruct (decide (Z.of_nat i < 0)); [lia|].
  rewrite Nat2Z.id. case_decide; [done|lia].
Qed.

(** ** The virial reduction *)

(** C2. For every 3x3 virial matrix M, [convervirial] returns
    [M[0,0], M[1,1], M[2,2], M[0,1], M[1,2], M[0,2]]: the order
    xx, yy, zz, xy, yz, zx, with the off-diagonal components taken from the
    upper triangle. *)
Theorem convervirial_voigt `{Float64} (m00 m01 m02 m10 m11 m12 m20 m21 m22 : float) :
  convervirial [[m00; m01; m02]; [m10; m11; m12]; [m20; m21; m22]]
  = Ok [m00; m11; m22; m01; m12; m02].
Proof. reflexivity. Qed.

(** ** The per-frame virial flag of a system *)

Lemma with_has_virial_flags `{Float64} (idata : System.t) :
  System.has_virial (with_has_virial idata)
  = Some (replicate (System.frames idata) (virial_complete idata)).
Proof.
  unfold with_has_virial, virial_complete. simpl.
  destruct (System.virials idata) as [vs|]; [|done].
  unfold bool_decide. by destruct (decide_rel _ _ _).
Qed.

Lemma with_has_virial_frames `{Float64} (idata : System.t) :
  System.frames (with_has_virial idata) = System.frames idata.
Proof. done. Qed.

Lemma with_has_virial_complete `{Float64} (idata : System.t) :
  virial_complete (with_has_virial idata) = virial_complete idata.
Proof. done. Qed.

(** Every system the scan collects went through lines 141 to 145. *)
Lemma scan_flags `{Float64} folder listing dm :
  scan folder listing = Ok dm →
  Forall (λ e, ∃ idata, e.2 = with_has_virial idata) dm.
Proof.
  unfold scan. intros Hrun.
  refine (for_each_inv (scan_step folder)
            (λ _ acc, Forall (λ e, ∃ idata, e.2 = with_has_virial idata) acc)
            _ _ _ _ _ Hrun); [constructor|].
  intros pre [i [fi ent]] acc acc' Hacc Hstep. simpl in Hstep.
  destruct ent as [|d]; [by injection Hstep as <-|].
  inv_ok. apply Forall_app. split; [done|]. repeat constructor. eauto.
Qed.

(** ** The merged collection, frame by frame *)

Section Merge.
Context `{Float64}.

Lemma origins_length dm : Z.of_nat (length (origins dm)) = total_frames dm.
Proof.
  unfold origins, total_frames. induction dm as [|e dm IH]; [done|].
  rewrite bind_cons, length_app, length_fmap, length_seq, fmap_cons.
  simpl. lia.
Qed.

Lemma origins_snoc dm e :
  origins (dm ++ [e])
  = origins dm ++ ((λ j, (e.2, j)) <$> seq 0 (System.frames e.2)).
Proof.
  unfold origins. rewrite bind_app. simpl. by rewrite app_nil_r.
Qed.

Lemma merge_inv_allocate n : merge_inv n [] (-1, allocate n).
Proof.
  split; simpl; try done; try apply length_replicate; try lia.
  intros k Hk. unfold Np.zeros2. apply lookup_replicate. split; [done|lia].
Qed.

Lemma field_Ok {A} key (o : option A) x : field key o = Ok x ↔ o = Some x.
Proof. destruct o; simpl; split; congruence. Qed.

End Merge.

Section MergeLoop.
Context `{Float64}.

Lemma frame_at_other (d d' : Merged.t) (k k' : nat) :
  k' ≠ k →
  Merged.docname d' !! k' = Merged.docname d !! k' →
  Merged.atom_numbs d' !! k' = Merged.atom_numbs d !! k' →
  Merged.has_virial d' !! k' = Merged.has_virial d !! k' →
  Merged.energies d' !! k' = Merged.energies d !! k' →
  Merged.virials d' !! k' = Merged.virials d !! k' →
  Merged.cells d' !! k' = Merged.cells d !! k' →
  Merged.volume d' !! k' = Merged.volume d !! k' →
  Merged.atom_types d' !! Z.of_nat k' = Merged.atom_types d !! Z.of_nat k' →
  Merged.coords d' !! Z.of_nat k' = Merged.coords d !! Z.of_nat k' →
  Merged.forces d' !! Z.of_nat k' = Merged.forces d !! Z.of_nat k' →
  frame_at d' k' = frame_at d k'.
Proof. intros _. unfold frame_at. by intros -> -> -> -> -> -> -> -> -> ->. Qed.

Lemma merge_frame_inv n done s j st st' :
  merge_inv n done st →
  merge_frame s (Z.of_nat j) st = Ok st' →
  merge_inv n (done ++ [(s, j)]) st'.
Proof.
  intros Hinv Hrun. destruct st as [ifr data]. destruct Hinv as [Hifr Hn Hl1 Hl2 Hl3 Hl4 Hl5 Hl6 Hl7 Hdone Hrest Hb]; simpl in *.
  set (k := length done) in *.
  unfold merge_frame in Hrun.
  replace (ifr + 1) with (Z.of_nat k) in Hrun by lia. clear Hifr.
  inv_ok.
  repeat match goal with
  | H : setitem _ (Z.of_nat _) _ = Ok _ |- _ =>
      apply setitem_Ok in H as [? ->]; [|lia]; rewrite Nat2Z.id in *
  | H : field _ _ = Ok _ |- _ => apply field_Ok in H
  | H : getitem _ (Z.of_nat _) = Ok _ |- _ => apply getitem_nat in H
  end.
  rewrite list_lookup_insert_eq in Hx6 by done. injection Hx6 as <-.
  rewrite list_lookup_insert_eq in Hx11 by done. injection Hx11 as <-.
  rewrite truthy_of_bool in Hx7.
  assert (Hv : ∃ vrow, x7 = <[k := vrow]> (Merged.virials data) ∧
            (if x1 : bool
             then (System.virials s ≫= λ vs, vs !! j ≫= λ v, to_option (convervirial v)) = Some vrow
             else vrow = zero6)).
  { destruct x1.
    - inv_ok. apply field_Ok in Hx. apply getitem_nat in Hx2.
      apply setitem_Ok in Hx7 as [? ->]; [|lia]. rewrite Nat2Z.id.
      eexists. split; [done|]. rewrite Hx. simpl. rewrite Hx2. simpl.
      by rewrite Hx5.
    - injection Hx7 as <-. exists zero6. split; [|done].
      symmetry. apply list_insert_id. apply Hrest. lia. }
  destruct Hv as (vrow & -> & Hvrow).
  split; simpl; rewrite ?length_insert; try done.
  all: try (rewrite length_app; simpl; lia).
  - intros k' s' j' Hk'.
    destruct (decide (k' = k)) as [->|Hne].
    + rewrite lookup_app_r in Hk' by done. rewrite Nat.sub_diag in Hk'.
      injection Hk' as <- <-.
      eexists. split.
      * unfold frame_of.
        repeat (apply bind_Some; eexists; split;
                [first [eassumption
                       |by (destruct x1; [exact Hvrow|by rewrite Hvrow])
                       |by rewrite Hx9
                       |by rewrite Hx12]|]; cbn beta).
        reflexivity.
      * unfold frame_at. simpl.
        rewrite !list_lookup_insert_eq by lia. simpl.
        rewrite !lookup_insert_eq. simpl. reflexivity.
    + assert (k' < k)%nat.
      { apply lookup_lt_Some in Hk'. rewrite length_app in Hk'. simpl in Hk'. lia. }
      rewrite lookup_app_l in Hk' by done.
      destruct (Hdone _ _ _ Hk') as (fr & Hfr & Hat).
      exists fr. split; [done|]. rewrite <- Hat.
      apply frame_at_other with (k := k); simpl; try done;
        try (apply list_lookup_insert_ne; lia);
        apply lookup_insert_ne; lia.
  - intros k' Hk'. rewrite length_app in Hk'. simpl in Hk'.
    rewrite list_lookup_insert_ne by lia. apply Hrest. lia.
Qed.

Lemma for_each_fmap {A B S} (f : A → B) (body : B → S → result S) l s :
  for_each body (f <$> l) s = for_each (λ x, body (f x)) l s.
Proof.
  revert s. induction l as [|x l IH]; intros s; simpl; [done|].
  destruct (body (f x) s); simpl; [apply IH|done].
Qed.

Lemma merge_system_inv n pre e st st' :
  merge_inv n (origins pre) st →
  merge_system e st = Ok st' →
  merge_inv n (origins (pre ++ [e])) st'.
Proof.
  intros Hinv Hrun. unfold merge_system in Hrun.
  rewrite range_nat, for_each_fmap in Hrun.
  rewrite origins_snoc.
  refine (for_each_inv _
            (λ js st, merge_inv n (origins pre ++ ((λ j, (e.2, j)) <$> js)) st)
            _ _ _ _ _ Hrun).
  - simpl. by rewrite app_nil_r.
  - intros js j s1 s2 Hs1 Hstep. rewrite fmap_app, app_assoc. simpl.
    by eapply merge_frame_inv.
Qed.

Lemma merge_loop_inv n dm st :
  for_each merge_system dm (-1, allocate n) = Ok st →
  merge_inv n (origins dm) st.
Proof.
  intros Hrun.
  refine (for_each_inv _ (λ pre st, merge_inv n (origins pre) st)
            _ _ _ _ _ Hrun).
  - apply merge_inv_allocate.
  - intros pre e s1 s2. apply merge_system_inv.
Qed.

(** The merge, when it returns: the frame count is the sum of the
    [frames] entries, and global frame [k] holds what the [k]-th pair of
    system and local index contributes. *)
Lemma merge_frames dm d :
  merge dm = Ok d →
  dm ≠ [] ∧
  Merged.nframe d = total_frames dm ∧
  Merged.nframe d = Z.of_nat (length (origins dm)) ∧
  (∀ k s j, origins dm !! k = Some (s, j) →
            ∃ fr, frame_of s j = Some fr ∧ frame_at d k = Some fr).
Proof.
  unfold merge. intros Hrun. inv_ok.
  assert (Hdm : dm ≠ [] ∧ x = total_frames dm).
  { unfold Np.sum in Hx. unfold total_frames.
    destruct dm as [|e dm]; simpl in *; [done|].
    injection Hx as <-. done. }
  destruct Hdm as [Hne ->].
  apply merge_loop_inv in Hx0. destruct Hx0 as [_ Hn _ _ _ _ _ _ _ Hdone _ _].
  repeat split; try done.
  by rewrite origins_length.
Qed.
End MergeLoop.

Section LoadType.
Context `{Float64}.

Lemma mapM_getitem_seq {A} (l : list A) (i n : nat) :
  (i + n ≤ length l)%nat →
  mapM (getitem l) (Z.of_nat <$> seq i n) = Ok (take n (drop i l)).
Proof.
  revert i. induction n as [|n IH]; intros i Hi; [done|].
  destruct (lookup_lt_is_Some_2 l i) as [x Hx]; [lia|].
  simpl. rewrite (proj2 (getitem_nat l i x) Hx). simpl.
  rewrite IH by lia. simpl.
  by rewrite (drop_S _ _ _ Hx).
Qed.

Lemma mapM_getitem_range {A} (l : list A) (n : nat) :
  (n ≤ length l)%nat →
  mapM (getitem l) (range (Z.of_nat n)) = Ok (take n l).
Proof. intros Hn. rewrite range_nat. by apply (mapM_getitem_seq l 0). Qed.

(** [load_type] on a directory whose [type.raw] lists at least one atom:
    the assertion on the number of names is the only way to fail. *)
Lemma load_type_spec folder type_map atom_types :
  type_raw folder = Some atom_types →
  atom_types ≠ [] →
  let numbs := atom_numbs_of atom_types in
  let names := resolve_type_map (type_map_raw folder) type_map (ntypes_of atom_types) in
  load_type folder type_map =
  if decide (length numbs ≤ length names)%nat
  then Ok {| Topology.atom_types := atom_types;
             Topology.atom_numbs := numbs;
             Topology.atom_names := take (length numbs) names |}
  else Err AssertionError.
Proof.
  intros Hraw Hne. unfold load_type. rewrite Hraw. simpl.
  destruct atom_types as [|x l]; [done|]. simpl.
  unfold atom_numbs_of, ntypes_of.
  case_decide; [|done].
  by rewrite mapM_getitem_range.
Qed.

Lemma load_type_types folder type_map t :
  load_type folder type_map = Ok t →
  type_raw folder = Some (Topology.atom_types t).
Proof.
  unfold load_type. intros Hrun. inv_ok. simpl.
  unfold np_load in *. destruct (type_raw folder); by inv_ok.
Qed.

End LoadType.

Section SystemFacts.
Context `{Float64}.

Lemma reshape_replicate_lengths {A} (m n : nat) (l : list A) :
  length l = (m * n)%nat →
  Forall (λ c, length c = n) (reshape (replicate m n) l).
Proof.
  revert l. induction m as [|m IH]; intros l Hl; simpl; [constructor|].
  constructor.
  - rewrite length_take. lia.
  - apply IH. rewrite length_drop. lia.
Qed.

Lemma reshape_x3_spec (a : vector) (n : nat) (r : list matrix) :
  Np.reshape_x3 a n = Ok r →
  (1 ≤ n)%nat ∧ length r = n ∧ Forall rows3 r.
Proof.
  unfold Np.reshape_x3. case_decide as Hk; [done|]. intros [= <-].
  assert (n ≠ 0%nat) by lia.
  set (m := (length a `div` (n * 3))%nat).
  split; [lia|]. split.
  - by rewrite length_fmap, length_reshape, length_replicate.
  - apply Forall_fmap.
    assert (Hlen : length a = (n * (m * 3))%nat).
    { unfold m. pose proof (Nat.div_mod_eq (length a) (n * 3)). lia. }
    eapply Forall_impl; [apply (reshape_replicate_lengths _ _ _ Hlen)|].
    intros fr Hfr. simpl. by apply reshape_replicate_lengths.
Qed.

Lemma reshape_33_spec (a : vector) (n : nat) (r : list matrix) :
  Np.reshape_33 a n = Ok r →
  length a = (n * 9)%nat ∧ length r = n ∧ Forall is33 r.
Proof.
  unfold Np.reshape_33. case_decide as Hlen; [|done]. intros [= <-].
  split; [done|]. split.
  - by rewrite length_fmap, length_reshape, length_replicate.
  - apply Forall_fmap.
    eapply Forall_impl; [apply (reshape_replicate_lengths _ _ _ Hlen)|].
    intros c Hc. split; [done|].
    by apply (reshape_replicate_lengths 3 3).
Qed.

Lemma append_if_data_spec {A} (P : A → Prop) a (reshape : vector → result A) acc acc' :
  append_if_data a reshape acc = Ok acc' →
  (∀ v r, reshape v = Ok r → P r) →
  Forall P acc → Forall P acc'.
Proof.
  unfold append_if_data. intros Hrun HP Hacc.
  destruct a as [v|]; [|by injection Hrun as <-].
  case_decide; [|by injection Hrun as <-].
  inv_ok. apply Forall_app. split; [done|]. repeat constructor. eauto.
Qed.

Lemma sets_step_inv done ii acc acc' :
  sets_inv done acc → sets_step ii acc = Ok acc' → sets_inv (done ++ [ii]) acc'.
Proof.
  intros [Hn Hc Hc33 Hcl Hco He Hf Hv] Hrun. unfold sets_step, load_set in Hrun.
  inv_ok.
  apply reshape_33_spec in Hx2 as (Hlen & Hx2 & H33).
  pose proof (reshape_x3_spec _ _ _ Hx3) as (Hn1 & Hlen3 & Hrows).
  assert (Hsub : subset_frames ii = x).
  { unfold subset_frames. unfold np_load in Hx0. destruct (box_npy ii); [|done].
    injection Hx0 as ->. rewrite Hlen. by apply Nat.div_mul. }
  split; simpl.
  - split; [done|]. rewrite last_snoc. simpl. by rewrite Hsub.
  - rewrite concat_app, length_app, sum_list_with_app, Hc. simpl.
    rewrite app_nil_r, Hsub. lia.
  - apply Forall_app. split; [done|]. by repeat constructor.
  - rewrite !concat_app, !length_app, Hcl. simpl. rewrite !app_nil_r. lia.
  - apply Forall_app. split; [done|]. by repeat constructor.
  - eapply (append_if_data_spec _ _ _ _ _ Hx5); [|done].
    intros v r Hr. unfold Np.reshape_1 in Hr. case_decide; [|done].
    injection Hr as <-. destruct v; simpl in *; [lia|done].
  - eapply (append_if_data_spec _ _ _ _ _ Hx6); [|done].
    intros v r Hr. by apply reshape_x3_spec in Hr as (_ & _ & ?).
  - eapply (append_if_data_spec _ _ _ _ _ Hx7); [|done].
    intros v r Hr. by apply reshape_33_spec in Hr as (_ & _ & ?).
Qed.

Lemma concatenate_x3_rows (arrs : list (list matrix)) r :
  Np.concatenate_x3 arrs = Ok r → Forall (Forall rows3) arrs → Forall rows3 r.
Proof.
  unfold Np.concatenate_x3. destruct arrs as [|a rest]; [done|].
  case_decide; [|done]. intros [= <-] Hrows.
  by apply (Forall_concat rows3 (a :: rest)).
Qed.

Lemma concat_if_any_spec {A} (P : A → Prop) (conc : list A → result A) acc r :
  concat_if_any conc acc = Ok (Some r) →
  (∀ r, acc ≠ [] → conc acc = Ok r → P r) → P r.
Proof.
  unfold concat_if_any. destruct acc as [|a acc]; [done|].
  intros Hrun HP. inv_ok. by apply HP.
Qed.

Lemma concatenate_Forall {A} (P : A → Prop) (arrs : list (list A)) r :
  Np.concatenate arrs = Ok r → Forall (Forall P) arrs → Forall P r.
Proof.
  unfold Np.concatenate. destruct arrs as [|a rest]; [done|].
  intros [= <-] Harrs. by apply (Forall_concat P (a :: rest)).
Qed.

(** What [to_system_data] returns. *)
Lemma to_system_data_spec path folder s :
  to_system_data path folder = Ok s →
  type_raw folder = Some (System.atom_types s) ∧
  System.docname s = path ∧
  (1 ≤ System.frames s)%nat ∧
  (subset_frames <$> last (sets folder)) = Some (System.frames s) ∧
  length (System.cells s) = sum_list_with subset_frames (sets folder) ∧
  length (System.coords s) = length (System.cells s) ∧
  Forall is33 (System.cells s) ∧
  Forall rows3 (System.coords s) ∧
  (∀ es, System.energies s = Some es → es ≠ []) ∧
  (∀ fs, System.forces s = Some fs → Forall rows3 fs) ∧
  (∀ vs, System.virials s = Some vs → Forall is33 vs).
Proof.
  unfold to_system_data. intros Hrun. inv_ok. simpl.
  assert (Hinv : sets_inv (sets folder) x0).
  { refine (for_each_inv _ sets_inv _ _ _ _ _ Hx0).
    - by split.
    - intros pre ii s1 s2. apply sets_step_inv. }
  destruct Hinv as [Hn Hc Hc33 Hcl Hco He Hf Hv].
  destruct (nframes x0) as [n|]; [|done]. injection Hx1 as ->.
  destruct Hn as [Hn1 Hlast].
  apply load_type_types in Hx.
  assert (Hcells : x2 = concat (all_cells x0)).
  { unfold Np.concatenate in Hx2. destruct (all_cells x0); by inv_ok. }
  assert (Hcoords : x3 = concat (all_coords x0)).
  { unfold Np.concatenate_x3 in Hx3. destruct (all_coords x0); [done|].
    case_decide; by inv_ok. }
  repeat split; try done.
  - by rewrite Hcells.
  - by rewrite Hcells, Hcoords.
  - by eapply concatenate_Forall.
  - by eapply concatenate_x3_rows.
  - intros es ->.
    apply (concat_if_any_spec (λ e, e ≠ []) _ _ _ Hx4).
    intros r Hne Hr. unfold Np.concatenate in Hr.
    destruct (all_eners x0) as [|e rest]; [done|]. injection Hr as <-.
    apply Forall_cons in He as [He _]. simpl. by destruct e.
  - intros fs ->.
    apply (concat_if_any_spec (Forall rows3) _ _ _ Hx5).
    intros r _ Hr. by eapply concatenate_x3_rows.
  - intros vs ->.
    apply (concat_if_any_spec (Forall is33) _ _ _ Hx6).
    intros r _ Hr. by eapply concatenate_Forall.
Qed.

End SystemFacts.

(** ** Reading the text back *)

Lemma plain_free_blank s : plain s → free_of " " s.
Proof.
  unfold plain, free_of. induction s as [|a s IH]; simpl; [done|].
  intros [Ha Hs]%andb_true_iff. rewrite (IH Hs), andb_true_r.
  unfold plain_char in Ha. apply negb_true_iff, orb_false_iff in Ha as [-> _]. done.
Qed.

Lemma plain_free_nl s : plain s → free_of nl s.
Proof.
  unfold plain, free_of, nl. induction s as [|a s IH]; simpl; [done|].
  intros [Ha Hs]%andb_true_iff. rewrite (IH Hs), andb_true_r.
  unfold plain_char in Ha. apply negb_true_iff, orb_false_iff in Ha as [_ ->]. done.
Qed.

Lemma free_of_app c a b : free_of c a → free_of c b → free_of c (a +:+ b).
Proof.
  unfold free_of. intros Ha Hb. induction a as [|x a IH]; simpl in *; [done|].
  apply andb_true_iff in Ha as [-> Ha]. simpl. auto.
Qed.

Lemma split_on_nonempty c s : split_on c s ≠ [].
Proof.
  destruct s as [|a s]; simpl; [done|].
  destruct (Ascii.eqb a c); [done|]. by destruct (split_on c s).
Qed.

Lemma split_on_app c a rest :
  free_of c a → split_on c (a +:+ String c rest) = a :: split_on c rest.
Proof.
  unfold free_of. induction a as [|x a IH]; simpl.
  - intros _. by rewrite Ascii.eqb_refl.
  - intros [Hx Ha]%andb_true_iff. apply negb_true_iff in Hx. rewrite Hx.
    by rewrite (IH Ha).
Qed.

Lemma split_on_free c a : free_of c a → split_on c a = [a].
Proof.
  unfold free_of. induction a as [|x a IH]; simpl; [done|].
  intros [Hx Ha]%andb_true_iff. apply negb_true_iff in Hx. rewrite Hx.
  by rewrite (IH Ha).
Qed.

Lemma append_cons x (a b : string) : String x a +:+ b = String x (a +:+ b).
Proof. reflexivity. Qed.

Lemma append_assoc (a b c : string) : (a +:+ b) +:+ c = a +:+ b +:+ c.
Proof. induction a as [|x a IH]; [done|]. by rewrite !append_cons, IH. Qed.

Lemma append_nil_r (a : string) : a +:+ "" = a.
Proof. induction a as [|x a IH]; [done|]. by rewrite append_cons, IH. Qed.

Lemma unlines_app l1 l2 : unlines (l1 ++ l2) = unlines l1 +:+ unlines l2.
Proof.
  induction l1 as [|l l1 IH]; simpl; [done|].
  by rewrite IH, !append_assoc.
Qed.

Lemma split_on_unlines ls :
  Forall (free_of nl) ls → split_on nl (unlines ls) = ls ++ [EmptyString].
Proof.
  induction 1 as [|l ls Hl Hls IH]; simpl; [done|].
  unfold newline. change (String "010" "" +:+ unlines ls) with (String nl (unlines ls)).
  by rewrite split_on_app, IH.
Qed.

Lemma lines_unlines ls : Forall (free_of nl) ls → lines (unlines ls) = ls.
Proof.
  intros Hls. unfold lines. rewrite split_on_unlines by done.
  rewrite reverse_snoc. simpl. apply reverse_involutive.
Qed.

Lemma join_cons sep x y l :
  join sep (x :: y :: l) = x +:+ sep +:+ join sep (y :: l).
Proof. done. Qed.

Lemma split_on_join toks :
  toks ≠ [] → Forall (free_of " ") toks →
  split_on " " (join " " toks) = toks.
Proof.
  intros Hne Hall. induction Hall as [|t toks Ht Htoks IH]; [done|].
  destruct toks as [|u toks].
  - simpl. by apply split_on_free.
  - rewrite join_cons.
    change (" " +:+ join " " (u :: toks)) with (String " " (join " " (u :: toks))).
    rewrite split_on_app by done. by rewrite IH.
Qed.

Lemma join_free_nl toks : Forall plain toks → free_of nl (join " " toks).
Proof.
  induction 1 as [|t toks Ht Htoks IH]; [done|].
  destruct toks as [|u toks]; [by apply plain_free_nl|].
  rewrite join_cons. apply free_of_app; [by apply plain_free_nl|].
  by apply (free_of_app nl " ").
Qed.

(** Writing a table and reading it back gives the same table, when no row
    is empty and no field holds a blank or a line break. *)
Lemma read_write_table rows :
  Forall (λ toks, toks ≠ [] ∧ Forall plain toks) rows →
  read_table (write_table rows) = rows.
Proof.
  intros Hrows. unfold read_table, write_table.
  rewrite lines_unlines.
  - rewrite <- list_fmap_compose. rewrite <- (list_fmap_id rows) at 2.
    apply Forall_fmap_ext_1. eapply Forall_impl; [exact Hrows|].
    intros toks [Hne Hp]. simpl. apply split_on_join; [done|].
    eapply Forall_impl; [exact Hp|]. apply plain_free_blank.
  - apply Forall_fmap. eapply Forall_impl; [exact Hrows|].
    intros toks [_ Hp]. by apply join_free_nl.
Qed.

Section Layout.
Context `{Float64}.

Lemma frame_at_Some d k fr :
  frame_at d k = Some fr →
  Merged.docname d !! k = Some (f_docname fr) ∧
  Merged.atom_numbs d !! k = Some (f_atom_numbs fr) ∧
  Merged.has_virial d !! k = Some (f_has_virial fr) ∧
  Merged.energies d !! k = Some (f_energy fr) ∧
  Merged.virials d !! k = Some (f_virial fr) ∧
  Merged.cells d !! k = Some (f_cell fr) ∧
  Merged.volume d !! k = Some (f_volume fr) ∧
  Merged.atom_types d !! Z.of_nat k = Some (f_atom_types fr) ∧
  Merged.coords d !! Z.of_nat k = Some (f_coords fr) ∧
  Merged.forces d !! Z.of_nat k = Some (f_forces fr).
Proof.
  unfold frame_at. intros Hfr.
  repeat match goal with
  | H : _ ≫= _ = Some _ |- _ =>
      let x := fresh "y" in
      let Hx := fresh "Hy" in
      apply bind_Some in H as (x & Hx & H)
  end.
  injection Hfr as <-. simpl. done.
Qed.

Lemma range_Z (n : Z) : range n = Z.of_nat <$> seq 0 (Z.to_nat n).
Proof.
  unfold range, seqZ. apply list_fmap_ext. intros i x _. lia.
Qed.

Lemma join_app sep (l1 l2 : list string) :
  l1 ≠ [] → l2 ≠ [] →
  join sep (l1 ++ l2) = join sep l1 +:+ sep +:+ join sep l2.
Proof.
  intros H1 H2. induction l1 as [|x l1 IH]; [done|].
  destruct l1 as [|y l1].
  - simpl. destruct l2; [done|]. done.
  - change ((x :: y :: l1) ++ l2) with (x :: y :: (l1 ++ l2)).
    rewrite !join_cons. change (y :: l1 ++ l2) with ((y :: l1) ++ l2).
    rewrite IH by done. by rewrite !append_assoc.
Qed.

Lemma join_cons_app (x : string) (l1 l2 : list string) :
  l1 ≠ [] → l2 ≠ [] →
  join " " (x :: l1 ++ l2)
  = x +:+ " " +:+ join " " l1 +:+ " " +:+ join " " l2.
Proof.
  intros H1 H2. destruct l1 as [|y l1]; [done|].
  change (x :: (y :: l1) ++ l2) with (x :: y :: (l1 ++ l2)).
  rewrite join_cons. change (y :: l1 ++ l2) with ((y :: l1) ++ l2).
  by rewrite join_app.
Qed.

Lemma join_cons_ne (x : string) (l : list string) :
  l ≠ [] → join " " (x :: l) = x +:+ " " +:+ join " " l.
Proof. destruct l; [done|]. intros _. apply join_cons. Qed.

Lemma join_one sep (x : string) : join sep [x] = x.
Proof. done. Qed.

Lemma write_table_one row : write_table [row] = join " " row +:+ newline.
Proof. unfold write_table, unlines. cbn [fmap list_fmap foldr]. by rewrite append_nil_r. Qed.

Lemma write_table_cons row rows :
  write_table (row :: rows) = join " " row +:+ newline +:+ write_table rows.
Proof. done. Qed.

Lemma write_table_app rows1 rows2 :
  write_table (rows1 ++ rows2) = write_table rows1 +:+ write_table rows2.
Proof. unfold write_table. by rewrite fmap_app, unlines_app. Qed.

Lemma fmap_nonempty {A B} (f : A → B) (l : list A) : l ≠ [] → f <$> l ≠ [].
Proof. by destruct l. Qed.

Lemma length_nonempty {A} (l : list A) (n : nat) :
  length l = S n → l ≠ [].
Proof. by destruct l. Qed.

Lemma header_step_ok d k fr row out :
  frame_at d k = Some fr →
  header_row fr = Some row →
  header_step d (Z.of_nat k) out = Ok (out +:+ write_table [row]).
Proof.
  intros Hfr Hrow. apply frame_at_Some in Hfr as (_ & Ha & Hh & _).
  unfold header_row in Hrow.
  destruct (to_int (f_atom_numbs fr)) as [a|] eqn:Ea; [|done].
  destruct (to_int (f_has_virial fr)) as [b|] eqn:Eb; [|done].
  injection Hrow as <-.
  unfold header_step, int_of_float.
  rewrite (proj2 (getitem_nat _ _ _) Ha). simpl. rewrite Ea. simpl.
  rewrite (proj2 (getitem_nat _ _ _) Hh). simpl. rewrite Eb. simpl.
  by rewrite write_table_one, join_cons, join_one, !append_assoc.
Qed.

Lemma atom_step_spec d k j fr out out' :
  frame_at d k = Some fr → frame_wf fr →
  atom_step d (Z.of_nat k) (Z.of_nat j) out = Ok out' →
  ∃ row, atom_row fr j = Some row ∧ out' = out +:+ write_table [row].
Proof.
  intros Hfr Hwf Hrun.
  apply frame_at_Some in Hfr as (_ & _ & _ & _ & _ & _ & _ & Ht & Hc & Hf).
  unfold atom_step, dict_get in Hrun. rewrite Ht, Hc, Hf in Hrun. simpl in Hrun.
  inv_ok. apply getitem_nat in Hx, Hx0, Hx1.
  exists (str_int (x + 1) :: (str_float <$> x0) ++ (str_float <$> x1)). split.
  - unfold atom_row. rewrite Hx. simpl. rewrite Hx0. simpl. by rewrite Hx1.
  - destruct Hwf as [_ _ Hco Hfo].
    assert (length x0 = 3%nat) as Hl0.
    { eapply (proj1 (Forall_lookup _ _) Hco); eauto. }
    assert (length x1 = 3%nat) as Hl1.
    { eapply (proj1 (Forall_lookup _ _) Hfo); eauto. }
    rewrite write_table_one.
    rewrite join_cons_app by (apply fmap_nonempty; eapply length_nonempty; eauto).
    unfold join_floats. by rewrite !append_assoc.
Qed.

Lemma atoms_spec d k fr (js : list nat) out out' :
  frame_at d k = Some fr → frame_wf fr →
  for_each (λ j, atom_step d (Z.of_nat k) (Z.of_nat j)) js out = Ok out' →
  ∃ rows, Forall2 (λ j row, atom_row fr j = Some row) js rows ∧
          out' = out +:+ write_table rows.
Proof.
  intros Hfr Hwf Hrun.
  refine (for_each_inv _
            (λ js out', ∃ rows,
               Forall2 (λ j row, atom_row fr j = Some row) js rows ∧
               out' = out +:+ write_table rows) _ _ _ _ _ Hrun).
  - exists []. split; [constructor|]. by rewrite append_nil_r.
  - intros pre j s1 s2 (rows & Hrows & ->) Hstep.
    destruct (atom_step_spec _ _ _ _ _ _ Hfr Hwf Hstep) as (row & Hrow & ->).
    exists (rows ++ [row]). split.
    + apply Forall2_app; [done|]. by repeat constructor.
    + by rewrite write_table_app, append_assoc.
Qed.

Lemma record_spec d k fr txt :
  frame_at d k = Some fr → frame_wf fr →
  record d (Z.of_nat k) = Ok txt →
  ∃ rows, frame_rows fr rows ∧ txt = write_table rows.
Proof.
  intros Hfr Hwf Hrun.
  pose proof (frame_at_Some _ _ _ Hfr)
    as (_ & Ha & Hh & He & Hv & Hc & _ & _ & _ & _).
  unfold record in Hrun. inv_ok.
  apply getitem_nat in Hx, Hx0, Hx2, Hx3. simplify_eq.
  unfold int_of_float in Hx4.
  destruct (to_int (f_atom_numbs fr)) as [a|] eqn:Ea; [|done].
  injection Hx4 as <-.
  rewrite range_Z, for_each_fmap in Hrun.
  destruct (atoms_spec _ _ _ _ _ _ Hfr Hwf Hrun) as (atoms & Hatoms & ->).
  exists (energy_row fr :: cell_row fr :: atoms). split.
  - by exists a, atoms.
  - rewrite !write_table_cons. unfold energy_row, cell_row, join_floats.
    destruct Hwf as [Hv6 _ _ _].
    destruct (truthy (f_has_virial fr)).
    + apply bind_Ok in Hx1 as (v & Hv' & Hx1). apply getitem_nat in Hv'.
      simplify_eq.
      rewrite join_cons_ne
        by (apply fmap_nonempty; eapply length_nonempty; eauto).
      by rewrite !append_assoc.
    + injection Hx1 as <-. rewrite join_one. by rewrite !append_assoc.
Qed.

Lemma header_ok d frs hrows :
  Forall2 (λ k fr, frame_at d k = Some fr)
          (seq 0 (Z.to_nat (Merged.nframe d))) frs →
  Forall2 (λ fr row, header_row fr = Some row) frs hrows →
  header d = Ok (write_table ([str_int (Merged.nframe d)] :: hrows)).
Proof.
  intros Hfrs Hrows. unfold header.
  rewrite range_Z, for_each_fmap.
  rewrite write_table_cons, join_one, <- append_assoc.
  revert Hfrs.
  generalize (seq 0 (Z.to_nat (Merged.nframe d))).
  generalize (str_int (Merged.nframe d) +:+ newline).
  intros out ks Hfrs. revert out hrows Hrows.
  induction Hfrs as [|k fr ks frs Hk Hfrs IH]; intros out hrows Hrows.
  - inversion Hrows; subst. simpl. by rewrite append_nil_r.
  - inversion Hrows as [|? row ? hrows' Hrow Hrows']; subst. simpl.
    rewrite (header_step_ok _ _ _ _ _ Hk Hrow). simpl.
    rewrite (IH _ _ Hrows').
    by rewrite (write_table_cons row hrows'), write_table_one, !append_assoc.
Qed.

Lemma write_records_spec d (ks : list nat) frs out text r :
  Forall2 (λ k fr, frame_at d k = Some fr ∧ frame_wf fr) ks frs →
  write_records d (Z.of_nat <$> ks) out = (text, r) →
  ∃ m body, (m ≤ length frs)%nat ∧
            Forall2 frame_rows (take m frs) body ∧
            (r = Ok () → m = length frs) ∧
            text = out +:+ write_table (concat body).
Proof.
  intros Hfrs. revert out.
  induction Hfrs as [|k fr ks frs [Hk Hwf] Hfrs IH]; intros out Hrun.
  - injection Hrun as <- <-. exists 0%nat, [].
    repeat split; try done; try constructor.
    symmetry. apply append_nil_r.
  - simpl in Hrun. destruct (record d (Z.of_nat k)) as [txt|e] eqn:Hrec.
    + destruct (record_spec _ _ _ _ Hk Hwf Hrec) as (rows & Hrows & ->).
      destruct (IH _ Hrun) as (m & body & Hm & Hbody & Hr & ->).
      exists (S m), (rows :: body). repeat split.
      * simpl. lia.
      * simpl. by constructor.
      * intros Hok. simpl. by rewrite Hr.
      * simpl. by rewrite write_table_app, !append_assoc.
    + injection Hrun as <- <-. exists 0%nat, [].
      repeat split; try done; try constructor; try (simpl; lia).
      symmetry. apply append_nil_r.
Qed.

(** The table of the text [dump] writes: the frame count, a pair for each
    frame, then the records of the frames that were written, which are
    all the frames when [dump] returns. *)
Lemma dump_table d frs hrows text r :
  Forall2 (λ k fr, frame_at d k = Some fr ∧ frame_wf fr)
          (seq 0 (Z.to_nat (Merged.nframe d))) frs →
  Forall2 (λ fr row, header_row fr = Some row) frs hrows →
  dump d = (text, r) →
  ∃ m body,
    (m ≤ length frs)%nat ∧
    Forall2 frame_rows (take m frs) body ∧
    (r = Ok () → m = length frs) ∧
    text = write_table ([str_int (Merged.nframe d)] :: hrows ++ concat body).
Proof.
  intros Hfrs Hrows Hrun. unfold dump in Hrun.
  rewrite (header_ok d frs hrows) in Hrun; [|by eapply Forall2_impl; [done|]; intros ?? [? _]|done].
  rewrite range_Z in Hrun.
  destruct (write_records_spec _ _ _ _ _ _ Hfrs Hrun)
    as (m & body & Hm & Hbody & Hr & ->).
  exists m, body. repeat split; try done.
  by rewrite <- write_table_app.
Qed.

End Layout.

Section Pipeline.
Context `{Float64}.

Lemma scan_systems folder listing dm :
  scan folder listing = Ok dm →
  Forall2 (system_of folder) (subdirs listing) dm.
Proof.
  unfold scan, subdirs. intros Hrun.
  refine (for_each_inv (scan_step folder)
            (λ pre acc, Forall2 (system_of folder) (dirs_of pre) acc)
            _ _ _ _ _ Hrun); [constructor|].
  intros pre [i [fi ent]] acc acc' Hacc Hstep. simpl in Hstep.
  unfold dirs_of. rewrite omap_app. simpl.
  destruct ent as [|d].
  - injection Hstep as <-. by rewrite app_nil_r.
  - inv_ok. apply Forall2_app; [done|]. repeat constructor; simpl. eauto.
Qed.

Lemma system_of_wf folder e x : system_of folder e x → system_wf x.2.
Proof.
  destruct x as [i s]. intros (_ & idata & Hload & Hs). simpl in *. subst s.
  apply to_system_data_spec in Hload
    as (_ & _ & Hn & Hlast & Hcells & Hlen & H33 & Hco & He & Hfo & Hv).
  split; [exact Hn| |exact Hlen|exact H33|exact Hco|exact He|exact Hfo|exact Hv
         |exact (with_has_virial_flags idata)].
  change (System.frames idata ≤ length (System.cells idata))%nat.
  rewrite Hcells. destruct (last (sets e.2.2)) as [l|] eqn:El; [|done].
  injection Hlast as <-.
  apply last_Some in El as [pre ->].
  rewrite sum_list_with_app. simpl. lia.
Qed.

Lemma scan_wf folder listing dm :
  scan folder listing = Ok dm → Forall (λ x, system_wf x.2) dm.
Proof.
  intros Hscan%scan_systems.
  induction Hscan as [|e x es xs Hx _ IH]; constructor; [|done].
  by eapply system_of_wf.
Qed.

Lemma convervirial_length v v6 : convervirial v = Ok v6 → length v6 = 6%nat.
Proof. unfold convervirial. intros Hrun. by inv_ok. Qed.

Lemma reshape_9_length c c9 : Np.reshape_9 c = Ok c9 → length c9 = 9%nat.
Proof. unfold Np.reshape_9. case_decide; [|done]. by intros [= <-]. Qed.

Lemma to_option_Some {A} (r : result A) (a : A) :
  to_option r = Some a ↔ r = Ok a.
Proof. destruct r; simpl; split; congruence. Qed.

(** Take apart a frame computed by [frame_of]. *)
Lemma frame_of_Some s j fr :
  frame_of s j = Some fr →
  ∃ flags (flag : bool) es c co fs,
    System.has_virial s = Some flags ∧ flags !! j = Some flag ∧
    System.energies s = Some es ∧ es !! j = Some (f_energy fr) ∧
    (if flag
     then ∃ vs v, System.virials s = Some vs ∧ vs !! j = Some v ∧
                  convervirial v = Ok (f_virial fr)
     else f_virial fr = zero6) ∧
    System.cells s !! j = Some c ∧
    Np.reshape_9 c = Ok (f_cell fr) ∧
    vec2volume (f_cell fr) = Ok (f_volume fr) ∧
    System.coords s !! j = Some co ∧ f_coords fr = co ∧
    System.forces s = Some fs ∧ fs !! j = Some (f_forces fr) ∧
    f_docname fr = System.docname s ∧
    f_atom_numbs fr = of_int (Z.of_nat (length (System.atom_types s))) ∧
    f_has_virial fr = of_int (bool_to_Z flag) ∧
    f_atom_types fr = System.atom_types s.
Proof.
  unfold frame_of. intros Hfr.
  repeat match goal with
  | H : _ ≫= _ = Some _ |- _ =>
      let x := fresh "y" in
      let Hx := fresh "Hy" in
      apply bind_Some in H as (x & Hx & H)
  end.
  injection Hfr as <-. simpl.
  apply to_option_Some in Hy5, Hy6.
  exists y, y0, y1, y4, y7, y8. repeat split; try done.
  destruct y0; [|by injection Hy3].
  repeat match goal with
  | H : _ ≫= _ = Some _ |- _ =>
      let x := fresh "z" in
      let Hx := fresh "Hz" in
      apply bind_Some in H as (x & Hx & H)
  end.
  apply to_option_Some in Hy3. eauto.
Qed.

Lemma frame_of_wf s j fr : system_wf s → frame_of s j = Some fr → frame_wf fr.
Proof.
  intros [_ _ _ _ Hco _ Hfo _ _] Hfr.
  apply frame_of_Some in Hfr
    as (flags & flag & es & c & co & fs & _ & _ & _ & _ & Hv & _ & Hc9 & _
        & Hcoj & <- & Hfs & Hf & _).
  split.
  - destruct flag.
    + destruct Hv as (vs & v & _ & _ & Hv). by eapply convervirial_length.
    + by rewrite Hv.
  - by eapply reshape_9_length.
  - eapply (proj1 (Forall_lookup _ _) Hco); eauto.
  - eapply (proj1 (Forall_lookup _ _) (Hfo _ Hfs)); eauto.
Qed.

Lemma exists_list {A B} (l : list A) (R : A → B → Prop) :
  Forall (λ x, ∃ y, R x y) l → ∃ ys, Forall2 R l ys.
Proof.
  induction 1 as [|x l [y Hy] _ [ys Hys]]; [by exists []|].
  exists (y :: ys). by constructor.
Qed.

Lemma origins_wf dm :
  Forall (λ x, system_wf x.2) dm → Forall (λ sj, system_wf sj.1) (origins dm).
Proof.
  intros Hdm. unfold origins. apply Forall_bind.
  eapply Forall_impl; [exact Hdm|]. intros x Hx.
  apply Forall_fmap, Forall_forall. by intros.
Qed.

(** The frames of a merged collection, in order, each with the system and
    local index it comes from. *)
Lemma merge_frame_list dm d :
  Forall (λ x, system_wf x.2) dm →
  merge dm = Ok d →
  ∃ frs,
    Forall2 (λ sj fr, frame_of sj.1 sj.2 = Some fr) (origins dm) frs ∧
    Forall2 (λ k fr, frame_at d k = Some fr ∧ frame_wf fr)
            (seq 0 (Z.to_nat (Merged.nframe d))) frs.
Proof.
  intros Hwf Hrun.
  destruct (merge_frames _ _ Hrun) as (_ & _ & Hn & Hfr).
  assert (Hex : Forall (λ ksj, ∃ fr, frame_of ksj.2.1 ksj.2.2 = Some fr ∧
                                     frame_at d ksj.1 = Some fr)
                       (imap pair (origins dm))).
  { apply Forall_lookup. intros k [k' [s j]] Hk.
    rewrite list_lookup_imap in Hk.
    destruct (origins dm !! k) as [[s' j']|] eqn:E; simplify_eq/=.
    by apply Hfr. }
  apply exists_list in Hex as [frs Hfrs].
  exists frs.
  assert (Hlen : length frs = length (origins dm)).
  { apply Forall2_length in Hfrs. by rewrite length_imap in Hfrs. }
  assert (Hat : ∀ k s j fr, origins dm !! k = Some (s, j) → frs !! k = Some fr →
                frame_of s j = Some fr ∧ frame_at d k = Some fr).
  { intros k s j fr Hk Hfrk.
    assert (Hlook : imap pair (origins dm) !! k = Some (k, (s, j)))
      by (by rewrite list_lookup_imap, Hk).
    exact (Forall2_lookup_lr _ _ _ _ _ _ Hfrs Hlook Hfrk). }
  split.
  - apply Forall2_same_length_lookup. split; [done|].
    intros k [s j] fr Hk Hfrk. by destruct (Hat _ _ _ _ Hk Hfrk).
  - apply Forall2_same_length_lookup. split.
    { rewrite length_seq. lia. }
    intros k k' fr Hk Hfrk. apply lookup_seq in Hk as [-> Hk]. simpl.
    destruct (origins dm !! k) as [[s j]|] eqn:E.
    + destruct (Hat _ _ _ _ E Hfrk) as [Hof Hfat].
      split; [done|]. eapply frame_of_wf; [|exact Hof].
      apply origins_wf in Hwf.
      by eapply (proj1 (Forall_lookup _ _) Hwf) in E.
    + apply lookup_ge_None in E. lia.
Qed.

End Pipeline.

(** ** Frame counts *)

Section Counting.
Context `{Float64}.

Lemma total_frames_last_subsets folder ds dm :
  Forall2 (system_of folder) ds dm →
  total_frames dm
  = Z.of_nat (sum_list_with (λ e, last_subset_frames e.2.2) ds).
Proof.
  induction 1 as [|e x ds dm (_ & idata & Hload & Hx) _ IH]; [done|].
  change (total_frames (x :: dm))
    with (Z.of_nat (System.frames x.2) + total_frames dm).
  rewrite IH, Hx.
  apply to_system_data_spec in Hload as (_ & _ & _ & Hlast & _).
  assert (Hl : last_subset_frames e.2.2 = System.frames idata)
    by (unfold last_subset_frames; by rewrite Hlast).
  cbn [sum_list_with]. rewrite Hl. simpl. lia.
Qed.

(** The frame count of the merged collection is the number of frames of
    the last subsets of the systems. *)
Lemma nframe_last_subsets folder listing d :
  read_multi_deepmd folder listing = Ok d →
  Merged.nframe d
  = Z.of_nat (sum_list_with (λ e, last_subset_frames e.2.2) (subdirs listing)).
Proof.
  unfold read_multi_deepmd. intros Hrun. inv_ok.
  apply merge_frames in Hrun as (_ & -> & _).
  eapply total_frames_last_subsets. by apply scan_systems.
Qed.

End Counting.

(** C1, at a system with a subset of two frames and a subset of one frame:
    the three frames are concatenated, but the merged collection has one
    frame, the first of the concatenation. *)
Theorem merge_counts_last_subset_only :
  length ∘ System.cells
    <$> to_option (to_system_data "./deepmd/init.000"
                     (Sample.system [Sample.set_000; Sample.set_001]))
  = Some 3%nat ∧
  Merged.nframe <$> to_option (read_multi_deepmd "./deepmd" Sample.two_subsets)
  = Some 1 ∧
  Merged.energies <$> to_option (read_multi_deepmd "./deepmd" Sample.two_subsets)
  = Some (Sample.fl [5]).
Proof. repeat split; vm_compute; reflexivity. Qed.

(** ** A parent directory without system directories *)

Lemma scan_no_directory `{Float64} folder (l : list (Z * (string * entry))) acc :
  Forall (λ e, e.2.2 = File) l →
  for_each (scan_step folder) l acc = Ok acc.
Proof.
  induction 1 as [|[i [fi ent]] l He _ IH]; [done|].
  simpl in He. subst ent. simpl. exact IH.
Qed.

(** C9. For a parent directory with no system subdirectory the run stops
    with an exception before [dump] is reached, so no output file is
    written: the frame count is [np.sum] of an empty list, the float64 0.0,
    which [range] rejects with a [TypeError] (line 153). *)
Theorem no_system_directory_raises `{Float64} instr (listing : list (string * entry)) :
  Forall (λ e, e.2 = File) listing →
  main instr listing = (None, Err TypeError).
Proof.
  intros Hfiles. unfold main, read_multi_deepmd, scan.
  rewrite scan_no_directory; [done|].
  unfold enumerate. apply Forall_forall. intros [i e] Hin.
  apply elem_of_zip_r in Hin. simpl in *.
  by apply (proj1 (Forall_forall _ _) Hfiles).
Qed.

Lemma no_system_directory_raises_witness :
  Forall (λ e : string * entry, e.2 = File)
         [("README"%string, File); ("notes.txt"%string, File)]
  ∧ main "deepmd" [("README"%string, File); ("notes.txt"%string, File)]
    = (None, Err TypeError).
Proof.
  assert (Hfiles : Forall (λ e : string * entry, e.2 = File)
                     [("README"%string, File); ("notes.txt"%string, File)])
    by (repeat constructor).
  split; [exact Hfiles|].
  exact (no_system_directory_raises "deepmd" _ Hfiles).
Defined.

(** ** The cell volume *)

Lemma merged_frame `{Float64} folder listing d k :
  read_multi_deepmd folder listing = Ok d →
  (k < Z.to_nat (Merged.nframe d))%nat →
  ∃ dm s j fr, scan folder listing = Ok dm ∧
               origins dm !! k = Some (s, j) ∧
               system_wf s ∧
               frame_of s j = Some fr ∧ frame_at d k = Some fr.
Proof.
  unfold read_multi_deepmd. intros Hrun Hk. inv_ok.
  pose proof (scan_wf _ _ _ Hx) as Hwf.
  destruct (merge_frames _ _ Hrun) as (_ & _ & Hn & Hfr).
  destruct (lookup_lt_is_Some_2 (origins x) k) as [[s j] Hsj]; [lia|].
  destruct (Hfr _ _ _ Hsj) as (fr & Hof & Hat).
  exists x, s, j, fr. split; [done|]. split; [done|]. split; [|done].
  apply origins_wf in Hwf.
  by apply (proj1 (Forall_lookup _ _) Hwf _ _ Hsj).
Qed.

(** C5. The volume of a flattened 9-component cell is the scalar triple
    product a.(b x c) of its rows a = c[0:3], b = c[3:6], c = c[6:9], the
    three products summed in index order from 0.0; for the flattened
    identity cell it is 1.0; and every frame of the merged collection
    holds the volume of its flattened cell. *)
Theorem volume_triple_product `{Float64} :
  (∀ a0 a1 a2 b0 b1 b2 c0 c1 c2 : float,
     vec2volume [a0; a1; a2; b0; b1; b2; c0; c1; c2]
     = Ok (fadd (fadd (fadd (of_int 0)
                            (fmul a0 (fsub (fmul b1 c2) (fmul b2 c1))))
                      (fmul a1 (fsub (fmul b2 c0) (fmul b0 c2))))
                (fmul a2 (fsub (fmul b0 c1) (fmul b1 c0))))) ∧
  vec2volume (of_int <$> [1; 0; 0; 0; 1; 0; 0; 0; 1]) = Ok (of_int 1) ∧
  (∀ folder listing d k,
     read_multi_deepmd folder listing = Ok d →
     (k < Z.to_nat (Merged.nframe d))%nat →
     ∃ cell vol, Merged.cells d !! k = Some cell ∧
                 vec2volume cell = Ok vol ∧
                 Merged.volume d !! k = Some vol).
Proof.
  split; [reflexivity|]. split.
  - cbn -[of_int]. unfold Np.dot. cbn -[of_int].
    change 1 with (bool_to_Z true). change 0 with (bool_to_Z false).
    rewrite !fmul_bool. cbn [andb]. rewrite !fsub_bool.
    rewrite !fmul_bool. cbn [andb].
    rewrite fadd_bool_l, !fadd_bool_r. reflexivity.
  - intros folder listing d k Hrun Hk.
    destruct (merged_frame _ _ _ _ Hrun Hk)
      as (dm & s & j & fr & _ & _ & _ & Hof & Hat).
    apply frame_at_Some in Hat as (_ & _ & _ & _ & _ & Hc & Hv & _).
    apply frame_of_Some in Hof
      as (? & ? & ? & ? & ? & ? & _ & _ & _ & _ & _ & _ & _ & Hvol & _).
    eauto.
Qed.

Lemma volume_triple_product_witness :
  ∃ cell vol, Merged.cells Evaluated.merged !! 2%nat = Some cell ∧
              vec2volume cell = Ok vol ∧
              Merged.volume Evaluated.merged !! 2%nat = Some vol.
Proof.
  apply (proj2 (proj2 volume_triple_product) "./deepmd" Sample.two_systems).
  - exact Evaluated.read_two_systems.
  - vm_compute. lia.
Defined.

(** ** Type names *)

Section TypeNames.
Context `{Float64}.

Lemma range_length (n : Z) : length (range n) = Z.to_nat n.
Proof. unfold range. apply length_seqZ. Qed.

Lemma atom_numbs_of_length atom_types :
  length (atom_numbs_of atom_types) = Z.to_nat (ntypes_of atom_types).
Proof. unfold atom_numbs_of. by rewrite length_fmap, range_length. Qed.

End TypeNames.

(** C6 as stated fails: on an empty [type.raw] the loader raises at the
    maximum of the type list (line 66), before the name list is looked at;
    there is one name and no count, so the name list is not the shorter
    one. *)
Lemma load_type_raises_on_no_atoms :
  load_type no_atoms_dir None = Err ValueError ∧
  resolve_type_map (type_map_raw no_atoms_dir) None (ntypes_of []) = ["H"%string] ∧
  atom_numbs_of [] = [] ∧
  ¬ (length ["H"%string] < length (atom_numbs_of []))%nat.
Proof. repeat split. simpl. lia. Qed.

(** C6, amended.  For a [type.raw] with at least one atom: the names come
    from [type_map.raw] if it is there, else from the caller's list, else
    they are [Type_0], [Type_1], ... with one name per entry of
    [atom_numbs]; the loader fails, at the assertion, if and only if the
    resolved names are fewer than the entries of [atom_numbs]; otherwise
    [atom_names] is the resolved list cut to the length of [atom_numbs]. *)
Theorem load_type_names `{Float64} (folder : system_dir)
    (type_map : option (list string)) (atom_types : list Z) :
  type_raw folder = Some atom_types →
  atom_types ≠ [] →
  let numbs := atom_numbs_of atom_types in
  let names :=
    resolve_type_map (type_map_raw folder) type_map (ntypes_of atom_types) in
  names = match type_map_raw folder, type_map with
          | Some tokens, _ => tokens
          | None, Some given => given
          | None, None =>
              (λ t, "Type_" +:+ str_int t)
                <$> range (Z.of_nat (length numbs))
          end ∧
  (is_Err (load_type folder type_map) ↔ (length names < length numbs)%nat) ∧
  ((length names < length numbs)%nat →
   load_type folder type_map = Err AssertionError) ∧
  (¬ (length names < length numbs)%nat →
   ∃ data, load_type folder type_map = Ok data ∧
           Topology.atom_types data = atom_types ∧
           Topology.atom_numbs data = numbs ∧
           length (Topology.atom_names data) = length numbs ∧
           ∀ t, (t < length numbs)%nat →
                Topology.atom_names data !! t = names !! t).
Proof.
  intros Hraw Hne numbs names.
  pose proof (load_type_spec folder type_map atom_types Hraw Hne) as Hload.
  fold numbs names in Hload. cbv zeta in Hload.
  split; [|split; [|split]].
  - unfold names, resolve_type_map.
    destruct (type_map_raw folder); [done|]. destruct type_map; [done|].
    unfold numbs. rewrite atom_numbs_of_length.
    unfold range, seqZ. by rewrite Nat2Z.id.
  - rewrite Hload. case_decide; split.
    + intros [e He]. discriminate He.
    + lia.
    + lia.
    + intros _. by eexists.
  - intros Hlt. rewrite Hload. case_decide; [lia|done].
  - intros Hge. rewrite Hload. case_decide; [|lia].
    eexists. split; [done|]. simpl. repeat split.
    + rewrite length_take. lia.
    + intros t Ht. by apply lookup_take_lt.
Qed.

Lemma load_type_names_witness :
  ∃ data, load_type (Sample.system []) None = Ok data ∧
          Topology.atom_names data = ["Type_0"%string; "Type_1"%string].
Proof.
  destruct (load_type_names (Sample.system []) None [0; 1]) as (_ & _ & _ & Hok).
  - reflexivity.
  - discriminate.
  - destruct Hok as (data & Hdata & _); [vm_compute; lia|].
    exists data. split; [exact Hdata|].
    vm_compute in Hdata. by injection Hdata as <-.
Defined.

(** ** The virial flags of the systems *)

(** C3, at two systems of two subsets.  When both subsets have virial
    data (two frames and one frame), the three virials are as many as the
    three concatenated frames, yet the flags are one [False]: the entry
    [frames] the comparison of line 141 reads is the frame count of the
    last subset.  When only the last subset has virial data, its one
    virial stands against three frames, yet the flags are one [True]. *)
Theorem virial_flags_follow_last_subset :
  fmap (M:=option) (fmap (M:=list) flag_summary)
    (to_option (scan "./deepmd" all_virial))
  = Some [(3%nat, Some 3%nat, 1%nat, Some [false])] ∧
  fmap (M:=option) (fmap (M:=list) flag_summary)
    (to_option (scan "./deepmd" late_virial))
  = Some [(3%nat, Some 1%nat, 1%nat, Some [true])].
Proof. split; vm_compute; reflexivity. Qed.

(** ** Reading the header back *)

Lemma int_of_str_int (n : Z) : int_of_str (str_int n) = Some n.
Proof.
  unfold int_of_str, str_int. rewrite NilZero.isi.
  - simpl. by rewrite DecimalZ.of_to.
  - destruct n; simpl; try done.
    intros [= Hp]. by apply DecimalPos.Unsigned.to_uint_nonnil in Hp.
  - destruct n; simpl; try done.
    intros [= Hp]. by apply DecimalPos.Unsigned.to_uint_nonnil in Hp.
Qed.

Section Table.
Context `{Float64}.

Lemma scan_exact_counts folder listing dm :
  exact_counts listing →
  scan folder listing = Ok dm →
  Forall (λ x, Z.of_nat (length (System.atom_types x.2)) ≤ 2 ^ 53) dm.
Proof.
  unfold exact_counts. intros Hb Hscan%scan_systems.
  induction Hscan as [|e x es xs (_ & idata & Hload & Hx) _ IH];
    [constructor|].
  apply Forall_cons in Hb as [He Hes]. constructor; [|by apply IH].
  rewrite Hx. apply to_system_data_spec in Hload as (Hraw & _).
  unfold atom_count in He. by rewrite Hraw in He.
Qed.

Lemma origins_Forall (P : System.t → Prop) dm :
  Forall (λ x, P x.2) dm → Forall (λ sj, P sj.1) (origins dm).
Proof.
  intros Hdm. unfold origins. apply Forall_bind.
  eapply Forall_impl; [exact Hdm|]. intros x Hx.
  apply Forall_fmap, Forall_forall. by intros.
Qed.

Lemma frame_of_flag s j fr :
  system_wf s → frame_of s j = Some fr →
  f_has_virial fr = of_int (bool_to_Z (virial_complete s)) ∧
  f_atom_numbs fr = of_int (Z.of_nat (length (System.atom_types s))) ∧
  f_atom_types fr = System.atom_types s.
Proof.
  intros Hwf Hfr. destruct Hwf as [_ _ _ _ _ _ _ _ Hflags].
  apply frame_of_Some in Hfr
    as (flags & flag & ? & ? & ? & ? & Hfl & Hj & _ & _ & _ & _ & _ & _ & _
        & _ & _ & _ & _ & Ha & Hh & Ht).
  rewrite Hflags in Hfl. injection Hfl as <-.
  apply lookup_replicate in Hj as [-> _]. done.
Qed.

Lemma bool_to_Z_exact (b : bool) : 0 ≤ bool_to_Z b ≤ 2 ^ 53.
Proof. destruct b; split; by vm_compute. Qed.

Lemma frame_of_header_row s j fr :
  system_wf s →
  Z.of_nat (length (System.atom_types s)) ≤ 2 ^ 53 →
  frame_of s j = Some fr →
  header_row fr = Some (pair_row (pair_of s)).
Proof.
  intros Hwf Hb Hfr.
  destruct (frame_of_flag _ _ _ Hwf Hfr) as (Hh & Ha & _).
  unfold header_row. rewrite Ha, Hh.
  rewrite (to_int_of_int (Z.of_nat _)) by (split; [lia|exact Hb]).
  by rewrite (to_int_of_int (bool_to_Z _)) by apply bool_to_Z_exact.
Qed.

Lemma frame_rows_plain fr rows :
  frame_wf fr → frame_rows fr rows →
  Forall (λ toks, toks ≠ [] ∧ Forall plain toks) rows.
Proof.
  intros [Hv Hc Hco Hfo] (a & atoms & _ & Hatoms & ->).
  assert (Hfl : ∀ v : vector, Forall plain (str_float <$> v)).
  { intros v. apply Forall_fmap, Forall_forall. intros x _.
    apply str_float_plain. }
  constructor; [|constructor].
  - split; [done|]. unfold energy_row. constructor; [apply str_float_plain|].
    destruct (truthy _); [apply Hfl|constructor].
  - split; [|apply Hfl]. unfold cell_row.
    apply fmap_nonempty. by eapply length_nonempty.
  - clear -Hatoms Hfl.
    induction Hatoms as [|j row js atoms Hrow _ IH]; constructor; [|done].
    unfold atom_row in Hrow.
    repeat match goal with
    | H : _ ≫= _ = Some _ |- _ =>
        let x := fresh "y" in
        let Hx := fresh "Hy" in
        apply bind_Some in H as (x & Hx & H)
    end.
    injection Hrow as <-. split; [done|].
    constructor; [apply plain_str_int|]. apply Forall_app. split; apply Hfl.
Qed.

(** The table of [train.in] for a merged collection: the frame count, the
    pairs of the frames, and the records of the [m] frames that were
    written, which are all of them when [dump] returns. *)
Lemma pipeline_table folder listing d text r :
  read_multi_deepmd folder listing = Ok d →
  exact_counts listing →
  dump d = (text, r) →
  ∃ dm frs m body,
    scan folder listing = Ok dm ∧
    Forall (λ x, system_wf x.2) dm ∧
    Merged.nframe d = Z.of_nat (length (origins dm)) ∧
    Forall2 (λ sj fr, frame_of sj.1 sj.2 = Some fr) (origins dm) frs ∧
    Forall2 (λ k fr, frame_at d k = Some fr ∧ frame_wf fr)
            (seq 0 (Z.to_nat (Merged.nframe d))) frs ∧
    (m ≤ length frs)%nat ∧
    (r = Ok () → m = length frs) ∧
    Forall2 frame_rows (take m frs) body ∧
    read_table text
    = [str_int (Merged.nframe d)]
        :: ((λ sj, pair_row (pair_of sj.1)) <$> origins dm) ++ concat body.
Proof.
  unfold read_multi_deepmd. intros Hrun Hb Hdump. inv_ok.
  rename x into dm.
  pose proof (scan_wf _ _ _ Hx) as Hwf.
  pose proof (scan_exact_counts _ _ _ Hb Hx) as Hcounts.
  destruct (merge_frames _ _ Hrun) as (_ & _ & Hn & _).
  destruct (merge_frame_list _ _ Hwf Hrun) as (frs & Hof & Hat).
  assert (Hrows : Forall2 (λ fr row, header_row fr = Some row) frs
                    ((λ sj, pair_row (pair_of sj.1)) <$> origins dm)).
  { apply Forall2_fmap_r, Forall2_flip.
    pose proof (origins_Forall _ _ Hwf) as Hwf'.
    pose proof (origins_Forall
                  (λ s, Z.of_nat (length (System.atom_types s)) ≤ 2 ^ 53)
                  _ Hcounts) as Hc'.
    clear -Hof Hwf' Hc'.
    induction Hof as [|sj fr sjs frs' Hfr _ IH]; [constructor|].
    apply Forall_cons in Hwf' as [Hw Hwf'].
    apply Forall_cons in Hc' as [Hc Hc'].
    constructor; [|by apply IH]. simpl.
    by eapply frame_of_header_row. }
  destruct (dump_table _ _ _ _ _ Hat Hrows Hdump)
    as (m & body & Hm & Hbody & Hr & ->).
  exists dm, frs, m, body. repeat split; try done.
  apply read_write_table. constructor; [|apply Forall_app; split].
  - split; [done|]. repeat constructor. apply plain_str_int.
  - apply Forall_fmap, Forall_forall. intros sj _. simpl. split; [done|].
    repeat constructor; apply plain_str_int.
  - apply Forall_concat.
    assert (Hwfm : Forall frame_wf (take m frs)).
    { apply Forall_take. clear -Hat.
      induction Hat as [|k fr ks frs' [_ Hw] _ IH]; by constructor. }
    clear -Hbody Hwfm.
    induction Hbody as [|fr rows frs' body' Hrows _ IH]; [constructor|].
    apply Forall_cons in Hwfm as [Hw Hwfm].
    constructor; [|by apply IH]. by eapply frame_rows_plain.
Qed.

End Table.

Lemma parse_pair_row (p : Z * Z) : parse_pair (pair_row p) = Some p.
Proof.
  destruct p as [a b]. unfold parse_pair, pair_row. simpl.
  by rewrite !int_of_str_int.
Qed.

(** C4. For the merged collection of any tree, reading back the header
    block of the text [dump] writes (the first line as the frame count,
    then a line per frame) gives the pairs of atom count and virial flag
    of the frames, in frame order: the pairs of the systems the frames
    come from, which are the values the collection holds in [atom_numbs]
    and [has_virial].  Atom counts are taken to be at most 2^53, the
    integers a float64 slot holds exactly. *)
Theorem header_round_trip `{Float64} folder listing d :
  read_multi_deepmd folder listing = Ok d →
  exact_counts listing →
  ∃ dm pairs,
    scan folder listing = Ok dm ∧
    pairs = (λ sj, pair_of sj.1) <$> origins dm ∧
    parse_header (dump d).1 = Some pairs ∧
    Z.of_nat (length pairs) = Merged.nframe d ∧
    (∀ k p, pairs !! k = Some p →
            Merged.atom_numbs d !! k = Some (of_int p.1) ∧
            Merged.has_virial d !! k = Some (of_int p.2)).
Proof.
  intros Hrun Hb. destruct (dump d) as [text r] eqn:Hdump.
  destruct (pipeline_table _ _ _ _ _ Hrun Hb Hdump)
    as (dm & frs & m & body & Hscan & Hwf & Hn & Hof & Hat & _ & _ & _ & Htab).
  exists dm, ((λ sj, pair_of sj.1) <$> origins dm).
  split; [done|]. split; [done|]. split; [|split].
  - simpl. unfold parse_header. rewrite Htab, int_of_str_int. simpl.
    rewrite Hn, Nat2Z.id.
    rewrite decide_True
      by (split; [lia|rewrite length_app, length_fmap; lia]).
    rewrite take_app_length' by (by rewrite length_fmap).
    apply mapM_Some. apply Forall2_fmap_l, Forall2_fmap_r.
    apply Forall_Forall2_diag, Forall_forall. intros sj _.
    apply parse_pair_row.
  - by rewrite length_fmap.
  - intros k p Hk. apply list_lookup_fmap_Some in Hk as ([s j] & -> & Hk).
    simpl.
    destruct (Forall2_lookup_l _ _ _ _ _ Hof Hk) as (fr & Hfrk & Hfr).
    assert (Hk' : seq 0 (Z.to_nat (Merged.nframe d)) !! k = Some k).
    { apply lookup_seq. split; [done|].
      apply lookup_lt_Some in Hk. lia. }
    destruct (Forall2_lookup_lr _ _ _ _ _ _ Hat Hk' Hfrk) as [Hatk _].
    apply frame_at_Some in Hatk as (_ & Ha & Hh & _).
    assert (Hs : system_wf s).
    { apply origins_Forall in Hwf.
      by apply (proj1 (Forall_lookup _ _) Hwf _ _ Hk). }
    simpl in Hfr. destruct (frame_of_flag _ _ _ Hs Hfr) as (Hh' & Ha' & _).
    by rewrite Ha, Hh, Ha', Hh'.
Qed.

Lemma exact_counts_two_systems : exact_counts Sample.two_systems.
Proof. repeat constructor; by vm_compute. Qed.

Lemma header_round_trip_witness :
  parse_header Evaluated.train_in = Some [(2, 1); (2, 1); (2, 0)].
Proof.
  destruct (header_round_trip "./deepmd" Sample.two_systems Evaluated.merged
              Evaluated.read_two_systems exact_counts_two_systems)
    as (dm & pairs & Hscan & -> & Hparse & _).
  rewrite Evaluated.scan_two_systems in Hscan. injection Hscan as <-.
  exact Hparse.
Defined.

(** ** The body of the text *)

Section Body.
Context `{Float64}.

Lemma main_Ok instr listing text r :
  main instr listing = (Some text, r) →
  ∃ d, read_multi_deepmd ("./" +:+ instr) listing = Ok d ∧
       dump d = (text, r).
Proof.
  unfold main. destruct (read_multi_deepmd _ _) as [d|e]; [|done].
  destruct (dump d) as [fout r'] eqn:Hd. intros [= <- <-]. eauto.
Qed.

Lemma atom_rows_types fr (n : nat) atoms :
  frame_wf fr →
  n = length (f_atom_types fr) →
  Forall2 (λ j row, atom_row fr j = Some row) (seq 0 n) atoms →
  Forall2 atom_line (f_atom_types fr) atoms.
Proof.
  intros [_ _ Hco Hfo] -> Hatoms.
  apply Forall2_same_length_lookup. split.
  { apply Forall2_length in Hatoms. by rewrite length_seq in Hatoms. }
  intros j t row Ht Hrow.
  assert (Hj : seq 0 (length (f_atom_types fr)) !! j = Some j).
  { apply lookup_seq. split; [done|]. by apply lookup_lt_Some in Ht. }
  pose proof (Forall2_lookup_lr _ _ _ _ _ _ Hatoms Hj Hrow) as Har.
  unfold atom_row in Har. rewrite Ht in Har. simpl in Har.
  destruct (f_coords fr !! j) as [c|] eqn:Ec; [|done].
  destruct (f_forces fr !! j) as [f|] eqn:Ef; [|done].
  simpl in Har. injection Har as <-.
  eexists. split; [done|].
  rewrite length_app, !length_fmap.
  rewrite (proj1 (Forall_lookup _ _) Hco _ _ Ec).
  by rewrite (proj1 (Forall_lookup _ _) Hfo _ _ Ef).
Qed.

End Body.

(** C7. In the text of a run that completes, the body holds one record
    per frame, in frame order, after the header; in the record of a frame
    the lines after the energy line and the cell line are the atom lines,
    one per entry of [atom_types] of the system the frame comes from, and
    the first field of each is that entry plus one.  Atom counts are taken
    to be at most 2^53. *)
Theorem type_index_one_based `{Float64} instr listing text :
  main instr listing = (Some text, Ok ()) →
  exact_counts listing →
  ∃ dm header body,
    scan ("./" +:+ instr) listing = Ok dm ∧
    read_table text = header ++ concat body ∧
    length header = S (length (origins dm)) ∧
    Forall2 (λ sj rows,
               ∃ energy cell atoms,
                 rows = energy :: cell :: atoms ∧
                 Forall2 atom_line (System.atom_types sj.1) atoms)
            (origins dm) body.
Proof.
  intros Hmain Hb.
  destruct (main_Ok _ _ _ _ Hmain) as (d & Hrun & Hdump).
  destruct (pipeline_table _ _ _ _ _ Hrun Hb Hdump)
    as (dm & frs & m & body & Hscan & Hwf & Hn & Hof & Hat & _ & Hm & Hbody
        & Htab).
  rewrite Hm, firstn_all in Hbody by done.
  exists dm, ([str_int (Merged.nframe d)]
              :: ((λ sj, pair_row (pair_of sj.1)) <$> origins dm)), body.
  split; [done|]. split; [done|]. split.
  { simpl. by rewrite length_fmap. }
  pose proof (origins_Forall _ _ Hwf) as Hwf'.
  pose proof (origins_Forall
                (λ s, Z.of_nat (length (System.atom_types s)) ≤ 2 ^ 53)
                _ (scan_exact_counts _ _ _ Hb Hscan)) as Hc'.
  assert (Hfw : Forall frame_wf frs).
  { clear -Hat. induction Hat as [|k fr ks frs' [_ Hw] _ IH]; by constructor. }
  clear -Hof Hbody Hwf' Hc' Hfw. revert body Hbody.
  induction Hof as [|[s j] fr sjs frs' Hfr _ IH]; intros body Hbody.
  - inversion Hbody. constructor.
  - inversion Hbody as [|? rows ? body' Hrows Hbody']; subst.
    apply Forall_cons in Hwf' as [Hw Hwf'].
    apply Forall_cons in Hc' as [Hc Hc'].
    apply Forall_cons in Hfw as [Hf Hfw].
    constructor; [|by apply IH].
    destruct Hrows as (a & atoms & Ha & Hatoms & ->).
    simpl in *. destruct (frame_of_flag _ _ _ Hw Hfr) as (_ & Han & Hty).
    rewrite Han, to_int_of_int in Ha by (split; [lia|exact Hc]).
    injection Ha as <-. rewrite Nat2Z.id in Hatoms.
    exists (energy_row fr), (cell_row fr), atoms. split; [done|].
    rewrite <- Hty in Hatoms |- *.
    by apply (atom_rows_types fr (length (f_atom_types fr))).
Qed.

Lemma main_completes_two_systems :
  main "deepmd" Sample.two_systems = (Some Evaluated.train_in, Ok ()).
Proof. exact Evaluated.main_two_systems. Qed.

Lemma type_index_one_based_witness :
  ∃ header body,
    read_table Evaluated.train_in = header ++ concat body ∧
    length header = S (length (origins Evaluated.data_multi)) ∧
    Forall2 (λ sj rows,
               ∃ energy cell atoms,
                 rows = energy :: cell :: atoms ∧
                 Forall2 atom_line (System.atom_types sj.1) atoms)
            (origins Evaluated.data_multi) body.
Proof.
  destruct (type_index_one_based "deepmd" Sample.two_systems
              Evaluated.train_in main_completes_two_systems
              exact_counts_two_systems)
    as (dm & header & body & Hscan & Htab & Hlen & Hbody).
  change ("./" +:+ "deepmd")%string with "./deepmd"%string in Hscan.
  rewrite Evaluated.scan_two_systems in Hscan. injection Hscan as <-.
  by exists header, body.
Defined.

(** ** The virial of a frame *)

Lemma is33_inv `{Float64} (m : matrix) :
  is33 m →
  ∃ a b c d e f g h i, m = [[a; b; c]; [d; e; f]; [g; h; i]].
Proof.
  intros [Hlen Hrows].
  destruct m as [|r0 [|r1 [|r2 [|]]]]; try done.
  apply Forall_cons in Hrows as [H0 Hrows].
  apply Forall_cons in Hrows as [H1 Hrows].
  apply Forall_cons in Hrows as [H2 _].
  destruct r0 as [|? [|? [|? [|]]]]; try done.
  destruct r1 as [|? [|? [|? [|]]]]; try done.
  destruct r2 as [|? [|? [|? [|]]]]; try done.
  by repeat eexists.
Qed.

(** C8. In the merged collection of any tree, the 6-component virial of a
    frame is, when the system's flag is true, the reduction
    [xx, yy, zz, xy, yz, zx] of entry [j] of the system's 3x3 virials,
    with [xy], [yz] and [zx] from the upper triangle, and the zero vector
    the collection was allocated with when the flag is false.  In the
    text of a run that completes, the energy line of the frame is the
    energy followed by the six virial values exactly when that flag, the
    second field of the frame's header line, is 1, and the energy alone
    when it is 0.  Atom counts are taken to be at most 2^53. *)
Theorem virial_merged_and_written `{Float64} folder listing d :
  read_multi_deepmd folder listing = Ok d →
  exact_counts listing →
  ∃ dm,
    scan folder listing = Ok dm ∧
    (∀ k s j, origins dm !! k = Some (s, j) →
       ∃ v6,
         Merged.has_virial d !! k
         = Some (of_int (bool_to_Z (virial_complete s))) ∧
         Merged.virials d !! k = Some v6 ∧
         length v6 = 6%nat ∧
         if virial_complete s
         then ∃ vs xx xy xz yx yy yz zx zy zz,
                System.virials s = Some vs ∧
                vs !! j = Some [[xx; xy; xz]; [yx; yy; yz]; [zx; zy; zz]] ∧
                v6 = [xx; yy; zz; xy; yz; xz]
         else v6 = replicate 6 (of_int 0)) ∧
    (∀ text, dump d = (text, Ok ()) →
       ∃ header body,
         read_table text = header ++ concat body ∧
         length header = S (length (origins dm)) ∧
         length body = length (origins dm) ∧
         ∀ k s j, origins dm !! k = Some (s, j) →
           ∃ e v6 rest,
             Merged.energies d !! k = Some e ∧
             Merged.virials d !! k = Some v6 ∧
             header !! S k
             = Some [str_int (Z.of_nat (length (System.atom_types s)));
                     str_int (bool_to_Z (virial_complete s))] ∧
             body !! k
             = Some ((str_float e
                      :: if virial_complete s then str_float <$> v6 else [])
                     :: rest)).
Proof.
  intros Hrun Hb.
  assert (Hmerged : ∃ dm, scan folder listing = Ok dm ∧
            Forall (λ x, system_wf x.2) dm ∧
            Merged.nframe d = Z.of_nat (length (origins dm)) ∧
            ∀ k s j, origins dm !! k = Some (s, j) →
              ∃ fr, frame_of s j = Some fr ∧ frame_at d k = Some fr).
  { unfold read_multi_deepmd in Hrun. inv_ok. exists x.
    destruct (merge_frames _ _ Hrun) as (_ & _ & Hn & Hfr).
    split; [done|]. split; [by eapply scan_wf|]. by split. }
  destruct Hmerged as (dm & Hscan & Hwf & Hn & Hfr).
  pose proof (origins_Forall _ _ Hwf) as Hwf'.
  exists dm. split; [done|]. split.
  - intros k s j Hk. destruct (Hfr _ _ _ Hk) as (fr & Hof & Hat).
    assert (Hs : system_wf s)
      by apply (proj1 (Forall_lookup _ _) Hwf' _ _ Hk).
    pose proof (frame_of_wf _ _ _ Hs Hof) as [Hv6 _ _ _].
    destruct (frame_of_flag _ _ _ Hs Hof) as (Hh & _).
    apply frame_at_Some in Hat as (_ & _ & Hhv & _ & Hv & _).
    exists (f_virial fr). rewrite Hhv, Hh. repeat split; try done.
    apply frame_of_Some in Hof
      as (flags & flag & ? & ? & ? & ? & Hfl & Hj & _ & _ & Hvir & _).
    destruct Hs as [_ _ _ _ _ _ _ Hv33 Hflags]. rewrite Hflags in Hfl.
    injection Hfl as <-. apply lookup_replicate in Hj as [-> _].
    destruct (virial_complete s); [|exact Hvir].
    destruct Hvir as (vs & v & Hvs & Hvj & Hconv).
    assert (H33 : is33 v)
      by apply (proj1 (Forall_lookup _ _) (Hv33 _ Hvs) _ _ Hvj).
    destruct (is33_inv _ H33)
      as (xx & xy & xz & yx & yy & yz & zx & zy & zz & ->).
    change (convervirial [[xx; xy; xz]; [yx; yy; yz]; [zx; zy; zz]])
      with (Ok [xx; yy; zz; xy; yz; xz]) in Hconv.
    injection Hconv as <-.
    by exists vs, xx, xy, xz, yx, yy, yz, zx, zy, zz.
  - intros text Hdump.
    destruct (pipeline_table _ _ _ _ _ Hrun Hb Hdump)
      as (dm' & frs & m & body & Hscan' & _ & _ & Hof & Hat & _ & Hm & Hbody
          & Htab).
    rewrite Hscan in Hscan'. injection Hscan' as <-.
    rewrite Hm, firstn_all in Hbody by done.
    exists ([str_int (Merged.nframe d)]
            :: ((λ sj, pair_row (pair_of sj.1)) <$> origins dm)), body.
    split; [done|]. split; [simpl; by rewrite length_fmap|]. split.
    { apply Forall2_length in Hbody, Hof. lia. }
    intros k s j Hk.
    destruct (Forall2_lookup_l _ _ _ _ _ Hof Hk) as (fr & Hfrk & Hfr').
    destruct (Forall2_lookup_l _ _ _ _ _ Hbody Hfrk) as (rows & Hrk & Hrows).
    assert (Hk' : seq 0 (Z.to_nat (Merged.nframe d)) !! k = Some k).
    { apply lookup_seq. split; [done|]. apply lookup_lt_Some in Hk. lia. }
    destruct (Forall2_lookup_lr _ _ _ _ _ _ Hat Hk' Hfrk) as [Hatk _].
    assert (Hs : system_wf s)
      by apply (proj1 (Forall_lookup _ _) Hwf' _ _ Hk).
    simpl in Hfr'. destruct (frame_of_flag _ _ _ Hs Hfr') as (Hh & _).
    apply frame_at_Some in Hatk as (_ & _ & _ & He & Hv & _).
    destruct Hrows as (a & atoms & _ & _ & ->).
    exists (f_energy fr), (f_virial fr), (cell_row fr :: atoms).
    split; [done|]. split; [done|]. split.
    + simpl. by rewrite list_lookup_fmap, Hk.
    + rewrite Hrk. unfold energy_row. by rewrite Hh, truthy_of_bool.
Qed.

Lemma virial_merged_and_written_witness :
  ∃ dm, scan "./deepmd" Sample.two_systems = Ok dm ∧
  ∀ k s j, origins dm !! k = Some (s, j) →
    ∃ v6, Merged.has_virial Evaluated.merged !! k
          = Some (of_int (bool_to_Z (virial_complete s))) ∧
          Merged.virials Evaluated.merged !! k = Some v6 ∧
          length v6 = 6%nat ∧
          if virial_complete s
          then ∃ vs xx xy xz yx yy yz zx zy zz,
                 System.virials s = Some vs ∧
                 vs !! j = Some [[xx; xy; xz]; [yx; yy; yz]; [zx; zy; zz]] ∧
                 v6 = [xx; yy; zz; xy; yz; xz]
          else v6 = replicate 6 (of_int 0).
Proof.
  destruct (virial_merged_and_written "./deepmd" Sample.two_systems
              Evaluated.merged Evaluated.read_two_systems
              exact_counts_two_systems) as (dm & Hscan & Hmerged & _).
  by exists dm.
Defined.

(** ** Systems without energies or forces *)

Section Missing.
Context `{Float64}.

Lemma convervirial_ok (v : matrix) : is33 v → is_Ok (convervirial v).
Proof.
  intros (a & b & c & d & e & f & g & h & i & ->)%is33_inv. by eexists.
Qed.

Lemma reshape_9_ok (c : matrix) :
  is33 c → ∃ c9, Np.reshape_9 c = Ok c9 ∧ length c9 = 9%nat.
Proof.
  intros (a & b & c' & d & e & f & g & h & i & ->)%is33_inv. by eexists.
Qed.

Lemma vec2volume_ok (c : vector) : length c = 9%nat → is_Ok (vec2volume c).
Proof.
  intros Hc.
  do 9 (destruct c as [|? c]; [done|]). destruct c; [|done]. by eexists.
Qed.

Lemma getitem_0 {A} (l : list A) : l ≠ [] → ∃ x, getitem l 0 = Ok x.
Proof. destruct l as [|x l]; [done|]. intros _. by exists x. Qed.

Lemma getitem_insert {A} (l : list A) (k : nat) (x : A) :
  (k < length l)%nat → getitem (<[k := x]> l) (Z.of_nat k) = Ok x.
Proof. intros Hk. apply getitem_nat. by apply list_lookup_insert_eq. Qed.

(** The first frame of a system without energies, or with energies and
    without forces, ends the merge with a [KeyError]. *)
Lemma merge_frame_missing n done s st :
  merge_inv n done st →
  (length done < Z.to_nat n)%nat →
  system_wf s →
  (System.energies s = None →
   merge_frame s 0 st = Err (KeyError (Name "energies"))) ∧
  (is_Some (System.energies s) → System.forces s = None →
   merge_frame s 0 st = Err (KeyError (Name "forces"))).
Proof.
  intros Hinv Hroom Hs. destruct st as [ifr data].
  destruct Hinv as [Hifr Hn Hl1 Hl2 Hl3 Hl4 Hl5 Hl6 Hl7 _ _ _]. simpl in *.
  destruct Hs as [Hf1 Hcl Hcol Hc33 _ Hes _ Hv33 Hflags].
  set (k := length done) in *.
  unfold merge_frame. replace (ifr + 1) with (Z.of_nat k) by lia.
  assert (Hflag : getitem (replicate (System.frames s) (virial_complete s)) 0
                  = Ok (virial_complete s)).
  { apply (getitem_nat _ 0). apply lookup_replicate. split; [done|lia]. }
  split.
  - intros He.
    repeat (first [rewrite setitem_nat by lia | rewrite Hflags
                  | rewrite Hflag | rewrite He]; simpl).
    reflexivity.
  - intros [es Hes'] Hfs.
    destruct (getitem_0 es (Hes _ Hes')) as [e He].
    assert (Hcells : System.cells s ≠ []).
    { destruct (System.cells s); simpl in *; [lia|done]. }
    assert (Hcoords : System.coords s ≠ []).
    { destruct (System.coords s); simpl in *; [|done].
      destruct (System.cells s); simpl in *; [lia|done]. }
    destruct (getitem_0 _ Hcells) as [c Hc].
    destruct (getitem_0 _ Hcoords) as [co Hco].
    assert (Hc3 : is33 c).
    { apply (getitem_nat _ 0) in Hc.
      by apply (proj1 (Forall_lookup _ _) Hc33 _ _ Hc). }
    destruct (reshape_9_ok _ Hc3) as (c9 & Hc9 & Hlen9).
    destruct (vec2volume_ok _ Hlen9) as [vol Hvol].
    assert (Hvir :
      ∃ vrows,
        (if virial_complete s
         then vs ← field "virials" (System.virials s);
              v ← getitem vs 0;
              v6 ← convervirial v;
              setitem (Merged.virials data) (Z.of_nat k) v6
         else Ok (Merged.virials data)) = Ok vrows).
    { unfold virial_complete in *.
      destruct (System.virials s) as [vs|] eqn:Ev; [|by eexists].
      case_bool_decide as Hlen; [|by eexists]. simpl.
      assert (Hvs : vs ≠ []) by (destruct vs; simpl in *; [lia|done]).
      destruct (getitem_0 _ Hvs) as [v Hv]. rewrite Hv. simpl.
      assert (Hv3 : is33 v).
      { apply (getitem_nat _ 0) in Hv.
        by apply (proj1 (Forall_lookup _ _) (Hv33 _ eq_refl) _ _ Hv). }
      destruct (convervirial_ok _ Hv3) as [v6 ->]. simpl.
      rewrite setitem_nat by lia. by eexists. }
    destruct Hvir as [vrows Hvir].
    repeat (first [rewrite setitem_nat by lia | rewrite Hflags
                  | rewrite Hflag | rewrite Hes' | rewrite He
                  | rewrite getitem_insert by lia | rewrite truthy_of_bool
                  | rewrite Hvir | rewrite Hc | rewrite Hc9 | rewrite Hvol
                  | rewrite Hco | rewrite Hfs]; simpl).
    reflexivity.
Qed.

End Missing.

Section MissingArrays.
Context `{Float64}.

Lemma origins_elem dm x j :
  x ∈ dm → (j < System.frames x.2)%nat →
  ∃ k, origins dm !! k = Some (x.2, j).
Proof.
  intros Hx Hj. apply list_elem_of_lookup. unfold origins.
  apply list_elem_of_bind. exists x. split; [|done].
  apply list_elem_of_fmap. exists j. split; [done|].
  apply elem_of_seq. lia.
Qed.

Lemma covers {A} (l : list A) (n : nat) :
  (∀ j, (j < n)%nat → is_Some (l !! j)) → (n ≤ length l)%nat.
Proof.
  intros Hl. destruct n as [|n]; [lia|].
  destruct (Hl n) as [x Hx]; [lia|]. apply lookup_lt_Some in Hx. lia.
Qed.

Lemma merge_Ok_arrays dm d :
  Forall (λ x, system_wf x.2) dm →
  merge dm = Ok d →
  Forall (λ x, has_energies_and_forces x.2) dm.
Proof.
  intros Hwf Hrun. destruct (merge_frames _ _ Hrun) as (_ & _ & _ & Hfr).
  apply Forall_forall. intros x Hx.
  assert (Hs : system_wf x.2) by (by apply (proj1 (Forall_forall _ _) Hwf)).
  assert (Hall : ∀ j, (j < System.frames x.2)%nat →
            ∃ es fs, System.energies x.2 = Some es ∧
                     System.forces x.2 = Some fs ∧
                     is_Some (es !! j) ∧ is_Some (fs !! j)).
  { intros j Hj. destruct (origins_elem _ _ _ Hx Hj) as [k Hk].
    destruct (Hfr _ _ _ Hk) as (fr & Hof & _).
    apply frame_of_Some in Hof
      as (? & ? & es & ? & ? & fs & _ & _ & Hes & He & _ & _ & _ & _ & _ & _
          & Hfs & Hf & _).
    exists es, fs. eauto. }
  destruct (Hall 0%nat) as (es & fs & Hes & Hfs & _);
    [by destruct Hs|].
  exists es, fs. split; [done|]. split; [done|].
  split; apply covers; intros j Hj;
    destruct (Hall j Hj) as (es' & fs' & Hes' & Hfs' & He & Hf);
    congruence.
Qed.

Lemma merge_system_raises i s st e :
  (1 ≤ System.frames s)%nat →
  merge_frame s 0 st = Err e →
  merge_system (i, s) st = Err e.
Proof.
  intros Hf Hfr. unfold merge_system. rewrite range_nat.
  cbn [snd]. destruct (System.frames s) as [|n]; [lia|].
  change (for_each (merge_frame s) (Z.of_nat <$> seq 0 (S n)) st)
    with (merge_frame s 0 st
          ≫= for_each (merge_frame s) (Z.of_nat <$> seq 1 n)).
  by rewrite Hfr.
Qed.

Lemma merge_missing pre i s post st :
  Forall (λ x, system_wf x.2) (pre ++ (i, s) :: post) →
  for_each merge_system pre
           (-1, allocate (total_frames (pre ++ (i, s) :: post))) = Ok st →
  (System.energies s = None →
   merge (pre ++ (i, s) :: post) = Err (KeyError (Name "energies"))) ∧
  (is_Some (System.energies s) → System.forces s = None →
   merge (pre ++ (i, s) :: post) = Err (KeyError (Name "forces"))).
Proof.
  intros Hwf Hpre.
  set (dm := pre ++ (i, s) :: post) in *.
  assert (Hs : system_wf s).
  { apply Forall_app in Hwf as [_ Hwf]. by apply Forall_cons in Hwf as [? _]. }
  pose proof (merge_loop_inv _ _ _ Hpre) as Hinv.
  assert (Hroom : (length (origins pre) < Z.to_nat (total_frames dm))%nat).
  { rewrite <- origins_length, Nat2Z.id. unfold dm, origins.
    rewrite bind_app, length_app, bind_cons, length_app, length_fmap,
      length_seq.
    simpl. destruct Hs as [Hf1 _ _ _ _ _ _ _ _]. lia. }
  destruct (merge_frame_missing _ _ _ _ Hinv Hroom Hs) as [He Hf].
  assert (Hstep : ∀ e, merge_frame s 0 st = Err e → merge dm = Err e).
  { intros e Hfr. unfold merge.
    replace (Np.sum _) with (Np.Int64 (total_frames dm))
      by (unfold dm; by destruct pre).
    simpl. unfold dm at 1. rewrite for_each_app.
    fold dm. rewrite Hpre. simpl.
    rewrite (merge_system_raises i s st e); [done| |done].
    by destruct Hs. }
  split; [intros Hn|intros Hsome Hn]; apply Hstep; auto.
Qed.

End MissingArrays.

(** C10. The merge returns only if every system has an energy sequence
    and a force sequence that reach all its merged frames; a system
    without one of them makes it fail, and when the loop gets to such a
    system the first frame raises the [KeyError] of the missing key,
    ['energies'] before ['forces']. *)
Theorem merge_needs_energies_and_forces `{Float64} folder listing dm :
  scan folder listing = Ok dm →
  read_multi_deepmd folder listing = merge dm ∧
  (∀ d, merge dm = Ok d →
        Forall (λ x, has_energies_and_forces x.2) dm) ∧
  (Exists (λ x, System.energies x.2 = None ∨ System.forces x.2 = None) dm →
   is_Err (merge dm)) ∧
  (∀ pre i s post st,
     dm = pre ++ (i, s) :: post →
     for_each merge_system pre (-1, allocate (total_frames dm)) = Ok st →
     (System.energies s = None → merge dm = Err (KeyError (Name "energies"))) ∧
     (is_Some (System.energies s) → System.forces s = None →
      merge dm = Err (KeyError (Name "forces")))).
Proof.
  intros Hscan. pose proof (scan_wf _ _ _ Hscan) as Hwf.
  split; [|split; [|split]].
  - unfold read_multi_deepmd. by rewrite Hscan.
  - intros d. by apply merge_Ok_arrays.
  - intros Hex. destruct (merge dm) as [d|e] eqn:Hrun; [|by eexists].
    exfalso. pose proof (merge_Ok_arrays _ _ Hwf Hrun) as Hall.
    apply Exists_exists in Hex as (x & Hx & Hmiss).
    apply (proj1 (Forall_forall _ _) Hall) in Hx
      as (es & fs & Hes & Hfs & _).
    destruct Hmiss; congruence.
  - intros pre i s post st -> Hpre.
    exact (merge_missing pre i s post st Hwf Hpre).
Qed.

Lemma scan_no_forces : scan "./deepmd" no_forces = Ok no_forces_data.
Proof. vm_cast_no_check (eq_refl (Ok no_forces_data)). Qed.

Lemma merge_needs_energies_and_forces_witness :
  read_multi_deepmd "./deepmd" no_forces = Err (KeyError (Name "forces")).
Proof.
  destruct (merge_needs_energies_and_forces "./deepmd" no_forces
              no_forces_data scan_no_forces) as (-> & _ & _ & Hkey).
  destruct no_forces_data as [|[i s] post] eqn:E; [discriminate E|].
  refine (proj2 (Hkey [] i s post (-1, allocate _) eq_refl eq_refl) _ _).
  - injection E as _ <- _. by eexists.
  - by injection E as _ <- _.
Defined.

(** * Further properties *)

(** ** Atom counts of a topology *)

Section Counts.
Context `{Float64}.

Lemma count_eq_cons (x : Z) (l : list Z) (v : Z) :
  Np.count_eq (x :: l) v = (if decide (x = v) then 1 else 0) + Np.count_eq l v.
Proof.
  unfold Np.count_eq. rewrite filter_cons.
  destruct (decide (x = v)); simpl; lia.
Qed.

Lemma sum_indicator (x : Z) (a : Z) (n : nat) :
  foldr Z.add 0 ((λ ii, if decide (x = ii) then 1 else 0)
                   <$> seqZ a (Z.of_nat n))
  = if decide (a ≤ x < a + Z.of_nat n) then 1 else 0.
Proof.
  revert a. induction n as [|n IH]; intros a.
  - simpl. case_decide; [lia|done].
  - rewrite Nat2Z.inj_succ, seqZ_cons by lia. simpl.
    replace (Z.pred (Z.succ (Z.of_nat n))) with (Z.of_nat n) by lia.
    rewrite IH. repeat case_decide; lia.
Qed.

Lemma sum_count_eq (l : list Z) (n : Z) :
  foldr Z.add 0 ((λ ii, Np.count_eq l ii) <$> range n)
  = Z.of_nat (length (filter (λ x, 0 ≤ x < n) l)).
Proof.
  induction l as [|x l IH].
  - simpl. induction (range n) as [|y ys IHy]; [done|].
    rewrite fmap_cons. cbn [foldr]. rewrite IHy. done.
  - rewrite filter_cons.
    transitivity ((if decide (0 ≤ x < n) then 1 else 0)
                  + Z.of_nat (length (filter (λ x, 0 ≤ x < n) l))).
    2: { case_decide; simpl; lia. }
    rewrite <- IH.
    assert (Hind : foldr Z.add 0 ((λ ii, if decide (x = ii) then 1 else 0)
                                    <$> range n)
                   = if decide (0 ≤ x < n) then 1 else 0).
    { unfold range. destruct (decide (0 ≤ n)) as [Hn|Hn].
      - rewrite <- (Z2Nat.id n) at 1 by done. rewrite sum_indicator.
        repeat case_decide; lia.
      - rewrite seqZ_nil by lia. simpl. case_decide; lia. }
    rewrite <- Hind. clear.
    induction (range n) as [|y ys IHy]; [done|].
    rewrite !fmap_cons. cbn [foldr]. rewrite count_eq_cons, IHy. lia.
Qed.

Lemma filter_iff_in {A} (P Q : A → Prop)
    `{!∀ x, Decision (P x), !∀ x, Decision (Q x)} (l : list A) :
  Forall (λ x, P x ↔ Q x) l → filter P l = filter Q l.
Proof.
  induction 1 as [|x l Hx _ IH]; [done|].
  rewrite !filter_cons, IH.
  destruct (decide (P x)), (decide (Q x)); [done|tauto|tauto|done].
Qed.

Lemma foldr_max_ge (x : Z) (l : list Z) :
  x ≤ foldr Z.max x l ∧ Forall (λ y, y ≤ foldr Z.max x l) l.
Proof.
  induction l as [|y l [IH1 IH2]]; simpl; [split; [lia|constructor]|].
  split; [lia|]. constructor; [lia|].
  eapply Forall_impl; [exact IH2|]. simpl. lia.
Qed.

Lemma foldr_max_elem (x : Z) (l : list Z) : foldr Z.max x l ∈ x :: l.
Proof.
  induction l as [|y l IH]; simpl; [left|].
  destruct (Z.max_spec y (foldr Z.max x l)) as [[_ ->]|[_ ->]].
  - apply elem_of_cons in IH as [->|IH]; [left|right; by right].
  - right. left.
Qed.

Lemma load_type_Ok folder type_map data :
  load_type folder type_map = Ok data →
  ∃ x l, type_raw folder = Some (x :: l) ∧
         Topology.atom_types data = x :: l ∧
         Topology.atom_numbs data = atom_numbs_of (x :: l) ∧
         length (Topology.atom_names data)
         = length (Topology.atom_numbs data).
Proof.
  intros Hload.
  destruct (type_raw folder) as [[|x l]|] eqn:Hraw;
    try (unfold load_type in Hload; rewrite Hraw in Hload; discriminate).
  exists x, l. split; [done|].
  pose proof (load_type_spec folder type_map (x :: l) Hraw) as Hspec.
  cbv zeta in Hspec. rewrite Hspec in Hload by done.
  destruct (decide _) as [Hle|]; [|done]. injection Hload as <-.
  cbn [Topology.atom_names Topology.atom_numbs Topology.atom_types].
  repeat split. rewrite length_take. apply Nat.min_l, Hle.
Qed.

End Counts.

(** X1. When [load_type] returns, [type.raw] lists at least one atom;
    [atom_numbs] has one entry for each type index from 0 to the largest
    index in the file, entry [t] is the number of atoms of type [t], and
    the entries add up to the number of atoms whose index is not
    negative, so to the number of atoms when no index is negative;
    [atom_names] has as many entries as [atom_numbs]. *)
Theorem load_type_counts `{Float64} folder type_map data :
  load_type folder type_map = Ok data →
  let types := Topology.atom_types data in
  let numbs := Topology.atom_numbs data in
  type_raw folder = Some types ∧
  (∃ top, top ∈ types ∧ Forall (λ t, t ≤ top) types ∧
          length numbs = Z.to_nat (top + 1)) ∧
  (∀ (t : nat) n, numbs !! t = Some n →
                  n = Z.of_nat (length (filter (λ x, x = Z.of_nat t) types))) ∧
  foldr Z.add 0 numbs = Z.of_nat (length (filter (λ x, 0 ≤ x) types)) ∧
  (Forall (λ x, 0 ≤ x) types →
   foldr Z.add 0 numbs = Z.of_nat (length types)) ∧
  length (Topology.atom_names data) = length numbs.
Proof.
  intros Hload types numbs.
  destruct (load_type_Ok _ _ _ Hload) as (x & l & Hraw & Hty & Hnu & Hna).
  subst types numbs. rewrite Hty, Hnu in *.
  destruct (foldr_max_ge x l) as [Hx Hl].
  assert (Hsum : foldr Z.add 0 (atom_numbs_of (x :: l))
                 = Z.of_nat (length (filter (λ y, 0 ≤ y) (x :: l)))).
  { unfold atom_numbs_of. rewrite sum_count_eq. f_equal. f_equal.
    apply filter_iff_in. apply Forall_forall. intros y Hy.
    assert (y ≤ foldr Z.max x l).
    { apply elem_of_cons in Hy as [->|Hy]; [done|].
      by apply (proj1 (Forall_forall _ _) Hl). }
    simpl. lia. }
  split; [done|]. split; [|split; [|split; [|split]]].
  - exists (foldr Z.max x l). split; [apply foldr_max_elem|].
    split; [by constructor|].
    by rewrite atom_numbs_of_length.
  - intros t n Ht. unfold atom_numbs_of in Ht.
    apply list_lookup_fmap_Some in Ht as (ii & -> & Hii).
    unfold range in Hii. apply lookup_seqZ in Hii as [-> _].
    reflexivity.
  - done.
  - intros Hpos. rewrite Hsum. do 2 f_equal.
    rewrite (filter_iff_in _ (λ _, True)).
    + clear. induction (x :: l) as [|y ys IH]; [done|].
      rewrite filter_cons_True by done. by f_equal.
    + eapply Forall_impl; [exact Hpos|]. done.
  - done.
Qed.

Lemma load_type_counts_witness :
  ∃ data, load_type (Sample.system []) None = Ok data ∧
          Topology.atom_numbs data = [1; 1] ∧
          foldr Z.add 0 (Topology.atom_numbs data) = 2.
Proof.
  assert (Hload : load_type (Sample.system []) None
                  = Ok {| Topology.atom_types := [0; 1];
                          Topology.atom_numbs := [1; 1];
                          Topology.atom_names :=
                            ["Type_0"%string; "Type_1"%string] |})
    by reflexivity.
  eexists. split; [exact Hload|]. split; [reflexivity|].
  destruct (load_type_counts _ _ _ Hload) as (_ & _ & _ & _ & Hsum & _).
  apply Hsum. repeat constructor; lia.
Defined.

(** ** Bounds of the virial reduction *)

Section Bounds.
Context `{Float64}.

Lemma getitem_lookup {A} (l : list A) (i : nat) :
  getitem l (Z.of_nat i)
  = match l !! i with Some x => Ok x | None => Err IndexError end.
Proof.
  destruct (l !! i) as [x|] eqn:E.
  - by apply getitem_nat.
  - apply lookup_ge_None in E. unfold getitem. cbv zeta.
    rewrite (decide_False (P := Z.of_nat i < 0)) by lia.
    rewrite decide_False by lia. done.
Qed.

Lemma getitem2_entry (m : matrix) (i j : nat) :
  Np.getitem2 m (Z.of_nat i) (Z.of_nat j)
  = match entry_at m i j with Some x => Ok x | None => Err IndexError end.
Proof.
  unfold Np.getitem2, entry_at. rewrite getitem_lookup.
  destruct (m !! i) as [row|]; simpl; [|done]. apply getitem_lookup.
Qed.

Lemma convervirial_entries (m : matrix) :
  convervirial m
  = match entry_at m 0 0, entry_at m 0 1, entry_at m 0 2,
          entry_at m 1 1, entry_at m 1 2, entry_at m 2 2 with
    | Some xx, Some xy, Some zx, Some yy, Some yz, Some zz =>
        Ok [xx; yy; zz; xy; yz; zx]
    | _, _, _, _, _, _ => Err IndexError
    end.
Proof.
  unfold convervirial.
  change (Np.getitem2 m 0 0) with (Np.getitem2 m (Z.of_nat 0) (Z.of_nat 0)).
  change (Np.getitem2 m 0 1) with (Np.getitem2 m (Z.of_nat 0) (Z.of_nat 1)).
  change (Np.getitem2 m 0 2) with (Np.getitem2 m (Z.of_nat 0) (Z.of_nat 2)).
  change (Np.getitem2 m 1 1) with (Np.getitem2 m (Z.of_nat 1) (Z.of_nat 1)).
  change (Np.getitem2 m 1 2) with (Np.getitem2 m (Z.of_nat 1) (Z.of_nat 2)).
  change (Np.getitem2 m 2 2) with (Np.getitem2 m (Z.of_nat 2) (Z.of_nat 2)).
  rewrite !getitem2_entry.
  destruct (entry_at m 0 0), (entry_at m 0 1), (entry_at m 0 2),
    (entry_at m 1 1), (entry_at m 1 2), (entry_at m 2 2); reflexivity.
Qed.

Lemma entry_at_is_Some (m : matrix) (c i j : nat) :
  Forall (λ row, length row = c) m →
  is_Some (entry_at m i j) ↔ (i < length m ∧ j < c)%nat.
Proof.
  intros Hrows. unfold entry_at. split.
  - intros [x Hx]. destruct (m !! i) as [row|] eqn:Ei; [|done].
    simpl in Hx. split; [by eapply lookup_lt_Some|].
    rewrite <- (proj1 (Forall_lookup _ _) Hrows _ _ Ei).
    by eapply lookup_lt_Some.
  - intros [Hi Hj]. destruct (lookup_lt_is_Some_2 m i Hi) as [row Ei].
    rewrite Ei. simpl. apply lookup_lt_is_Some_2.
    by rewrite (proj1 (Forall_lookup _ _) Hrows _ _ Ei).
Qed.

End Bounds.

(** X2. On an array of [r] rows and [c] columns [convervirial] returns
    exactly when [r] and [c] are at least 3, with the six entries
    [m[0,0]], [m[1,1]], [m[2,2]], [m[0,1]], [m[1,2]], [m[0,2]] of the
    array; on a smaller array it raises [IndexError]. *)
Theorem convervirial_bounds `{Float64} (m : matrix) (c : nat) :
  Forall (λ row, length row = c) m →
  if decide (3 ≤ length m ∧ 3 ≤ c)%nat
  then ∃ xx yy zz xy yz zx,
         entry_at m 0 0 = Some xx ∧ entry_at m 1 1 = Some yy ∧
         entry_at m 2 2 = Some zz ∧ entry_at m 0 1 = Some xy ∧
         entry_at m 1 2 = Some yz ∧ entry_at m 0 2 = Some zx ∧
         convervirial m = Ok [xx; yy; zz; xy; yz; zx]
  else convervirial m = Err IndexError.
Proof.
  intros Hrows. rewrite convervirial_entries.
  pose proof (entry_at_is_Some m c) as Hat.
  case_decide as Hsize.
  - destruct (proj2 (Hat 0 0 Hrows))%nat as [xx ->]; [lia|].
    destruct (proj2 (Hat 0 1 Hrows))%nat as [xy ->]; [lia|].
    destruct (proj2 (Hat 0 2 Hrows))%nat as [zx ->]; [lia|].
    destruct (proj2 (Hat 1 1 Hrows))%nat as [yy ->]; [lia|].
    destruct (proj2 (Hat 1 2 Hrows))%nat as [yz ->]; [lia|].
    destruct (proj2 (Hat 2 2 Hrows))%nat as [zz ->]; [lia|].
    by exists xx, yy, zz, xy, yz, zx.
  - destruct (entry_at m 0 0) eqn:E00; [|done].
    destruct (entry_at m 0 1) eqn:E01; [|done].
    destruct (entry_at m 0 2) eqn:E02; [|done].
    destruct (entry_at m 1 1) eqn:E11; [|done].
    destruct (entry_at m 1 2) eqn:E12; [|done].
    destruct (entry_at m 2 2) eqn:E22; [|done].
    exfalso. apply Hsize.
    destruct (proj1 (Hat 2 2 Hrows))%nat; [by eexists|]. lia.
Qed.

Lemma convervirial_bounds_witness :
  convervirial (Sample.fl <$> [[1; 2; 3]; [4; 5; 6]]) = Err IndexError.
Proof.
  pose proof (convervirial_bounds (H := Binary64.binary64)
                (Sample.fl <$> [[1; 2; 3]; [4; 5; 6]]) 3)
    as Hsmall.
  rewrite decide_False in Hsmall by (simpl; lia).
  apply Hsmall. repeat constructor.
Defined.

(** ** Files a system needs *)

Section Files.
Context `{Float64}.

Lemma for_each_raises {A S} (body : A → S → result S) pre x post s s1 e :
  for_each body pre s = Ok s1 →
  body x s1 = Err e →
  for_each body (pre ++ x :: post) s = Err e.
Proof. intros Hpre Hx. rewrite for_each_app, Hpre. simpl. by rewrite Hx. Qed.

Lemma sets_step_missing sd acc :
  box_npy sd = None ∨ coord_npy sd = None →
  sets_step sd acc = Err FileNotFoundError.
Proof.
  unfold sets_step, load_set.
  destruct (box_npy sd), (coord_npy sd); intros [?|?]; done.
Qed.

Lemma enumerate_app {A} (l1 l2 : list A) :
  enumerate (l1 ++ l2)
  = enumerate l1
    ++ zip (seqZ (Z.of_nat (length l1)) (Z.of_nat (length l2))) l2.
Proof.
  unfold enumerate. rewrite length_app, Nat2Z.inj_add, seqZ_app by lia.
  rewrite zip_with_app; [done|]. by rewrite length_seqZ, Nat2Z.id.
Qed.

Lemma scan_raises folder pre fi d post dm e :
  scan folder pre = Ok dm →
  to_system_data (path_join folder fi) d = Err e →
  scan folder (pre ++ (fi, Dir d) :: post) = Err e.
Proof.
  intros Hpre Hd. unfold scan. rewrite enumerate_app.
  rewrite length_cons, Nat2Z.inj_succ, seqZ_cons by lia.
  cbn [zip zip_with].
  eapply for_each_raises; [exact Hpre|].
  simpl. by rewrite Hd.
Qed.

Lemma main_raises instr listing e :
  read_multi_deepmd ("./" +:+ instr) listing = Err e →
  main instr listing = (None, Err e).
Proof. unfold main. by intros ->. Qed.

End Files.

Section Required.
Context `{Float64}.

Lemma sets_step_required sd acc acc1 acc' :
  sets_step sd acc = Ok acc1 →
  same_required acc acc' →
  ∃ acc1', sets_step (required_only sd) acc' = Ok acc1' ∧
           same_required acc1 acc1'.
Proof.
  intros Hrun (Hn & Hc & Hco & He & Hf & Hv).
  unfold sets_step, load_set, required_only in *.
  cbn [box_npy coord_npy energy_npy force_npy virial_npy].
  destruct (box_npy sd) as [b|]; [|done].
  destruct (coord_npy sd) as [c|]; [|done].
  cbn [np_load cond_load_data append_if_data mbind result_bind Py.bind]
    in Hrun |- *.
  destruct (Np.count_33 b) as [n|]; [|done].
  cbn [mbind result_bind Py.bind] in Hrun |- *.
  destruct (Np.reshape_33 b n) as [cs|]; [|done].
  cbn [mbind result_bind Py.bind] in Hrun |- *.
  destruct (Np.reshape_x3 c n) as [co|]; [|done].
  cbn [mbind result_bind Py.bind] in Hrun |- *.
  eexists. split; [reflexivity|].
  inv_ok. unfold same_required. simpl. by rewrite Hc, Hco, He, Hf, Hv.
Qed.

Lemma sets_loop_required (sds : list set_dir) : ∀ acc acc' accN,
  for_each sets_step sds acc = Ok accN →
  same_required acc acc' →
  ∃ accN', for_each sets_step (required_only <$> sds) acc' = Ok accN' ∧
           same_required accN accN'.
Proof.
  induction sds as [|sd sds IH]; intros acc acc' accN Hrun Hsame.
  - injection Hrun as <-. by exists acc'.
  - cbn [for_each] in Hrun.
    destruct (sets_step sd acc) as [acc1|] eqn:Hstep; [|done].
    destruct (sets_step_required _ _ _ _ Hstep Hsame) as (acc1' & H1 & Hs1).
    destruct (IH _ _ _ Hrun Hs1) as (accN' & HN & HsN).
    exists accN'. split; [|done].
    cbn [fmap list_fmap for_each]. by rewrite H1.
Qed.

Lemma to_system_data_required path folder s :
  to_system_data path folder = Ok s →
  ∃ s', to_system_data path (required_files_only folder) = Ok s' ∧
        System.frames s' = System.frames s ∧
        System.cells s' = System.cells s ∧
        System.coords s' = System.coords s ∧
        System.energies s' = None ∧
        System.forces s' = None ∧
        System.virials s' = None.
Proof.
  intros Hrun. unfold to_system_data in *.
  change (load_type (required_files_only folder) None)
    with (load_type folder None).
  destruct (load_type folder None) as [t|]; [|done].
  cbn [mbind result_bind Py.bind] in Hrun |- *.
  destruct (for_each sets_step (sets folder) sets_acc0) as [acc|] eqn:Hloop;
    [|done].
  destruct (sets_loop_required _ _ sets_acc0 _ Hloop)
    as (acc' & Hloop' & Hn & Hc & Hco & He & Hf & Hv).
  { by repeat split. }
  change (sets (required_files_only folder))
    with (required_only <$> sets folder).
  rewrite Hloop'. cbn [mbind result_bind Py.bind] in Hrun |- *.
  rewrite Hn, Hc, Hco, He, Hf, Hv.
  destruct (nframes acc) as [n|]; [|done].
  cbn [mbind result_bind Py.bind] in Hrun |- *.
  destruct (Np.concatenate (all_cells acc)) as [cells|]; [|done].
  cbn [mbind result_bind Py.bind] in Hrun |- *.
  destruct (Np.concatenate_x3 (all_coords acc)) as [coords|]; [|done].
  cbn [mbind result_bind Py.bind concat_if_any] in Hrun |- *.
  eexists. split; [reflexivity|].
  inv_ok. by simpl.
Qed.

End Required.

(** X3. [to_system_data] needs [type.raw], and in every subset [box.npy]
    and [coord.npy], and no other file: without [type.raw] it raises
    [FileNotFoundError] before any subset is read, and so it does at the
    first subset that lacks [box.npy] or [coord.npy] once the subsets
    before it are read, whatever files the subset has besides; [load_set]
    returns for every subset that has those two files, with [None] for
    each of [energy.npy], [force.npy] and [virial.npy] that is missing;
    and a system that loads still loads when these three files are taken
    out of all its subsets, with the same frames, cells and coordinates
    and without the keys [energies], [forces] and [virials]. *)
Theorem to_system_data_missing_file `{Float64} path (folder : system_dir) :
  (type_raw folder = None →
   to_system_data path folder = Err FileNotFoundError) ∧
  (∀ t pre sd post acc,
     load_type folder None = Ok t →
     sets folder = pre ++ sd :: post →
     for_each sets_step pre sets_acc0 = Ok acc →
     box_npy sd = None ∨ coord_npy sd = None →
     to_system_data path folder = Err FileNotFoundError) ∧
  (∀ sd b c,
     box_npy sd = Some b → coord_npy sd = Some c →
     load_set sd = Ok (b, c, energy_npy sd, force_npy sd, virial_npy sd)) ∧
  (∀ s, to_system_data path folder = Ok s →
     ∃ s', to_system_data path (required_files_only folder) = Ok s' ∧
           System.frames s' = System.frames s ∧
           System.cells s' = System.cells s ∧
           System.coords s' = System.coords s ∧
           System.energies s' = None ∧
           System.forces s' = None ∧
           System.virials s' = None).
Proof.
  split; [|split; [|split]].
  - intros Hraw. unfold to_system_data, load_type. by rewrite Hraw.
  - intros t pre sd post acc Hload Hsets Hpre Hmiss.
    unfold to_system_data. rewrite Hload, Hsets. simpl.
    rewrite (for_each_raises _ _ _ _ _ _ _ Hpre
               (sets_step_missing sd acc Hmiss)).
    done.
  - intros sd b c Hb Hc. unfold load_set, cond_load_data.
    rewrite Hb, Hc. simpl.
    by destruct (energy_npy sd), (force_npy sd), (virial_npy sd).
  - apply to_system_data_required.
Qed.

Lemma to_system_data_missing_file_witness :
  to_system_data "./deepmd/init.000"
    (Sample.system
       [{| box_npy := box_npy Sample.set_001;
           coord_npy := None;
           energy_npy := energy_npy Sample.set_001;
           force_npy := force_npy Sample.set_001;
           virial_npy := None |};
        Sample.set_001])
  = Err FileNotFoundError ∧
  Forall2 (λ e x,
             ∃ s', to_system_data (path_join "./deepmd" e.2.1)
                     (required_files_only e.2.2) = Ok s' ∧
                   System.cells s' = System.cells x.2 ∧
                   System.energies s' = None)
          (subdirs Sample.two_systems) Evaluated.data_multi.
Proof.
  split.
  - refine (proj1 (proj2 (to_system_data_missing_file _ _))
              {| Topology.atom_types := [0; 1];
                 Topology.atom_numbs := [1; 1];
                 Topology.atom_names := ["Type_0"%string; "Type_1"%string] |}
              [] _ [Sample.set_001] sets_acc0 _ _ _ _).
    + reflexivity.
    + reflexivity.
    + reflexivity.
    + by right.
  - eapply Forall2_impl;
      [exact (scan_systems _ _ _ Evaluated.scan_two_systems)|].
    intros e x (_ & s & Hload & Hx).
    destruct (proj2 (proj2 (proj2 (to_system_data_missing_file _ _)))
                _ Hload) as (s' & Hs' & _ & Hcells & _ & Hes & _).
    exists s'. split; [exact Hs'|]. split; [|exact Hes].
    rewrite Hx. exact Hcells.
Defined.

(** X4. A system directory whose [type.raw] loads and that has no
    [set.*] entry makes [to_system_data] raise [UnboundLocalError] for
    [nframes], the loop variable read after a loop that never ran (line
    121); the run ends there when the entries before that directory load,
    and no file is written. *)
Theorem system_without_subsets_raises `{Float64} instr pre fi d post t :
  load_type d None = Ok t →
  sets d = [] →
  is_Ok (scan ("./" +:+ instr) pre) →
  to_system_data (path_join ("./" +:+ instr) fi) d
  = Err (UnboundLocalError "nframes") ∧
  main instr (pre ++ (fi, Dir d) :: post)
  = (None, Err (UnboundLocalError "nframes")).
Proof.
  intros Hload Hsets [dm Hpre].
  assert (Hd : to_system_data (path_join ("./" +:+ instr) fi) d
               = Err (UnboundLocalError "nframes")).
  { unfold to_system_data. by rewrite Hload, Hsets. }
  split; [done|]. apply main_raises. unfold read_multi_deepmd.
  by rewrite (scan_raises _ _ _ _ _ _ _ Hpre Hd).
Qed.

Lemma system_without_subsets_raises_witness :
  main "deepmd" [("README"%string, File);
                 ("init.000"%string, Dir (Sample.system []))]
  = (None, Err (UnboundLocalError "nframes")).
Proof.
  refine (proj2 (system_without_subsets_raises "deepmd"
                   [("README"%string, File)] "init.000"
                   (Sample.system []) []
                   {| Topology.atom_types := [0; 1];
                      Topology.atom_numbs := [1; 1];
                      Topology.atom_names :=
                        ["Type_0"%string; "Type_1"%string] |} _ _ _)).
  - reflexivity.
  - reflexivity.
  - exists []. reflexivity.
Defined.

(** X5. The first loop of [read_multi_deepmd] stops at the first system
    directory that fails to load: when the entries before it load, the
    exception of that directory is the exception of the run, the merge
    and [dump] are not reached, and no file is written. *)
Theorem first_failing_system_stops_run `{Float64} instr pre fi d post e :
  is_Ok (scan ("./" +:+ instr) pre) →
  to_system_data (path_join ("./" +:+ instr) fi) d = Err e →
  read_multi_deepmd ("./" +:+ instr) (pre ++ (fi, Dir d) :: post) = Err e ∧
  main instr (pre ++ (fi, Dir d) :: post) = (None, Err e).
Proof.
  intros [dm Hpre] Hd.
  assert (Hread : read_multi_deepmd ("./" +:+ instr)
                    (pre ++ (fi, Dir d) :: post) = Err e).
  { unfold read_multi_deepmd. by rewrite (scan_raises _ _ _ _ _ _ _ Hpre Hd). }
  split; [done|]. by apply main_raises.
Qed.

Lemma first_failing_system_stops_run_witness :
  main "deepmd"
       (Sample.two_systems
        ++ [("init.002"%string,
             Dir {| type_raw := None; type_map_raw := None;
                    nopbc_file := false; sets := [Sample.set_001] |});
            ("init.003"%string, Dir (Sample.system [Sample.set_001]))])
  = (None, Err FileNotFoundError).
Proof.
  refine (proj2 (first_failing_system_stops_run "deepmd" Sample.two_systems
                   "init.002"
                   {| type_raw := None; type_map_raw := None;
                      nopbc_file := false; sets := [Sample.set_001] |}
                   [("init.003"%string, Dir (Sample.system [Sample.set_001]))]
                   FileNotFoundError _ _)).
  - exists Evaluated.data_multi. exact Evaluated.scan_two_systems.
  - reflexivity.
Defined.

(** ** When the merge returns *)

Section MergeReturns.
Context `{Float64}.

Lemma merge_frame_Ok n done s j st :
  merge_inv n done st →
  (length done < Z.to_nat n)%nat →
  system_wf s →
  has_energies_and_forces s →
  (j < System.frames s)%nat →
  is_Ok (merge_frame s (Z.of_nat j) st).
Proof.
  intros Hinv Hroom Hs (es & fs & Hes & Hfs & Hles & Hlfs) Hj.
  destruct st as [ifr data].
  destruct Hinv as [Hifr Hn Hl1 Hl2 Hl3 Hl4 Hl5 Hl6 Hl7 _ _ _]. simpl in *.
  destruct Hs as [Hf1 Hcl Hcol Hc33 _ _ _ Hv33 Hflags].
  set (k := length done) in *.
  unfold merge_frame. replace (ifr + 1) with (Z.of_nat k) by lia.
  destruct (lookup_lt_is_Some_2 es j) as [e He]; [lia|].
  destruct (lookup_lt_is_Some_2 fs j) as [f Hf]; [lia|].
  destruct (lookup_lt_is_Some_2 (System.cells s) j) as [c Hc]; [lia|].
  destruct (lookup_lt_is_Some_2 (System.coords s) j) as [co Hco]; [lia|].
  assert (Hc3 : is33 c) by apply (proj1 (Forall_lookup _ _) Hc33 _ _ Hc).
  destruct (reshape_9_ok _ Hc3) as (c9 & Hc9 & Hlen9).
  destruct (vec2volume_ok _ Hlen9) as [vol Hvol].
  assert (Hflag : replicate (System.frames s) (virial_complete s) !! j
                  = Some (virial_complete s)).
  { apply lookup_replicate. by split. }
  assert (Hvir :
    ∃ vrows,
      (if virial_complete s
       then vs ← field "virials" (System.virials s);
            v ← getitem vs (Z.of_nat j);
            v6 ← convervirial v;
            setitem (Merged.virials data) (Z.of_nat k) v6
       else Ok (Merged.virials data)) = Ok vrows).
  { unfold virial_complete in *.
    destruct (System.virials s) as [vs|] eqn:Ev; [|by eexists].
    case_bool_decide as Hlen; [|by eexists]. simpl.
    destruct (lookup_lt_is_Some_2 vs j) as [v Hv]; [lia|].
    rewrite getitem_lookup, Hv. simpl.
    assert (Hv3 : is33 v)
      by apply (proj1 (Forall_lookup _ _) (Hv33 _ eq_refl) _ _ Hv).
    destruct (convervirial_ok _ Hv3) as [v6 ->]. simpl.
    rewrite setitem_nat by lia. by eexists. }
  destruct Hvir as [vrows Hvir].
  repeat (first [rewrite setitem_nat by lia | rewrite Hflags
                | rewrite getitem_lookup | rewrite Hflag
                | rewrite Hes | rewrite He | rewrite Hfs | rewrite Hf
                | rewrite list_lookup_insert_eq by lia
                | rewrite truthy_of_bool
                | rewrite Hvir | rewrite Hc | rewrite Hc9 | rewrite Hvol
                | rewrite Hco]; simpl).
  by eexists.
Qed.

Lemma merge_frames_Ok n s (m : nat) : ∀ (a : nat) done st,
  merge_inv n done st →
  (length done + m ≤ Z.to_nat n)%nat →
  system_wf s →
  has_energies_and_forces s →
  (a + m ≤ System.frames s)%nat →
  ∃ st', for_each (merge_frame s) (Z.of_nat <$> seq a m) st = Ok st' ∧
         merge_inv n (done ++ ((λ j, (s, j)) <$> seq a m)) st'.
Proof.
  induction m as [|m IH]; intros a done st Hinv Hroom Hs Hef Ha.
  - exists st. split; [done|]. simpl. by rewrite app_nil_r.
  - destruct (merge_frame_Ok n done s a st) as [st1 Hst1]; try done; [lia..|].
    pose proof (merge_frame_inv _ _ _ _ _ _ Hinv Hst1) as Hinv1.
    destruct (IH (S a) (done ++ [(s, a)]) st1) as (st' & Hst' & Hinv');
      try done.
    { rewrite length_app. simpl. lia. }
    { lia. }
    exists st'. split.
    + cbn [seq fmap list_fmap for_each]. rewrite Hst1. exact Hst'.
    + cbn [seq fmap list_fmap]. by rewrite <- app_assoc in Hinv'.
Qed.

Lemma merge_systems_Ok n (dm : list (Z * System.t)) : ∀ pre st,
  merge_inv n (origins pre) st →
  (length (origins pre) + length (origins dm) ≤ Z.to_nat n)%nat →
  Forall (λ x, system_wf x.2) dm →
  Forall (λ x, has_energies_and_forces x.2) dm →
  is_Ok (for_each merge_system dm st).
Proof.
  induction dm as [|x dm IH]; intros pre st Hinv Hroom Hwf Hef.
  - by eexists.
  - apply Forall_cons in Hwf as [Hx Hwf]. apply Forall_cons in Hef as [Hxe Hef].
    change (origins (x :: dm))
      with (((λ j, (x.2, j)) <$> seq 0 (System.frames x.2)) ++ origins dm)
      in Hroom.
    rewrite length_app, length_fmap, length_seq in Hroom.
    destruct (merge_frames_Ok n x.2 (System.frames x.2) 0 (origins pre) st)
      as (st1 & Hst1 & Hinv1); try done; [lia|].
    rewrite <- origins_snoc in Hinv1.
    destruct (IH (pre ++ [x]) st1) as [st' Hst']; try done.
    { rewrite origins_snoc, length_app, length_fmap, length_seq. lia. }
    exists st'. cbn [for_each]. unfold merge_system at 2.
    rewrite range_nat, Hst1. exact Hst'.
Qed.

Lemma merge_Ok dm :
  dm ≠ [] →
  Forall (λ x, system_wf x.2) dm →
  Forall (λ x, has_energies_and_forces x.2) dm →
  is_Ok (merge dm).
Proof.
  intros Hne Hwf Hef. unfold merge.
  replace (Np.sum _) with (Np.Int64 (total_frames dm)) by (by destruct dm).
  simpl.
  destruct (merge_systems_Ok (total_frames dm) dm []
              (-1, allocate (total_frames dm)))
    as [st Hst]; try done.
  - apply merge_inv_allocate.
  - rewrite <- origins_length, Nat2Z.id. simpl. lia.
  - rewrite Hst. by eexists.
Qed.

End MergeReturns.

(** X6. Once the systems of a tree are loaded, [read_multi_deepmd]
    returns exactly when there is at least one system and every system
    has an energy sequence and a force sequence with at least as many
    entries as its frame count; nothing else in a loaded system can make
    the merge raise. *)
Theorem merge_returns_iff `{Float64} folder listing dm :
  scan folder listing = Ok dm →
  is_Ok (read_multi_deepmd folder listing)
  ↔ dm ≠ [] ∧ Forall (λ x, has_energies_and_forces x.2) dm.
Proof.
  intros Hscan. pose proof (scan_wf _ _ _ Hscan) as Hwf.
  unfold read_multi_deepmd. rewrite Hscan. simpl. split.
  - intros [d Hd]. destruct (merge_frames _ _ Hd) as (Hne & _).
    split; [done|]. by eapply merge_Ok_arrays.
  - intros [Hne Hef]. by apply merge_Ok.
Qed.

Lemma merge_returns_iff_witness :
  Evaluated.data_multi ≠ [] ∧
  Forall (λ x, has_energies_and_forces x.2) Evaluated.data_multi.
Proof.
  apply (merge_returns_iff "./deepmd" Sample.two_systems
           Evaluated.data_multi Evaluated.scan_two_systems).
  exists Evaluated.merged. exact Evaluated.read_two_systems.
Defined.

(** ** When [dump] returns *)

Section DumpReturns.
Context `{Float64}.

Lemma atom_step_eq d k j fr out :
  frame_at d k = Some fr → frame_wf fr →
  atom_step d (Z.of_nat k) (Z.of_nat j) out
  = match atom_row fr j with
    | Some row => Ok (out +:+ write_table [row])
    | None => Err IndexError
    end.
Proof.
  intros Hfr Hwf.
  destruct (atom_step d (Z.of_nat k) (Z.of_nat j) out) as [out'|e] eqn:Hrun.
  - destruct (atom_step_spec _ _ _ _ _ _ Hfr Hwf Hrun) as (row & -> & ->).
    done.
  - apply frame_at_Some in Hfr as (_ & _ & _ & _ & _ & _ & _ & Ht & Hc & Hf).
    unfold atom_step, dict_get in Hrun. rewrite Ht, Hc, Hf in Hrun.
    simpl in Hrun. rewrite !getitem_lookup in Hrun. unfold atom_row.
    destruct (f_atom_types fr !! j); simpl in *; [|congruence].
    destruct (f_coords fr !! j); simpl in *; [|congruence].
    destruct (f_forces fr !! j); simpl in *; [|congruence].
    discriminate Hrun.
Qed.

Lemma atoms_eq d k fr (js : list nat) : ∀ out,
  frame_at d k = Some fr → frame_wf fr →
  for_each (λ j, atom_step d (Z.of_nat k) (Z.of_nat j)) js out
  = match mapM (atom_row fr) js with
    | Some rows => Ok (out +:+ write_table rows)
    | None => Err IndexError
    end.
Proof.
  induction js as [|j js IH]; intros out Hfr Hwf.
  - simpl. by rewrite append_nil_r.
  - cbn [for_each mapM]. rewrite (atom_step_eq _ _ _ _ _ Hfr Hwf).
    destruct (atom_row fr j) as [row|]; simpl; [|done].
    rewrite IH by done.
    destruct (mapM (atom_row fr) js) as [rows|]; simpl; [|done].
    by rewrite (write_table_cons row rows), write_table_one, !append_assoc.
Qed.

Lemma record_eq d k fr :
  frame_at d k = Some fr → frame_wf fr →
  is_Some (to_int (f_atom_numbs fr)) →
  record d (Z.of_nat k)
  = match atom_rows fr with
    | Some atoms => Ok (write_table (energy_row fr :: cell_row fr :: atoms))
    | None => Err IndexError
    end.
Proof.
  intros Hfr Hwf [a Ha].
  pose proof (frame_at_Some _ _ _ Hfr)
    as (_ & Han & Hh & He & Hv & Hc & _ & _ & _ & _).
  unfold record, atom_rows, int_of_float.
  rewrite !getitem_lookup, Hh, He, Hc, Han, Ha, Hv. simpl.
  assert (Hline :
    (if truthy (f_has_virial fr)
     then Ok (str_float (f_energy fr) +:+ " "
              +:+ join_floats (f_virial fr) +:+ newline)
     else Ok (str_float (f_energy fr) +:+ newline))
    = Ok (write_table [energy_row fr])).
  { rewrite write_table_one. unfold energy_row, join_floats.
    destruct Hwf as [Hv6 _ _ _].
    destruct (truthy (f_has_virial fr)).
    - rewrite join_cons_ne
        by (apply fmap_nonempty; eapply length_nonempty; eauto).
      by rewrite !append_assoc.
    - by rewrite join_one. }
  rewrite Hline. simpl. rewrite Ha. simpl.
  rewrite range_Z, for_each_fmap, (atoms_eq _ _ _ _ _ Hfr Hwf).
  destruct (mapM (atom_row fr) (seq 0 (Z.to_nat a))) as [atoms|]; [|done].
  rewrite (write_table_cons (energy_row fr) (cell_row fr :: atoms)).
  rewrite (write_table_cons (cell_row fr) atoms), write_table_one. unfold cell_row, join_floats.
  by rewrite !append_assoc.
Qed.

Lemma atom_rows_frame_rows fr atoms :
  atom_rows fr = Some atoms →
  frame_rows fr (energy_row fr :: cell_row fr :: atoms).
Proof.
  unfold atom_rows. intros Hatoms.
  destruct (to_int (f_atom_numbs fr)) as [a|] eqn:Ea; [|done].
  simpl in Hatoms. exists a, atoms. split; [done|]. split; [|done].
  by apply mapM_Some.
Qed.

(** The body loop of [dump]: the records of the frames before the first
    one that lacks a row are written, and that one raises. *)
Lemma write_records_end d (ks : list nat) frs out text r :
  Forall2 (λ k fr, frame_at d k = Some fr ∧ frame_wf fr
                   ∧ is_Some (to_int (f_atom_numbs fr))) ks frs →
  write_records d (Z.of_nat <$> ks) out = (text, r) →
  ∃ body,
    Forall2 frame_rows (take (length body) frs) body ∧
    text = out +:+ write_table (concat body) ∧
    (r = Ok () ∧ length body = length frs
     ∨ r = Err IndexError ∧
       ∃ fr, frs !! length body = Some fr ∧ atom_rows fr = None).
Proof.
  intros Hfrs. revert out.
  induction Hfrs as [|k fr ks frs (Hk & Hwf & Ha) Hfrs IH]; intros out Hrun.
  - injection Hrun as <- <-. exists []. split; [constructor|].
    split; [by rewrite append_nil_r|]. by left.
  - cbn [fmap list_fmap write_records] in Hrun.
    rewrite (record_eq _ _ _ Hk Hwf Ha) in Hrun.
    destruct (atom_rows fr) as [atoms|] eqn:Hatoms.
    + destruct (IH _ Hrun) as (body & Hbody & -> & Hend).
      exists ((energy_row fr :: cell_row fr :: atoms) :: body).
      split; [|split].
      * simpl. constructor; [by apply atom_rows_frame_rows|done].
      * cbn [concat]. by rewrite write_table_app, !append_assoc.
      * destruct Hend as [[-> Hlen]|[-> Hfail]]; [left|right].
        -- split; [done|]. simpl. by rewrite Hlen.
        -- split; [done|]. exact Hfail.
    + injection Hrun as <- <-. exists []. split; [constructor|].
      split; [by rewrite append_nil_r|]. right. split; [done|].
      exists fr. by split.
Qed.

Lemma frame_of_atom_rows s j fr :
  system_wf s →
  Z.of_nat (length (System.atom_types s)) ≤ 2 ^ 53 →
  frame_of s j = Some fr →
  to_int (f_atom_numbs fr) = Some (Z.of_nat (length (System.atom_types s))) ∧
  (is_Some (atom_rows fr) ↔ rows_cover s j).
Proof.
  intros Hs Hc Hof.
  destruct (frame_of_flag _ _ _ Hs Hof) as (_ & Han & Hty).
  assert (Hint : to_int (f_atom_numbs fr)
                 = Some (Z.of_nat (length (System.atom_types s)))).
  { rewrite Han. apply to_int_of_int. lia. }
  split; [done|].
  apply frame_of_Some in Hof
    as (? & ? & ? & ? & co & fs & _ & _ & _ & _ & _ & _ & _ & _ & Hco & Hfco
        & Hfs & Hf & _).
  unfold atom_rows. rewrite Hint. simpl. rewrite Nat2Z.id.
  rewrite mapM_is_Some, Forall_forall. unfold rows_cover.
  rewrite Hco, Hfs. subst co. split.
  - intros Hall. exists (f_coords fr), fs, (f_forces fr).
    do 3 (split; [done|]).
    destruct (length (System.atom_types s)) as [|n] eqn:En; [split; lia|].
    destruct (Hall n) as [row Hrow].
    { apply elem_of_seq. lia. }
    unfold atom_row in Hrow.
    destruct (f_atom_types fr !! n); simpl in Hrow; [|done].
    destruct (f_coords fr !! n) eqn:E1; simpl in Hrow; [|done].
    destruct (f_forces fr !! n) eqn:E2; simpl in Hrow; [|done].
    apply lookup_lt_Some in E1, E2. lia.
  - intros (co' & fs' & f' & [= <-] & [= <-] & Hf' & Hlc & Hlf) n Hn.
    rewrite Hf in Hf'. injection Hf' as <-.
    apply elem_of_seq in Hn. unfold atom_row. simpl.
    destruct (lookup_lt_is_Some_2 (f_atom_types fr) n) as [t ->];
      [rewrite Hty; lia|].
    destruct (lookup_lt_is_Some_2 (f_coords fr) n) as [c ->]; [lia|].
    destruct (lookup_lt_is_Some_2 (f_forces fr) n) as [f ->]; [lia|].
    by eexists.
Qed.

End DumpReturns.

Section DumpEnds.
Context `{Float64}.

Lemma records_plain frs body :
  Forall frame_wf frs →
  Forall2 frame_rows frs body →
  Forall (λ toks, toks ≠ [] ∧ Forall plain toks) (concat body).
Proof.
  intros Hwf Hbody. apply Forall_concat.
  induction Hbody as [|fr rows frs' body' Hrows _ IH]; [constructor|].
  apply Forall_cons in Hwf as [Hw Hwf].
  constructor; [|by apply IH]. by eapply frame_rows_plain.
Qed.

(** The frames of a merged collection with what the proofs about [dump]
    need of each. *)
Lemma merged_frames folder listing d :
  read_multi_deepmd folder listing = Ok d →
  exact_counts listing →
  ∃ dm frs,
    scan folder listing = Ok dm ∧
    Merged.nframe d = Z.of_nat (length (origins dm)) ∧
    length frs = length (origins dm) ∧
    Forall2 (λ k fr, frame_at d k = Some fr ∧ frame_wf fr)
            (seq 0 (Z.to_nat (Merged.nframe d))) frs ∧
    Forall2 (λ sj fr,
               frame_of sj.1 sj.2 = Some fr ∧ system_wf sj.1 ∧
               header_row fr = Some (pair_row (pair_of sj.1)) ∧
               to_int (f_atom_numbs fr)
               = Some (Z.of_nat (length (System.atom_types sj.1))) ∧
               (is_Some (atom_rows fr) ↔ rows_cover sj.1 sj.2))
            (origins dm) frs.
Proof.
  unfold read_multi_deepmd. intros Hrun Hb. inv_ok. rename x into dm.
  pose proof (scan_wf _ _ _ Hx) as Hwf.
  pose proof (scan_exact_counts _ _ _ Hb Hx) as Hcounts.
  destruct (merge_frames _ _ Hrun) as (_ & _ & Hn & _).
  destruct (merge_frame_list _ _ Hwf Hrun) as (frs & Hof & Hat).
  exists dm, frs. split; [done|]. split; [done|].
  split; [symmetry; by eapply Forall2_length|]. split; [done|].
  pose proof (origins_Forall _ _ Hwf) as Hwf'.
  pose proof (origins_Forall
                (λ s, Z.of_nat (length (System.atom_types s)) ≤ 2 ^ 53)
                _ Hcounts) as Hc'.
  clear -Hof Hwf' Hc'.
  induction Hof as [|sj fr sjs frs' Hfr _ IH]; [constructor|].
  apply Forall_cons in Hwf' as [Hw Hwf'].
  apply Forall_cons in Hc' as [Hc Hc'].
  constructor; [|by apply IH].
  destruct (frame_of_atom_rows _ _ _ Hw Hc Hfr) as [Hint Hcov].
  split; [done|]. split; [done|].
  split; [by eapply frame_of_header_row|]. by split.
Qed.

(** How [dump] ends on a merged collection. *)
Lemma dump_ends folder listing d text r :
  read_multi_deepmd folder listing = Ok d →
  exact_counts listing →
  dump d = (text, r) →
  ∃ dm header body,
    scan folder listing = Ok dm ∧
    read_table text = header ++ concat body ∧
    length header = S (length (origins dm)) ∧
    Forall2 (λ sj rows,
               rows_cover sj.1 sj.2 ∧
               length rows = (2 + length (System.atom_types sj.1))%nat)
            (take (length body) (origins dm)) body ∧
    (r = Ok () ∧ length body = length (origins dm)
     ∨ r = Err IndexError ∧
       ∃ s j, origins dm !! length body = Some (s, j) ∧ ¬ rows_cover s j) ∧
    (r = Ok () ↔ Forall (λ sj, rows_cover sj.1 sj.2) (origins dm)).
Proof.
  intros Hrun Hb Hdump.
  destruct (merged_frames _ _ _ Hrun Hb)
    as (dm & frs & Hscan & Hn & Hlen & Hat & Hof).
  set (hrows := (λ sj, pair_row (pair_of sj.1)) <$> origins dm).
  assert (Hrows : Forall2 (λ fr row, header_row fr = Some row) frs hrows).
  { apply Forall2_fmap_r, Forall2_flip.
    eapply Forall2_impl; [exact Hof|]. by intros sj fr (_ & _ & ? & _). }
  assert (Hat' : Forall2 (λ k fr, frame_at d k = Some fr ∧ frame_wf fr
                                  ∧ is_Some (to_int (f_atom_numbs fr)))
                   (seq 0 (Z.to_nat (Merged.nframe d))) frs).
  { apply Forall2_same_length_lookup. split; [by eapply Forall2_length|].
    intros i k fr Hk Hfr.
    destruct (Forall2_lookup_lr _ _ _ _ _ _ Hat Hk Hfr) as [? ?].
    destruct (Forall2_lookup_r _ _ _ _ _ Hof Hfr)
      as (sj & _ & _ & _ & _ & Hint & _).
    split; [done|]. split; [done|]. by eexists. }
  unfold dump in Hdump.
  rewrite (header_ok d frs hrows) in Hdump;
    [|by eapply Forall2_impl; [exact Hat|]; intros ?? [? _]|done].
  rewrite range_Z in Hdump.
  destruct (write_records_end _ _ _ _ _ _ Hat' Hdump)
    as (body & Hbody & -> & Hend).
  assert (Hm : (length body ≤ length frs)%nat).
  { destruct Hend as [[_ ->]|(_ & fr & Hfr & _)]; [done|].
    apply lookup_lt_Some in Hfr. lia. }
  assert (Hwritten :
    Forall2 (λ sj rows,
               rows_cover sj.1 sj.2 ∧
               length rows = (2 + length (System.atom_types sj.1))%nat)
            (take (length body) (origins dm)) body).
  { apply Forall2_same_length_lookup. split.
    { rewrite length_take. lia. }
    intros i sj rows Hsj Hrow.
    apply lookup_take_Some in Hsj as [Hsj Hi].
    destruct (Forall2_lookup_l _ _ _ _ _ Hof Hsj)
      as (fr & Hfr & _ & _ & _ & Hint & Hcov).
    assert (Hfr' : take (length body) frs !! i = Some fr)
      by (by rewrite lookup_take_lt).
    pose proof (Forall2_lookup_lr _ _ _ _ _ _ Hbody Hfr' Hrow)
      as (a & atoms & Ha & Hatoms & ->).
    rewrite Hint in Ha. injection Ha as <-. rewrite Nat2Z.id in Hatoms.
    split.
    - apply Hcov. unfold atom_rows. rewrite Hint. simpl. rewrite Nat2Z.id.
      exists atoms. by apply mapM_Some.
    - simpl. apply Forall2_length in Hatoms.
      rewrite length_seq in Hatoms. lia. }
  assert (Hend' :
    r = Ok () ∧ length body = length (origins dm)
    ∨ r = Err IndexError ∧
      ∃ s j, origins dm !! length body = Some (s, j) ∧ ¬ rows_cover s j).
  { destruct Hend as [[-> Hl]|(-> & fr & Hfr & Hnone)]; [left|right].
    - split; [done|]. lia.
    - split; [done|].
      destruct (Forall2_lookup_r _ _ _ _ _ Hof Hfr)
        as ([s j] & Hsj & _ & _ & _ & _ & Hcov).
      exists s, j. split; [done|]. intros Hc. apply Hcov in Hc as [? Hc].
      simpl in *. congruence. }
  exists dm, ([str_int (Merged.nframe d)] :: hrows), body.
  split; [done|]. split; [|split; [|split; [done|split; [done|]]]].
  - rewrite <- write_table_app. apply read_write_table.
    change (([str_int (Merged.nframe d)] :: hrows) ++ concat body)
      with ([str_int (Merged.nframe d)] :: hrows ++ concat body).
    constructor; [|apply Forall_app; split].
    + split; [done|]. repeat constructor. apply plain_str_int.
    + apply Forall_fmap, Forall_forall. intros sj _. simpl. split; [done|].
      repeat constructor; apply plain_str_int.
    + apply (records_plain (take (length body) frs)); [|done].
      apply Forall_take. clear -Hat.
      induction Hat as [|k fr ks frs' [_ Hw] _ IH]; by constructor.
  - simpl. unfold hrows. by rewrite length_fmap.
  - split.
    + intros ->. destruct Hend' as [[_ Hl]|[? _]]; [|done].
      rewrite Hl, firstn_all in Hwritten. clear -Hwritten.
      induction Hwritten as [|?? ?? [? _] _ IH]; by constructor.
    + intros Hall. destruct Hend' as [[-> _]|(_ & s & j & Hsj & Hno)]; [done|].
      exfalso. apply Hno.
      apply (proj1 (Forall_lookup _ _) Hall _ _ Hsj).
Qed.

End DumpEnds.

(** X7. On the merged collection of any tree [dump] either returns or
    raises [IndexError], and it returns exactly when every frame has a
    coordinate row and a force row for each atom of its system's
    [type.raw].  When it raises, the text holds the whole header block
    and the complete records of the frames before the first frame that
    lacks a row, and nothing of that frame.  Atom counts are taken to be
    at most 2^53. *)
Theorem dump_returns_iff `{Float64} folder listing d text r :
  read_multi_deepmd folder listing = Ok d →
  exact_counts listing →
  dump d = (text, r) →
  ∃ dm header body,
    scan folder listing = Ok dm ∧
    read_table text = header ++ concat body ∧
    length header = S (length (origins dm)) ∧
    Forall2 (λ sj rows,
               rows_cover sj.1 sj.2 ∧
               length rows = (2 + length (System.atom_types sj.1))%nat)
            (take (length body) (origins dm)) body ∧
    (r = Ok () ∧ length body = length (origins dm)
     ∨ r = Err IndexError ∧
       ∃ s j, origins dm !! length body = Some (s, j) ∧ ¬ rows_cover s j) ∧
    (r = Ok () ↔ Forall (λ sj, rows_cover sj.1 sj.2) (origins dm)).
Proof. apply dump_ends. Qed.

Lemma read_short_rows :
  read_multi_deepmd "./deepmd" short_rows = Ok short_rows_merged.
Proof. vm_cast_no_check (eq_refl (Ok short_rows_merged)). Qed.

Lemma dump_short_rows :
  dump short_rows_merged = (short_rows_text, Err IndexError).
Proof. vm_cast_no_check (eq_refl (short_rows_text, @Err () IndexError)). Qed.

Lemma exact_counts_short_rows : exact_counts short_rows.
Proof. repeat constructor; by vm_compute. Qed.

Lemma dump_returns_iff_witness :
  short_rows_text = ("1" +:+ newline +:+ "2 0" +:+ newline)%string ∧
  ∃ dm k s j, scan "./deepmd" short_rows = Ok dm ∧
                origins dm !! k = Some (s, j) ∧ ¬ rows_cover s j.
Proof.
  split; [reflexivity|].
  destruct (dump_returns_iff "./deepmd" short_rows short_rows_merged
              short_rows_text (Err IndexError)
              read_short_rows exact_counts_short_rows dump_short_rows)
    as (dm & header & body & Hscan & _ & _ & _ & Hend & _).
  destruct Hend as [[Hok _]|(_ & s & j & Hsj & Hno)]; [discriminate Hok|].
  by exists dm, (length body), s, j.
Defined.

(** ** The shape and the content of the merged collection *)

Section Shape.
Context `{Float64}.

Lemma merge_frame_keys s j st st' :
  keys_upto st → merge_frame s j st = Ok st' → keys_upto st'.
Proof.
  intros [Hlow Hkeys] Hrun. destruct st as [ifr data].
  unfold merge_frame in Hrun. inv_ok. simpl in *.
  split; simpl; [lia|].
  intros k Hk.
  destruct (decide (k = ifr + 1)) as [->|Hne]; [lia|].
  rewrite !lookup_insert_ne in Hk by done.
  specialize (Hkeys k Hk). lia.
Qed.

Lemma merge_system_keys e st st' :
  keys_upto st → merge_system e st = Ok st' → keys_upto st'.
Proof.
  intros Hst Hrun. unfold merge_system in Hrun.
  refine (for_each_inv _ (λ _ st, keys_upto st) _ _ _ Hst _ Hrun).
  intros pre x s1 s2 Hs1 Hstep. by eapply merge_frame_keys.
Qed.

Lemma merge_keys dm d :
  merge dm = Ok d →
  ∀ k, (is_Some (Merged.atom_types d !! k)
        ∨ is_Some (Merged.coords d !! k)
        ∨ is_Some (Merged.forces d !! k)) → 0 ≤ k < Merged.nframe d.
Proof.
  intros Hrun. pose proof (merge_frames _ _ Hrun) as (_ & _ & Hn & _).
  unfold merge in Hrun. inv_ok. destruct x0 as [ifr data]. simpl in *.
  pose proof (merge_loop_inv _ _ _ Hx0) as [Hifr Hnf _ _ _ _ _ _ _ _ _ _].
  assert (Hkeys : keys_upto (ifr, data)).
  { refine (for_each_inv _ (λ _ st, keys_upto st) _ _ _ _ _ Hx0).
    - split; [simpl; lia|]. intros k. simpl. rewrite !lookup_empty.
      intros [[? ?]|[[? ?]|[? ?]]]; done.
    - intros pre e s1 s2 Hs1 Hstep. by eapply merge_system_keys. }
  destruct Hkeys as [_ Hkeys]. intros k Hk. specialize (Hkeys k Hk).
  simpl in *. lia.
Qed.

Lemma reshape_9_concat (c : matrix) c9 : Np.reshape_9 c = Ok c9 → c9 = concat c.
Proof. unfold Np.reshape_9. case_decide; [|done]. by intros [= <-]. Qed.

End Shape.

(** X8. The collection [read_multi_deepmd] returns has at least one
    frame; its seven arrays have one entry per frame, every virial row
    has 6 entries and every cell row 9; and the keys of its three dicts
    [atom_types], [coords] and [forces] are exactly the frame indices
    from 0 to [nframe - 1]. *)
Theorem merged_shape `{Float64} folder listing d :
  read_multi_deepmd folder listing = Ok d →
  let n := Z.to_nat (Merged.nframe d) in
  1 ≤ Merged.nframe d ∧
  length (Merged.docname d) = n ∧
  length (Merged.atom_numbs d) = n ∧
  length (Merged.has_virial d) = n ∧
  length (Merged.energies d) = n ∧
  length (Merged.virials d) = n ∧
  length (Merged.cells d) = n ∧
  length (Merged.volume d) = n ∧
  Forall (λ v, length v = 6%nat) (Merged.virials d) ∧
  Forall (λ c, length c = 9%nat) (Merged.cells d) ∧
  (∀ k, is_Some (Merged.atom_types d !! k) ↔ 0 ≤ k < Merged.nframe d) ∧
  (∀ k, is_Some (Merged.coords d !! k) ↔ 0 ≤ k < Merged.nframe d) ∧
  (∀ k, is_Some (Merged.forces d !! k) ↔ 0 ≤ k < Merged.nframe d).
Proof.
  intros Hrun n. unfold read_multi_deepmd in Hrun. inv_ok. rename x into dm.
  pose proof (scan_wf _ _ _ Hx) as Hwf.
  destruct (merge_frames _ _ Hrun) as (Hne & Htot & Hn & _).
  destruct (merge_frame_list _ _ Hwf Hrun) as (frs & _ & Hat).
  pose proof (merge_keys _ _ Hrun) as Hkeys.
  assert (Hlens : length (Merged.docname d) = n ∧
                  length (Merged.atom_numbs d) = n ∧
                  length (Merged.has_virial d) = n ∧
                  length (Merged.energies d) = n ∧
                  length (Merged.virials d) = n ∧
                  length (Merged.cells d) = n ∧
                  length (Merged.volume d) = n).
  { unfold merge in Hrun. inv_ok. destruct x0 as [ifr data].
    pose proof (merge_loop_inv _ _ _ Hx1) as Hinv.
    destruct Hinv as [_ Hnf ? ? ? ? ? ? ? _ _ _]. simpl in *.
    subst n. rewrite Hnf. done. }
  destruct Hlens as (Hl1 & Hl2 & Hl3 & Hl4 & Hl5 & Hl6 & Hl7).
  assert (Hframe : ∀ k, (k < n)%nat →
            ∃ fr, frame_at d k = Some fr ∧ frame_wf fr).
  { intros k Hk.
    destruct (Forall2_lookup_l _ _ _ _ _ Hat (lookup_seq_lt 0 n k Hk))
      as (fr & _ & Hfr). by exists fr. }
  assert (Hpos : 1 ≤ Merged.nframe d).
  { rewrite Htot. destruct dm as [|[i s] dm]; [done|].
    apply Forall_cons in Hwf as [[Hf _ _ _ _ _ _ _ _] _].
    change (total_frames ((i, s) :: dm))
      with (Z.of_nat (System.frames s) + total_frames dm).
    pose proof (origins_length dm). simpl in *. lia. }
  assert (Hdict : ∀ k, 0 ≤ k < Merged.nframe d →
            is_Some (Merged.atom_types d !! k) ∧
            is_Some (Merged.coords d !! k) ∧
            is_Some (Merged.forces d !! k)).
  { intros k Hk. destruct (Hframe (Z.to_nat k)) as (fr & Hfr & _);
      [unfold n; lia|].
    apply frame_at_Some in Hfr as (_ & _ & _ & _ & _ & _ & _ & Ht & Hc & Hf).
    rewrite Z2Nat.id in Ht, Hc, Hf by lia. rewrite Ht, Hc, Hf. eauto. }
  repeat split; try done.
  - apply Forall_lookup. intros k v Hv.
    destruct (Hframe k) as (fr & Hfr & [Hv6 _ _ _]).
    { apply lookup_lt_Some in Hv. lia. }
    apply frame_at_Some in Hfr as (_ & _ & _ & _ & Hv' & _). congruence.
  - apply Forall_lookup. intros k c Hc.
    destruct (Hframe k) as (fr & Hfr & [_ Hc9 _ _]).
    { apply lookup_lt_Some in Hc. lia. }
    apply frame_at_Some in Hfr as (_ & _ & _ & _ & _ & Hc' & _). congruence.
  - apply Hkeys. by left.
  - apply Hkeys. by left.
  - by apply Hdict.
  - apply Hkeys. right. by left.
  - apply Hkeys. right. by left.
  - by apply Hdict.
  - apply Hkeys. right. by right.
  - apply Hkeys. right. by right.
  - by apply Hdict.
Qed.

Lemma merged_shape_witness :
  length (Merged.cells Evaluated.merged) = 3%nat ∧
  (∀ k, is_Some (Merged.coords Evaluated.merged !! k) ↔ 0 ≤ k < 3).
Proof.
  destruct (merged_shape "./deepmd" Sample.two_systems Evaluated.merged
              Evaluated.read_two_systems)
    as (_ & _ & _ & _ & _ & _ & Hcells & _ & _ & _ & _ & Hcoords & _).
  split; [exact Hcells|exact Hcoords].
Defined.

(** X9. Frame [k] of the merged collection holds the data of frame [j] of
    its system, where the frames are numbered system by system in the
    order of [data_multi] and inside a system by their index below
    [frames]: the system's [docname] and [atom_types] (the same list for
    every frame of the system), its atom count as a float, entry [j] of
    its energies, the 3x3 cell [j] flattened row by row, and entries [j]
    of its coordinates and forces. *)
Theorem merged_frame_content `{Float64} folder listing d :
  read_multi_deepmd folder listing = Ok d →
  ∃ dm,
    scan folder listing = Ok dm ∧
    Merged.nframe d = Z.of_nat (length (origins dm)) ∧
    ∀ k s j, origins dm !! k = Some (s, j) →
      (j < System.frames s)%nat ∧
      Merged.docname d !! k = Some (System.docname s) ∧
      Merged.atom_types d !! Z.of_nat k = Some (System.atom_types s) ∧
      Merged.atom_numbs d !! k
      = Some (of_int (Z.of_nat (length (System.atom_types s)))) ∧
      (∃ es, System.energies s = Some es ∧
             Merged.energies d !! k = es !! j ∧ is_Some (es !! j)) ∧
      (∃ c, System.cells s !! j = Some c ∧
            Merged.cells d !! k = Some (concat c)) ∧
      (∃ co, System.coords s !! j = Some co ∧
             Merged.coords d !! Z.of_nat k = Some co) ∧
      (∃ fs f, System.forces s = Some fs ∧ fs !! j = Some f ∧
               Merged.forces d !! Z.of_nat k = Some f).
Proof.
  intros Hrun. unfold read_multi_deepmd in Hrun. inv_ok. rename x into dm.
  destruct (merge_frames _ _ Hrun) as (_ & _ & Hn & Hfr).
  exists dm. split; [done|]. split; [done|].
  intros k s j Hk. destruct (Hfr _ _ _ Hk) as (fr & Hof & Hat).
  apply frame_at_Some in Hat
    as (Hd & Ha & _ & He & _ & Hc & _ & Ht & Hco & Hf).
  apply frame_of_Some in Hof
    as (flags & flag & es & c & co & fs & _ & _ & Hes & Hej & _ & Hcj & Hc9
        & _ & Hcoj & Hfco & Hfs & Hfj & Hdoc & Han & _ & Hty).
  apply reshape_9_concat in Hc9.
  split.
  { unfold origins in Hk. apply list_elem_of_lookup_2 in Hk.
    apply list_elem_of_bind in Hk as (x & Hin & _).
    apply list_elem_of_fmap in Hin as (j' & [= -> ->] & Hj').
    apply elem_of_seq in Hj'. lia. }
  rewrite Hd, Ht, Ha, Hdoc, Hty, Han. do 3 (split; [done|]).
  split; [|split; [|split]].
  - exists es. rewrite He, Hej. split; [done|]. split; [done|by eexists].
  - exists c. by rewrite Hc, Hc9.
  - exists co. by rewrite Hco, Hfco.
  - exists fs, (f_forces fr). by rewrite Hf.
Qed.

Lemma merged_frame_content_witness :
  ∃ dm, scan "./deepmd" Sample.two_systems = Ok dm ∧
        Merged.nframe Evaluated.merged = Z.of_nat (length (origins dm)).
Proof.
  destruct (merged_frame_content "./deepmd" Sample.two_systems
              Evaluated.merged Evaluated.read_two_systems)
    as (dm & Hscan & Hn & _).
  by exists dm.
Defined.

(** ** The systems of a listing *)

Section Listing.
Context `{Float64}.

Lemma to_system_data_fixed path folder s :
  to_system_data path folder = Ok s →
  System.nopbc s = (if nopbc_file folder then Some true else None) ∧
  System.orig s = replicate 3 (of_int 0) ∧
  System.has_virial s = None ∧
  ∃ t, load_type folder None = Ok t ∧
       System.atom_numbs s = Topology.atom_numbs t ∧
       System.atom_names s = Topology.atom_names t.
Proof.
  unfold to_system_data. intros Hrun. inv_ok. simpl.
  repeat split. by exists x.
Qed.

Lemma subdirs_lookup (listing : list (string * entry)) (i : Z) fi d :
  (i, (fi, d)) ∈ subdirs listing
  ↔ 0 ≤ i ∧ listing !! Z.to_nat i = Some (fi, Dir d).
Proof.
  unfold subdirs, dirs_of, enumerate. rewrite list_elem_of_omap. split.
  - intros ([k [fi' ent]] & Hin & Hsome). simpl in Hsome.
    destruct ent as [|d']; [done|]. injection Hsome as -> -> ->.
    apply list_elem_of_lookup in Hin as [n Hn].
    apply lookup_zip_with_Some in Hn as (k' & e & [= <- <-] & Hk & He).
    apply lookup_seqZ in Hk as [-> Hlt]. simpl.
    split; [lia|]. by replace (Z.to_nat (0 + Z.of_nat n)) with n by lia.
  - intros [Hi Hl]. exists (i, (fi, Dir d)). split; [|done].
    apply list_elem_of_lookup. exists (Z.to_nat i).
    apply lookup_zip_with_Some. exists i, (fi, Dir d).
    split; [done|]. split; [|done].
    apply lookup_seqZ. apply lookup_lt_Some in Hl. lia.
Qed.

Lemma merge_values (dm dm' : list (Z * System.t)) :
  dm.*2 = dm'.*2 → merge dm = merge dm'.
Proof.
  intros Heq. unfold merge.
  assert (Hsum : ∀ l : list (Z * System.t),
            ((λ e, Z.of_nat (System.frames e.2)) <$> l)
            = (λ s, Z.of_nat (System.frames s)) <$> l.*2).
  { intros l. by rewrite <- list_fmap_compose. }
  assert (Hloop : ∀ (l : list (Z * System.t)) st,
            for_each merge_system l st
            = for_each (λ s, for_each (merge_frame s)
                               (range (Z.of_nat (System.frames s))))
                       (l.*2) st).
  { intros l st. by rewrite for_each_fmap. }
  rewrite !Hsum, Heq.
  destruct (Np.index _) as [n|e]; [|done]. simpl.
  by rewrite !Hloop, Heq.
Qed.

Lemma scan_filter folder (l : list (string * entry)) :
  ∀ (ks ks' : list Z) (acc acc' : list (Z * System.t)),
    length ks = length l →
    length ks' = length (filter (λ e, is_dir e.2) l) →
    acc.*2 = acc'.*2 →
    same_systems
      (for_each (scan_step folder) (zip ks l) acc)
      (for_each (scan_step folder) (zip ks' (filter (λ e, is_dir e.2) l))
                acc').
Proof.
  induction l as [|[fi ent] l IH]; intros ks ks' acc acc' Hks Hks' Hacc.
  - rewrite filter_nil. destruct ks; [|done]. by destruct ks'.
  - destruct ks as [|k ks]; [done|]. injection Hks as Hks.
    destruct ent as [|d].
    + rewrite filter_cons_False in Hks' |- * by (simpl; auto).
      simpl. by apply IH.
    + rewrite filter_cons_True in Hks' |- * by done.
      destruct ks' as [|k' ks']; [done|]. injection Hks' as Hks'.
      cbn [zip zip_with for_each scan_step].
      destruct (to_system_data (path_join folder fi) d) as [s|e]; [|done].
      simpl. apply IH; try done. by rewrite !fmap_app, Hacc.
Qed.

End Listing.

(** X10. After the first loop of [read_multi_deepmd], [data_multi] has
    one entry for each subdirectory of the listing, in listing order: the
    key is the position of the subdirectory in the listing, [docname] is
    the folder joined with its name, [atom_types] is its [type.raw],
    [orig] is three zeros, [nopbc] is set to [True] exactly when the
    marker file is there, and [has_virial] has one flag per frame of the
    system's frame count. *)
Theorem data_multi_entries `{Float64} folder listing dm :
  scan folder listing = Ok dm →
  (∀ i fi d, (i, (fi, d)) ∈ subdirs listing
             ↔ 0 ≤ i ∧ listing !! Z.to_nat i = Some (fi, Dir d)) ∧
  Forall2 (λ e x,
             let '(i, (fi, d)) := e in
             x.1 = i ∧
             System.docname x.2 = path_join folder fi ∧
             type_raw d = Some (System.atom_types x.2) ∧
             System.orig x.2 = replicate 3 (of_int 0) ∧
             System.nopbc x.2 = (if nopbc_file d then Some true else None) ∧
             ∃ flags, System.has_virial x.2 = Some flags ∧
                      length flags = System.frames x.2)
          (subdirs listing) dm.
Proof.
  intros Hscan. split; [intros i fi d; apply subdirs_lookup|].
  eapply Forall2_impl; [exact (scan_systems _ _ _ Hscan)|].
  intros [i [fi d]] [i' s] (Hi & idata & Hload & Hs). simpl in *. subst.
  destruct (to_system_data_spec _ _ _ Hload) as (Hty & Hdoc & _).
  destruct (to_system_data_fixed _ _ _ Hload) as (Hpbc & Horig & _).
  repeat split; try done.
  exists (replicate (System.frames idata) (virial_complete idata)).
  split; [apply with_has_virial_flags|]. by rewrite length_replicate.
Qed.

Lemma data_multi_entries_witness :
  Forall2 (λ e x, x.1 = e.1) (subdirs Sample.two_systems)
          Evaluated.data_multi.
Proof.
  destruct (data_multi_entries "./deepmd" Sample.two_systems
              Evaluated.data_multi Evaluated.scan_two_systems) as [_ Hall].
  eapply Forall2_impl; [exact Hall|].
  intros [i [fi d]] x (Hi & _). exact Hi.
Defined.

(** X11. The entries of the parent directory that are not directories
    do not matter: the run on a listing and the run on its
    subdirectories alone return the same merged collection or raise the
    same exception, and write the same text. *)
Theorem plain_files_ignored `{Float64} instr folder listing :
  read_multi_deepmd folder listing
  = read_multi_deepmd folder (filter (λ e, is_dir e.2) listing) ∧
  main instr listing = main instr (filter (λ e, is_dir e.2) listing).
Proof.
  assert (Hread : ∀ folder,
            read_multi_deepmd folder listing
            = read_multi_deepmd folder (filter (λ e, is_dir e.2) listing)).
  { clear folder. intros folder. unfold read_multi_deepmd, scan, enumerate.
    pose proof (scan_filter folder listing
                  (seqZ 0 (Z.of_nat (length listing)))
                  (seqZ 0 (Z.of_nat
                     (length (filter (λ e, is_dir e.2) listing)))) [] [])
      as Hsame.
    rewrite !length_seqZ, !Nat2Z.id in Hsame.
    specialize (Hsame eq_refl eq_refl eq_refl).
    destruct (for_each _ _ _) as [dm|e], (for_each _ _ _) as [dm'|e'];
      simpl in *; try done; [|congruence].
    by apply merge_values. }
  split; [apply Hread|]. unfold main. by rewrite <- Hread.
Qed.

(** ** The report of [check_data] *)

Section Report.
Context `{Float64}.

Lemma check_frame_Ok d k sj fr out :
  frame_at d k = Some fr →
  frame_of sj.1 sj.2 = Some fr →
  to_int (f_atom_numbs fr)
  = Some (Z.of_nat (length (System.atom_types sj.1))) →
  check_frame d (Z.of_nat k) out = (out +:+ report_of k sj, Ok ()).
Proof.
  intros Hat Hof Hint.
  apply frame_at_Some in Hat
    as (Hd & Ha & _ & _ & _ & _ & _ & Ht & Hco & Hf).
  apply frame_of_Some in Hof
    as (flags & flag & es & c & co & fs & _ & _ & _ & _ & _ & _ & _
        & _ & Hcoj & Hfco & Hfs & Hfj & Hdoc & _ & _ & Hty).
  unfold check_frame, dict_get, int_of_float, report_of.
  rewrite !getitem_lookup, Hd, Ha, Ht, Hco, Hf. simpl. rewrite Hint.
  rewrite Hcoj, Hfs. simpl. rewrite Hfj. simpl.
  rewrite Hdoc, Hty, Hfco. by rewrite !append_assoc.
Qed.

Lemma check_frames_Ok d : ∀ (ks : list nat) sjs frs out,
  Forall2 (λ k fr, frame_at d k = Some fr) ks frs →
  Forall2 (λ sj fr, frame_of sj.1 sj.2 = Some fr ∧
                    to_int (f_atom_numbs fr)
                    = Some (Z.of_nat (length (System.atom_types sj.1))))
          sjs frs →
  check_frames d (Z.of_nat <$> ks) out
  = (out +:+ String.concat "" (zip_with report_of ks sjs), Ok ()).
Proof.
  intros ks sjs frs out Hat. revert sjs out.
  induction Hat as [|k fr ks frs Hk _ IH]; intros sjs out Hof.
  - inversion Hof. simpl. by rewrite append_nil_r.
  - inversion Hof as [|sj ? sjs' ? [Hfr Hint] Hof']; subst.
    cbn [fmap list_fmap check_frames zip_with].
    rewrite (check_frame_Ok _ _ _ _ _ Hk Hfr Hint).
    rewrite (IH _ _ Hof'). f_equal.
    rewrite append_assoc. f_equal.
    destruct (zip_with report_of ks sjs') eqn:E; simpl.
    + by rewrite append_nil_r.
    + done.
Qed.

End Report.

(** X12. On the merged collection of any tree [check_data] returns, and
    it prints the frame count and then, for each frame in order, its
    index and the path of its system, the atom count of the system twice
    (as [atom_numbs] and as the length of [atom_types], which therefore
    agree in every report), and the numbers of coordinate rows and of
    force rows of the frame.  Atom counts are taken to be at most
    2^53. *)
Theorem check_data_report `{Float64} folder listing d :
  read_multi_deepmd folder listing = Ok d →
  exact_counts listing →
  ∃ dm,
    scan folder listing = Ok dm ∧
    check_data d
    = ("Nframes: " +:+ str_int (Merged.nframe d) +:+ newline
       +:+ String.concat ""
             (zip_with report_of (seq 0 (length (origins dm))) (origins dm)),
       Ok ()).
Proof.
  intros Hrun Hb.
  destruct (merged_frames _ _ _ Hrun Hb)
    as (dm & frs & Hscan & Hn & Hlen & Hat & Hof).
  exists dm. split; [done|]. unfold check_data.
  rewrite range_Z, Hn, Nat2Z.id.
  rewrite (check_frames_Ok d _ (origins dm) frs).
  - by rewrite !append_assoc.
  - rewrite Hn, Nat2Z.id in Hat.
    eapply Forall2_impl; [exact Hat|]. by intros ?? [? _].
  - eapply Forall2_impl; [exact Hof|]. by intros ?? (? & _ & _ & ? & _).
Qed.

Lemma check_data_report_witness :
  ∃ text, check_data Evaluated.merged = (text, Ok ()).
Proof.
  destruct (check_data_report "./deepmd" Sample.two_systems Evaluated.merged
              Evaluated.read_two_systems exact_counts_two_systems)
    as (dm & _ & Hreport).
  eexists. exact Hreport.
Defined.

(** ** The arrays of a system *)

Section SystemArrays.
Context `{Float64}.

Lemma has_data_true (a : option vector) :
  has_data a = true ↔ ∃ v, a = Some v ∧ (0 < length v)%nat.
Proof.
  unfold has_data. destruct a as [v|].
  - rewrite bool_decide_eq_true. split.
    + intros Hv. by exists v.
    + by intros (v' & [= <-] & Hv).
  - split; [done|]. by intros (v & ? & _).
Qed.

Lemma subsets_with_snoc file done sd :
  subsets_with file (done ++ [sd])
  = subsets_with file done ++ (if has_data (file sd) then [sd] else []).
Proof.
  unfold subsets_with. rewrite filter_app. f_equal.
  destruct (has_data (file sd)) eqn:E.
  - rewrite filter_cons_True; [done|]. by apply Is_true_true.
  - rewrite filter_cons_False; [done|]. by apply Is_true_false.
Qed.

Lemma append_if_data_Forall2 {A} (P : set_dir → A → Prop) sd a
    (reshape : vector → result A) (done : list set_dir) acc acc' :
  append_if_data a reshape acc = Ok acc' →
  (∀ v r, a = Some v → reshape v = Ok r → P sd r) →
  Forall2 P done acc →
  Forall2 P (done ++ (if has_data a then [sd] else [])) acc'.
Proof.
  unfold append_if_data, has_data. intros Hrun HP Hacc.
  destruct a as [v|]; [|injection Hrun as <-; by rewrite app_nil_r].
  destruct (decide (0 < length v)%nat) as [Hv|Hv].
  - rewrite bool_decide_eq_true_2 by done. inv_ok.
    apply Forall2_app; [done|]. constructor; [|constructor]. by eapply HP.
  - rewrite bool_decide_eq_false_2 by done. injection Hrun as <-.
    by rewrite app_nil_r.
Qed.

Lemma reshape_x3_rows (a : vector) (n : nat) (r : list matrix) :
  Np.reshape_x3 a n = Ok r →
  frames_rows n (length a `div` (n * 3))%nat r.
Proof.
  intros Hr. pose proof (reshape_x3_spec _ _ _ Hr) as (Hn & Hlen & _).
  split; [done|].
  unfold Np.reshape_x3 in Hr. case_decide as Hk; [done|]. injection Hr as <-.
  apply Forall_fmap, Forall_forall. intros chunk _. simpl.
  by rewrite length_reshape, length_replicate.
Qed.

Lemma sets_step_arrays done ii acc acc' :
  sets_arrays done acc → sets_step ii acc = Ok acc' →
  sets_arrays (done ++ [ii]) acc'.
Proof.
  intros [Hfr Hco He Hf Hv] Hrun. unfold sets_step, load_set in Hrun.
  destruct (box_npy ii) as [b|] eqn:Eb; [|done].
  destruct (coord_npy ii) as [c|] eqn:Ec; [|done].
  cbn [np_load mbind result_bind Py.bind] in Hrun.
  destruct (Np.count_33 b) as [n|] eqn:En; [|done].
  cbn [mbind result_bind Py.bind] in Hrun.
  destruct (Np.reshape_33 b n) as [cs|] eqn:Ecs; [|done].
  cbn [mbind result_bind Py.bind] in Hrun.
  destruct (Np.reshape_x3 c n) as [co|] eqn:Eco; [|done].
  cbn [mbind result_bind Py.bind] in Hrun.
  apply reshape_33_spec in Ecs as (Hlen & _ & _).
  pose proof (reshape_x3_spec _ _ _ Eco) as (Hn1 & _ & _).
  assert (Hsub : subset_frames ii = n).
  { unfold subset_frames. rewrite Eb, Hlen. by apply Nat.div_mul. }
  assert (Hen : ∃ es,
            append_if_data (energy_npy ii) (λ e, Np.reshape_1 e n)
                           (all_eners acc) = Ok es ∧
            ∃ fs, append_if_data (force_npy ii) (λ f, Np.reshape_x3 f n)
                                 (all_forces acc) = Ok fs ∧
            ∃ vs, append_if_data (virial_npy ii) (λ v, Np.reshape_33 v n)
                                 (all_virs acc) = Ok vs ∧
            acc' = {| nframes := Some n;
                      all_cells := all_cells acc ++ [cs];
                      all_coords := all_coords acc ++ [co];
                      all_eners := es; all_forces := fs; all_virs := vs |}).
  { unfold cond_load_data in Hrun.
    destruct (energy_npy ii) as [e|] eqn:Ee.
    - destruct (Np.reshape_1 e n) as [e'|] eqn:Er; [|done].
      cbn [mbind result_bind Py.bind] in Hrun.
      unfold Np.reshape_1 in Er. case_decide as Hle; [|done].
      injection Er as <-.
      destruct (append_if_data (Some e) _ _) as [es|]; [|done].
      cbn [mbind result_bind Py.bind] in Hrun.
      exists es. split; [done|].
      destruct (force_npy ii); destruct (virial_npy ii);
        destruct (append_if_data _ _ (all_forces acc)) as [fs|];
        try discriminate Hrun; cbn [mbind result_bind Py.bind] in Hrun;
        destruct (append_if_data _ _ (all_virs acc)) as [vs|];
        try discriminate Hrun; injection Hrun as <-; eauto.
    - cbn [mbind result_bind Py.bind append_if_data] in Hrun.
      exists (all_eners acc). split; [done|].
      destruct (force_npy ii); destruct (virial_npy ii);
        destruct (append_if_data _ _ (all_forces acc)) as [fs|];
        try discriminate Hrun; cbn [mbind result_bind Py.bind] in Hrun;
        destruct (append_if_data _ _ (all_virs acc)) as [vs|];
        try discriminate Hrun; injection Hrun as <-; eauto. }
  destruct Hen as (es & Hes & fs & Hfs & vs & Hvs & ->).
  split; simpl.
  - apply Forall_app. split; [done|]. repeat constructor. lia.
  - apply Forall2_app; [done|]. constructor; [|constructor].
    unfold coord_rows, rows_per_frame. rewrite Hsub, Ec.
    by apply reshape_x3_rows.
  - rewrite subsets_with_snoc.
    eapply (append_if_data_Forall2 _ ii _ _ _ _ _ Hes); [|done].
    intros v r _ Hr. unfold Np.reshape_1 in Hr. case_decide; [|done].
    injection Hr as <-. by rewrite Hsub.
  - rewrite subsets_with_snoc.
    eapply (append_if_data_Forall2 _ ii _ _ _ _ _ Hfs); [|done].
    intros v r Hv' Hr. unfold force_rows, rows_per_frame.
    rewrite Hsub, Hv'. by apply reshape_x3_rows.
  - rewrite subsets_with_snoc.
    eapply (append_if_data_Forall2 _ ii _ _ _ _ _ Hvs); [|done].
    intros v r _ Hr. apply reshape_33_spec in Hr as (_ & ? & _).
    by rewrite Hsub.
Qed.

Lemma sets_loop_arrays (sds : list set_dir) acc :
  for_each sets_step sds sets_acc0 = Ok acc → sets_arrays sds acc.
Proof.
  intros Hrun. refine (for_each_inv _ sets_arrays _ _ _ _ _ Hrun).
  - by split; constructor.
  - intros pre ii s1 s2. apply sets_step_arrays.
Qed.

Lemma concat_lengths {A B} (f : A → nat) (xs : list A) (arrs : list (list B)) :
  Forall2 (λ x arr, length arr = f x) xs arrs →
  length (concat arrs) = sum_list_with f xs.
Proof.
  induction 1 as [|x arr xs arrs Hx _ IH]; [done|].
  simpl. rewrite length_app. lia.
Qed.

End SystemArrays.

Section SystemArraysResult.
Context `{Float64}.

Lemma axis1_frames_rows (n m : nat) (arr : list matrix) :
  (1 ≤ n)%nat → frames_rows n m arr → Np.axis1 arr = m.
Proof.
  intros Hn [Hlen Hrows]. destruct arr as [|fr arr]; simpl in *; [lia|].
  by apply Forall_cons in Hrows as [? _].
Qed.

Lemma concatenate_x3_uniform (rows : set_dir → nat) sds arrs r :
  Forall (λ sd, 1 ≤ subset_frames sd)%nat sds →
  Forall2 (λ sd arr, frames_rows (subset_frames sd) (rows sd) arr) sds arrs →
  Np.concatenate_x3 arrs = Ok r →
  r = concat arrs ∧
  ∃ m, Forall (λ sd, rows sd = m) sds ∧ Forall (λ fr, length fr = m) r.
Proof.
  intros Hfr Harrs Hr. unfold Np.concatenate_x3 in Hr.
  destruct Harrs as [|sd a sds rest Ha Hrest]; [done|].
  case_decide as Hax; [|done]. injection Hr as <-. split; [done|].
  apply Forall_cons in Hfr as [Hsd Hfr].
  pose proof (axis1_frames_rows _ _ _ Hsd Ha) as Hm.
  exists (rows sd).
  assert (Hall : Forall (λ sd', rows sd' = rows sd) sds
                 ∧ Forall (Forall (λ fr, length fr = rows sd)) rest).
  { clear Ha. induction Hrest as [|sd' a' sds rest' Ha' _ IH];
      [split; constructor|].
    apply Forall_cons in Hfr as [Hsd' Hfr].
    apply Forall_cons in Hax as [Hax' Hax].
    destruct (IH Hfr Hax) as [IH1 IH2].
    pose proof (axis1_frames_rows _ _ _ Hsd' Ha') as Hm'.
    assert (rows sd' = rows sd) as Heq by congruence.
    split; constructor; try done.
    destruct Ha' as [_ Ha']. by rewrite <- Heq. }
  destruct Hall as [Hall1 Hall2]. split; [by constructor|].
  apply (Forall_concat _ (a :: rest)). constructor; [|done]. by destruct Ha.
Qed.

Lemma concat_if_any_Some {A} (conc : list A → result A) acc r :
  concat_if_any conc acc = Ok r →
  match r with
  | Some a => acc ≠ [] ∧ conc acc = Ok a
  | None => acc = []
  end.
Proof.
  unfold concat_if_any. destruct acc as [|a acc]; [by intros [= <-]|].
  intros Hrun. inv_ok. done.
Qed.

Lemma concatenate_concat {A} (arrs : list (list A)) r :
  Np.concatenate arrs = Ok r → r = concat arrs.
Proof. unfold Np.concatenate. destruct arrs; [done|]. by intros [= <-]. Qed.

Lemma Forall2_nil_iff {A B} (P : A → B → Prop) l k :
  Forall2 P l k → l = [] ↔ k = [].
Proof. by destruct 1. Qed.

(** The arrays [to_system_data] returns, by the subsets they come from. *)
Lemma to_system_data_arrays path folder s :
  to_system_data path folder = Ok s →
  let sds := sets folder in
  sds ≠ [] ∧
  Forall (λ sd, 1 ≤ subset_frames sd)%nat sds ∧
  length (System.cells s) = sum_list_with subset_frames sds ∧
  length (System.coords s) = sum_list_with subset_frames sds ∧
  match System.energies s with
  | Some es =>
      subsets_with energy_npy sds ≠ [] ∧
      length es = sum_list_with subset_frames (subsets_with energy_npy sds)
  | None => subsets_with energy_npy sds = []
  end ∧
  match System.forces s with
  | Some fs =>
      subsets_with force_npy sds ≠ [] ∧
      length fs = sum_list_with subset_frames (subsets_with force_npy sds) ∧
      ∃ m, Forall (λ sd, force_rows sd = m) (subsets_with force_npy sds) ∧
           Forall (λ fr, length fr = m) fs
  | None => subsets_with force_npy sds = []
  end ∧
  match System.virials s with
  | Some vs =>
      subsets_with virial_npy sds ≠ [] ∧
      length vs = sum_list_with subset_frames (subsets_with virial_npy sds)
  | None => subsets_with virial_npy sds = []
  end ∧
  ∃ m, Forall (λ sd, coord_rows sd = m) sds ∧
       Forall (λ fr, length fr = m) (System.coords s).
Proof.
  intros Hrun sds.
  destruct (to_system_data_spec _ _ _ Hrun)
    as (_ & _ & _ & Hlast & Hcells & Hcoords & _).
  unfold to_system_data in Hrun.
  destruct (load_type folder None) as [t|]; [|done].
  cbn [mbind result_bind Py.bind] in Hrun.
  destruct (for_each sets_step (sets folder) sets_acc0) as [acc|] eqn:Hloop;
    [|done].
  cbn [mbind result_bind Py.bind] in Hrun.
  pose proof (sets_loop_arrays _ _ Hloop) as [Hfr Hco He Hf Hv].
  inv_ok. cbn [System.cells System.coords System.energies System.forces
               System.virials] in *.
  fold sds in Hfr, Hco, He, Hf, Hv, Hlast.
  assert (Hfw : ∀ file, Forall (λ sd, 1 ≤ subset_frames sd)%nat
                          (subsets_with file sds)).
  { intros file. apply Forall_forall. intros sd Hsd.
    apply list_elem_of_filter in Hsd as [_ Hsd].
    by apply (proj1 (Forall_forall _ _) Hfr). }
  split; [by destruct sds|]. split; [done|]. split; [done|].
  split; [by rewrite Hcoords|].
  apply concat_if_any_Some in Hx2, Hx3, Hx4.
  split; [|split; [|split]].
  - destruct x2 as [es|].
    + destruct Hx2 as [Hne Hes]. apply concatenate_concat in Hes as ->.
      split; [by rewrite (Forall2_nil_iff _ _ _ He)|].
      by apply concat_lengths.
    + by rewrite (Forall2_nil_iff _ _ _ He).
  - destruct x3 as [fs|].
    + destruct Hx3 as [Hne Hfs].
      destruct (concatenate_x3_uniform force_rows _ _ _ (Hfw force_npy)
                  Hf Hfs) as (-> & m & Hm1 & Hm2).
      split; [by rewrite (Forall2_nil_iff _ _ _ Hf)|]. split.
      * apply concat_lengths. eapply Forall2_impl; [exact Hf|].
        by intros sd arr [? _].
      * by exists m.
    + by rewrite (Forall2_nil_iff _ _ _ Hf).
  - destruct x4 as [vs|].
    + destruct Hx4 as [Hne Hvs]. apply concatenate_concat in Hvs as ->.
      split; [by rewrite (Forall2_nil_iff _ _ _ Hv)|].
      by apply concat_lengths.
    + by rewrite (Forall2_nil_iff _ _ _ Hv).
  - destruct (concatenate_x3_uniform coord_rows _ _ _ Hfr Hco Hx1)
      as (_ & m & Hm1 & Hm2).
    by exists m.
Qed.

End SystemArraysResult.

(** X13. When [to_system_data] returns, the system has at least one
    subset and every subset at least one frame; the cells and the
    coordinates have one entry for every frame of every subset; the
    energies, the forces and the virials are there exactly when some
    subset has a file of that kind that is not empty, with one entry for
    every frame of those subsets and nothing for the others; and all
    frames have the same number of coordinate rows, and of force rows,
    so subsets that disagree on it cannot be loaded together. *)
Theorem system_arrays `{Float64} path folder s :
  to_system_data path folder = Ok s →
  let sds := sets folder in
  sds ≠ [] ∧
  Forall (λ sd, 1 ≤ subset_frames sd)%nat sds ∧
  length (System.cells s) = sum_list_with subset_frames sds ∧
  length (System.coords s) = sum_list_with subset_frames sds ∧
  match System.energies s with
  | Some es =>
      subsets_with energy_npy sds ≠ [] ∧
      length es = sum_list_with subset_frames (subsets_with energy_npy sds)
  | None => subsets_with energy_npy sds = []
  end ∧
  match System.forces s with
  | Some fs =>
      subsets_with force_npy sds ≠ [] ∧
      length fs = sum_list_with subset_frames (subsets_with force_npy sds) ∧
      ∃ m, Forall (λ sd, force_rows sd = m) (subsets_with force_npy sds) ∧
           Forall (λ fr, length fr = m) fs
  | None => subsets_with force_npy sds = []
  end ∧
  match System.virials s with
  | Some vs =>
      subsets_with virial_npy sds ≠ [] ∧
      length vs = sum_list_with subset_frames (subsets_with virial_npy sds)
  | None => subsets_with virial_npy sds = []
  end ∧
  ∃ m, Forall (λ sd, coord_rows sd = m) sds ∧
       Forall (λ fr, length fr = m) (System.coords s).
Proof. apply to_system_data_arrays. Qed.

Lemma system_arrays_witness :
  Forall2 (λ e x,
             ∃ s, to_system_data (path_join "./deepmd" e.2.1) e.2.2 = Ok s ∧
                  x.2 = with_has_virial s ∧
                  length (System.cells s)
                  = sum_list_with subset_frames (sets e.2.2))
          (subdirs Sample.two_systems) Evaluated.data_multi.
Proof.
  eapply Forall2_impl;
    [exact (scan_systems _ _ _ Evaluated.scan_two_systems)|].
  intros e x (_ & s & Hload & Hx). exists s. split; [exact Hload|].
  split; [exact Hx|].
  by destruct (system_arrays _ _ _ Hload) as (_ & _ & Hcells & _).
Defined.

Section Flags.
Context `{Float64}.

Lemma sum_frames_pos (sds : list set_dir) :
  Forall (λ sd, 1 ≤ subset_frames sd)%nat sds →
  (length sds ≤ sum_list_with subset_frames sds)%nat.
Proof.
  induction 1 as [|sd sds Hsd _ IH]; simpl; lia.
Qed.

Lemma sum_frames_last (sds : list set_dir) sd :
  last sds = Some sd →
  (2 ≤ length sds)%nat →
  Forall (λ sd, 1 ≤ subset_frames sd)%nat sds →
  (subset_frames sd < sum_list_with subset_frames sds)%nat.
Proof.
  intros Hlast Hlen Hfr.
  apply last_Some in Hlast as [pre ->].
  rewrite sum_list_with_app. simpl.
  apply Forall_app in Hfr as [Hpre _].
  pose proof (sum_frames_pos _ Hpre).
  rewrite length_app in Hlen. simpl in Hlen. lia.
Qed.

Lemma subsets_with_all file (sds : list set_dir) :
  Forall (λ sd, has_data (file sd)) sds → subsets_with file sds = sds.
Proof.
  unfold subsets_with. induction 1 as [|sd sds Hsd _ IH]; [done|].
  by rewrite filter_cons_True, IH.
Qed.

(** The virial flags of a loaded system, by its subsets. *)
Lemma system_flags path folder s :
  to_system_data path folder = Ok s →
  System.has_virial (with_has_virial s)
  = Some (replicate (last_subset_frames folder)
            (bool_decide
               (sum_list_with subset_frames
                  (subsets_with virial_npy (sets folder))
                = last_subset_frames folder))).
Proof.
  intros Hload.
  destruct (to_system_data_spec _ _ _ Hload) as (_ & _ & Hf1 & Hlast & _).
  destruct (to_system_data_arrays _ _ _ Hload)
    as (_ & Hfr & _ & _ & _ & _ & Hvir & _).
  assert (Hl : last_subset_frames folder = System.frames s)
    by (unfold last_subset_frames; by rewrite Hlast).
  rewrite with_has_virial_flags, Hl. do 2 f_equal.
  unfold virial_complete.
  destruct (System.virials s) as [vs|].
  - destruct Hvir as [_ ->]. done.
  - rewrite Hvir. simpl. rewrite bool_decide_eq_false_2; [done|]. lia.
Qed.

End Flags.

(** X14. The virial flags of a system of [data_multi] are all true
    exactly when the subsets that have a [virial.npy] that is not empty
    hold together as many frames as the last subset, whose frame count
    is the system's.  So a system with one subset is flagged exactly
    when that subset has virial data, and a system with two or more
    subsets that all have virial data is never flagged: its virials are
    not merged. *)
Theorem virial_flags_by_subsets `{Float64} folder listing dm :
  scan folder listing = Ok dm →
  Forall2 (λ e x,
             let sds := sets e.2.2 in
             let n := last_subset_frames e.2.2 in
             System.has_virial x.2
             = Some (replicate n
                       (bool_decide
                          (sum_list_with subset_frames
                             (subsets_with virial_npy sds) = n))) ∧
             (∀ sd, sds = [sd] →
                    System.has_virial x.2
                    = Some (replicate (subset_frames sd)
                                      (has_data (virial_npy sd)))) ∧
             (Forall (λ sd, has_data (virial_npy sd)) sds →
              (2 ≤ length sds)%nat →
              System.has_virial x.2 = Some (replicate n false)))
          (subdirs listing) dm.
Proof.
  intros Hscan.
  eapply Forall2_impl; [exact (scan_systems _ _ _ Hscan)|].
  intros [i [fi d]] [i' x] (_ & s & Hload & Hx). cbn [fst snd] in *.
  subst x. pose proof (system_flags _ _ _ Hload) as Hflags.
  destruct (to_system_data_arrays _ _ _ Hload) as (_ & Hfr & _).
  destruct (to_system_data_spec _ _ _ Hload) as (_ & _ & _ & Hlast & _).
  split; [done|]. split.
  - intros sd Hsd. rewrite Hflags. unfold last_subset_frames.
    rewrite Hsd in *. simpl. do 2 f_equal.
    apply Forall_cons in Hfr as [Hsd1 _].
    unfold subsets_with. rewrite filter_cons, filter_nil.
    destruct (has_data (virial_npy sd)) eqn:E.
    + rewrite decide_True by exact I. simpl.
      apply bool_decide_eq_true_2. lia.
    + rewrite decide_False by (by intros []). simpl.
      apply bool_decide_eq_false_2. lia.
  - intros Hall Hlen. rewrite Hflags. do 2 f_equal.
    apply bool_decide_eq_false_2.
    rewrite (subsets_with_all _ _ Hall). unfold last_subset_frames.
    destruct (last (sets d)) as [sd|] eqn:El; [|done]. simpl.
    pose proof (sum_frames_last _ _ El Hlen Hfr). lia.
Qed.

Lemma virial_flags_by_subsets_witness :
  Forall2 (λ e x,
             ∃ b, System.has_virial x.2
                  = Some (replicate (last_subset_frames e.2.2) b))
          (subdirs Sample.two_systems) Evaluated.data_multi.
Proof.
  eapply Forall2_impl;
    [exact (virial_flags_by_subsets _ _ _ Evaluated.scan_two_systems)|].
  intros e x [Hflags _]. eexists. exact Hflags.
Defined.

(** ** Empty array files *)

(** X15. In the loop over the subsets of [to_system_data], a
    [force.npy] or a [virial.npy] without elements counts as a missing
    file, but an [energy.npy] without elements makes the subset raise
    [ValueError]: the energies are reshaped to the frame count (line
    113) before their size is looked at (line 114). *)
Theorem empty_array_files `{Float64} (b c : vector)
    (e f v : option vector) (acc : sets_acc) :
  let subset e f v :=
    {| box_npy := Some b; coord_npy := Some c; energy_npy := e;
       force_npy := f; virial_npy := v |} in
  sets_step (subset (Some []) f v) acc = Err ValueError ∧
  sets_step (subset e (Some []) v) acc = sets_step (subset e None v) acc ∧
  sets_step (subset e f (Some [])) acc = sets_step (subset e f None) acc.
Proof.
  intros subset. split; [|split].
  - unfold sets_step, load_set, subset. cbn [np_load box_npy coord_npy
      energy_npy cond_load_data mbind result_bind Py.bind].
    unfold Np.count_33. case_decide; [|reflexivity].
    cbn [mbind result_bind Py.bind].
    destruct (Np.reshape_33 b _) as [cs|] eqn:Ecs;
      [|unfold Np.reshape_33 in Ecs; case_decide;
        [done|by injection Ecs as <-]].
    cbn [mbind result_bind Py.bind].
    destruct (Np.reshape_x3 c _) as [co|] eqn:Eco;
      [|unfold Np.reshape_x3 in Eco; case_decide;
        [by injection Eco as <-|done]].
    cbn [mbind result_bind Py.bind].
    apply reshape_x3_spec in Eco as (Hn & _).
    destruct (Np.reshape_1 [] _) as [e'|] eqn:Ee.
    + unfold Np.reshape_1 in Ee. case_decide as Hlen; [|done].
      cbn [length] in Hlen. rewrite <- Hlen in Hn. lia.
    + unfold Np.reshape_1 in Ee. case_decide; [done|].
      by injection Ee as <-.
  - reflexivity.
  - reflexivity.
Qed.

(** ** Trees the script converts *)

Section Converts.
Context `{Float64}.

Lemma subset_wf_frames m sd :
  subset_wf m sd → (1 ≤ m)%nat →
  (1 ≤ subset_frames sd)%nat ∧
  coord_rows sd = m ∧ force_rows sd = m ∧
  has_data (energy_npy sd) = true ∧ has_data (force_npy sd) = true.
Proof.
  intros (n & b & c & e & f & Hn & Hb & Hlb & Hc & Hlc & He & Hle & Hf & Hlf
          & _) Hm.
  assert (Hsub : subset_frames sd = n).
  { unfold subset_frames. rewrite Hb, Hlb. by apply Nat.div_mul. }
  unfold coord_rows, force_rows, rows_per_frame, has_data.
  rewrite Hsub, Hc, Hf, He, Hlc, Hlf, Hle.
  rewrite Nat.div_mul by lia.
  repeat split; try done; try lia; apply bool_decide_eq_true_2; nia.
Qed.

Lemma append_if_data_Ok {A} a (reshape : vector → result A) acc :
  (∀ v, a = Some v → (0 < length v)%nat → is_Ok (reshape v)) →
  is_Ok (append_if_data a reshape acc).
Proof.
  intros Hr. unfold append_if_data. destruct a as [v|]; [|by eexists].
  case_decide as Hv; [|by eexists].
  destruct (Hr v eq_refl Hv) as [r ->]. by eexists.
Qed.

Lemma sets_step_wf m sd acc :
  subset_wf m sd → (1 ≤ m)%nat → is_Ok (sets_step sd acc).
Proof.
  intros (n & b & c & e & f & Hn & Hb & Hlb & Hc & Hlc & He & Hle & Hf & Hlf
          & Hv) Hm.
  unfold sets_step, load_set. rewrite Hb, Hc, He, Hf.
  cbn [np_load cond_load_data mbind result_bind Py.bind].
  assert (Hcount : Np.count_33 b = Ok n).
  { unfold Np.count_33. rewrite Hlb, Nat.Div0.mod_mul, Nat.div_mul by lia.
    by rewrite decide_True. }
  rewrite Hcount. cbn [mbind result_bind Py.bind].
  assert (H33 : ∀ v : vector, length v = (n * 9)%nat →
            is_Ok (Np.reshape_33 v n)).
  { intros v Hlv. unfold Np.reshape_33. rewrite decide_True by done.
    by eexists. }
  assert (Hx3 : ∀ v : vector, length v = (m * (n * 3))%nat →
            is_Ok (Np.reshape_x3 v n)).
  { intros v Hlv. unfold Np.reshape_x3.
    rewrite decide_False; [by eexists|].
    rewrite Hlv, Nat.Div0.mod_mul. lia. }
  destruct (H33 b Hlb) as [cs ->]. cbn [mbind result_bind Py.bind].
  destruct (Hx3 c Hlc) as [co ->]. cbn [mbind result_bind Py.bind].
  assert (H1 : Np.reshape_1 e n = Ok e).
  { unfold Np.reshape_1. by rewrite decide_True. }
  rewrite H1. cbn [mbind result_bind Py.bind].
  destruct (append_if_data_Ok (Some e) (λ e, Np.reshape_1 e n)
              (all_eners acc)) as [es ->].
  { intros v [= <-] _. rewrite H1. by eexists. }
  cbn [mbind result_bind Py.bind].
  destruct (append_if_data_Ok (Some f) (λ f, Np.reshape_x3 f n)
              (all_forces acc)) as [fs ->].
  { intros v [= <-] _. by apply Hx3. }
  cbn [mbind result_bind Py.bind].
  destruct (append_if_data_Ok (cond_load_data (virial_npy sd))
              (λ v, Np.reshape_33 v n) (all_virs acc)) as [vs ->].
  { intros v Hsome Hpos. apply H33. unfold cond_load_data in Hsome.
    destruct (virial_npy sd) as [v'|]; [|done]. injection Hsome as ->.
    destruct Hv as [->|Hv]; [simpl in Hpos; lia|done]. }
  cbn [mbind result_bind Py.bind]. by eexists.
Qed.

Lemma sets_loop_wf m (sds : list set_dir) : ∀ acc,
  Forall (subset_wf m) sds → (1 ≤ m)%nat →
  is_Ok (for_each sets_step sds acc).
Proof.
  induction sds as [|sd sds IH]; intros acc Hwf Hm; [by eexists|].
  apply Forall_cons in Hwf as [Hsd Hwf].
  destruct (sets_step_wf m sd acc Hsd Hm) as [acc1 Hacc1].
  cbn [for_each]. rewrite Hacc1. by apply IH.
Qed.

Lemma concatenate_x3_Ok (rows : set_dir → nat) m sds arrs :
  Forall (λ sd, 1 ≤ subset_frames sd)%nat sds →
  Forall (λ sd, rows sd = m) sds →
  Forall2 (λ sd arr, frames_rows (subset_frames sd) (rows sd) arr) sds arrs →
  arrs ≠ [] →
  is_Ok (Np.concatenate_x3 arrs).
Proof.
  intros Hfr Hrows Harrs Hne. unfold Np.concatenate_x3.
  destruct arrs as [|a rest]; [done|].
  rewrite decide_True; [by eexists|].
  assert (Hall : Forall (λ arr, Np.axis1 arr = m) (a :: rest)).
  { clear Hne. induction Harrs as [|sd arr sds arrs Harr _ IH]; [constructor|].
    apply Forall_cons in Hfr as [Hsd Hfr].
    apply Forall_cons in Hrows as [Hr Hrows].
    constructor; [|by apply IH].
    rewrite <- Hr. by eapply axis1_frames_rows. }
  apply Forall_cons in Hall as [Ha Hall].
  eapply Forall_impl; [exact Hall|]. simpl. congruence.
Qed.

Lemma concat_if_any_Ok {A} (conc : list A → result A) acc :
  (acc ≠ [] → is_Ok (conc acc)) → is_Ok (concat_if_any conc acc).
Proof.
  intros Hc. unfold concat_if_any. destruct acc as [|a acc]; [by eexists|].
  destruct Hc as [r ->]; [done|]. by eexists.
Qed.

Lemma concatenate_Ok {A} (arrs : list (list A)) :
  arrs ≠ [] → is_Ok (Np.concatenate arrs).
Proof. destruct arrs; [done|]. by eexists. Qed.

Lemma load_type_wf d types :
  type_raw d = Some types → types ≠ [] →
  match type_map_raw d with
  | Some names => (length (atom_numbs_of types) ≤ length names)%nat
  | None => True
  end →
  is_Ok (load_type d None).
Proof.
  intros Hraw Hne Hnames.
  pose proof (load_type_spec d None types Hraw Hne) as Hspec.
  cbv zeta in Hspec. rewrite Hspec. rewrite decide_True; [by eexists|].
  unfold resolve_type_map. destruct (type_map_raw d) as [names|]; [done|].
  rewrite length_fmap, range_length, atom_numbs_of_length. done.
Qed.

(** A well-formed system directory loads, with energies, forces and
    rows for all its frames. *)
Lemma to_system_data_wf path d :
  system_dir_wf d →
  ∃ s, to_system_data path d = Ok s ∧
       has_energies_and_forces (with_has_virial s) ∧
       ∀ j, (j < System.frames s)%nat → rows_cover (with_has_virial s) j.
Proof.
  intros (types & Hraw & Hne & Hnames & Hsets & Hwf).
  set (m := length types).
  assert (Hm : (1 ≤ m)%nat) by (unfold m; destruct types; simpl; [done|lia]).
  assert (Hfacts : Forall (λ sd, (1 ≤ subset_frames sd)%nat ∧
                                 coord_rows sd = m ∧ force_rows sd = m ∧
                                 has_data (energy_npy sd) = true ∧
                                 has_data (force_npy sd) = true) (sets d)).
  { eapply Forall_impl; [exact Hwf|]. intros sd Hsd.
    by apply subset_wf_frames. }
  assert (Hrun : is_Ok (to_system_data path d)).
  { unfold to_system_data.
    destruct (load_type_wf d types Hraw Hne Hnames) as [t ->].
    cbn [mbind result_bind Py.bind].
    destruct (sets_loop_wf m (sets d) sets_acc0 Hwf Hm) as [acc Hacc].
    rewrite Hacc. cbn [mbind result_bind Py.bind].
    pose proof (sets_loop_arrays _ _ Hacc) as [Hfr Hco He Hf Hv].
    assert (Hinv : sets_inv (sets d) acc).
    { refine (for_each_inv _ sets_inv _ _ _ _ _ Hacc).
      - by split.
      - intros pre ii s1 s2. apply sets_step_inv. }
    destruct Hinv as [Hn Hc _ _ _ _ _ _].
    destruct (nframes acc) as [n|]; [|done].
    cbn [mbind result_bind Py.bind].
    assert (Hcells : all_cells acc ≠ []).
    { intros Hnil. rewrite Hnil in Hc. simpl in Hc.
      pose proof (sum_frames_pos _ Hfr). destruct (sets d); simpl in *; [done|lia]. }
    destruct (concatenate_Ok _ Hcells) as [cells ->].
    cbn [mbind result_bind Py.bind].
    destruct (concatenate_x3_Ok coord_rows m (sets d) (all_coords acc))
      as [coords ->]; try done.
    { eapply Forall_impl; [exact Hfacts|]. by intros sd (_ & ? & _). }
    { intros Hnil. rewrite Hnil in Hco. inversion Hco as [Hs|]. done. }
    cbn [mbind result_bind Py.bind].
    destruct (concat_if_any_Ok Np.concatenate (all_eners acc))
      as [es ->]; [apply concatenate_Ok|].
    cbn [mbind result_bind Py.bind].
    destruct (concat_if_any_Ok Np.concatenate_x3 (all_forces acc))
      as [fs ->].
    { apply (concatenate_x3_Ok force_rows m
               (subsets_with force_npy (sets d))); try done.
      - apply Forall_forall. intros sd Hsd.
        apply list_elem_of_filter in Hsd as [_ Hsd].
        by apply (proj1 (Forall_forall _ _) Hfr).
      - apply Forall_forall. intros sd Hsd.
        apply list_elem_of_filter in Hsd as [_ Hsd].
        by destruct (proj1 (Forall_forall _ _) Hfacts _ Hsd) as (_ & _ & ? & _). }
    cbn [mbind result_bind Py.bind].
    destruct (concat_if_any_Ok Np.concatenate (all_virs acc))
      as [vs ->]; [apply concatenate_Ok|].
    cbn [mbind result_bind Py.bind]. by eexists. }
  destruct Hrun as [s Hs]. exists s. split; [done|].
  destruct (to_system_data_spec _ _ _ Hs)
    as (Hty & _ & Hf1 & Hlast & _ & _).
  destruct (to_system_data_arrays _ _ _ Hs)
    as (_ & Hfr & Hlc & Hlco & Hes & Hfs & _ & (mc & Hmc1 & Hmc2)).
  assert (Hall : ∀ file,
            Forall (λ sd, has_data (file sd) = true) (sets d) →
            subsets_with file (sets d) = sets d).
  { intros file Hfile. apply subsets_with_all.
    eapply Forall_impl; [exact Hfile|]. intros sd. apply Is_true_true. }
  rewrite (Hall energy_npy) in Hes
    by (eapply Forall_impl; [exact Hfacts|]; by intros sd (_ & _ & _ & ? & _)).
  rewrite (Hall force_npy) in Hfs
    by (eapply Forall_impl; [exact Hfacts|]; by intros sd (_ & _ & _ & _ & ?)).
  assert (Hle : (System.frames s ≤ sum_list_with subset_frames (sets d))%nat).
  { destruct (last (sets d)) as [sd|] eqn:El; [|done].
    injection Hlast as <-.
    apply last_Some in El as [pre El]. rewrite El, sum_list_with_app.
    simpl. lia. }
  destruct (System.energies s) as [es|] eqn:Ees; [|done].
  destruct (System.forces s) as [fs|] eqn:Efs; [|done].
  destruct Hes as [_ Hles]. destruct Hfs as (_ & Hlfs & mf & Hmf1 & Hmf2).
  assert (Hmc : mc = m).
  { destruct (sets d) as [|sd sds]; [done|].
    apply Forall_cons in Hmc1 as [<- _].
    by apply Forall_cons in Hfacts as [(_ & ? & _) _]. }
  assert (Hmf : mf = m).
  { destruct (sets d) as [|sd sds]; [done|].
    apply Forall_cons in Hmf1 as [<- _].
    by apply Forall_cons in Hfacts as [(_ & _ & ? & _) _]. }
  subst mc mf. split.
  - exists es, fs. cbn [System.energies System.forces System.frames
                        with_has_virial].
    rewrite Ees, Efs. repeat split; try done; lia.
  - intros j Hj. unfold rows_cover.
    cbn [System.coords System.forces System.atom_types with_has_virial].
    destruct (lookup_lt_is_Some_2 (System.coords s) j) as [co Hco]; [lia|].
    destruct (lookup_lt_is_Some_2 fs j) as [f Hf]; [lia|].
    exists co, fs, f. rewrite Efs. do 3 (split; [done|]).
    rewrite Hraw in Hty. injection Hty as <-. fold m.
    rewrite (proj1 (Forall_lookup _ _) Hmc2 _ _ Hco).
    rewrite (proj1 (Forall_lookup _ _) Hmf2 _ _ Hf). done.
Qed.

Lemma scan_wf_Ok folder (l : list (Z * (string * entry))) : ∀ acc,
  Forall (λ e, entry_wf e.2.2) l →
  is_Ok (for_each (scan_step folder) l acc).
Proof.
  induction l as [|[i [fi ent]] l IH]; intros acc Hwf; [by eexists|].
  apply Forall_cons in Hwf as [He Hwf]. cbn [for_each scan_step].
  destruct ent as [|d]; [by apply IH|].
  destruct (to_system_data_wf (path_join folder fi) d He) as (s & -> & _).
  cbn [mbind result_bind Py.bind]. by apply IH.
Qed.

(** The run on a tree of well-formed system directories. *)
Lemma wf_tree_runs instr listing :
  Forall (λ e, entry_wf e.2) listing →
  Exists (λ e, is_dir e.2) listing →
  exact_counts listing →
  ∃ d text,
    read_multi_deepmd ("./" +:+ instr) listing = Ok d ∧
    dump d = (text, Ok ()) ∧
    main instr listing = (Some text, Ok ()).
Proof.
  intros Hwf Hdir Hb. set (folder := ("./" +:+ instr)%string).
  destruct (scan_wf_Ok folder (enumerate listing) []) as [dm Hscan].
  { unfold enumerate. apply Forall_forall. intros [i e] Hin.
    apply elem_of_zip_r in Hin. simpl in *.
    by apply (proj1 (Forall_forall _ _) Hwf). }
  fold (scan folder listing) in Hscan.
  pose proof (scan_systems _ _ _ Hscan) as Hsys.
  pose proof (scan_wf _ _ _ Hscan) as Hswf.
  assert (Hgood : Forall (λ x, has_energies_and_forces x.2 ∧
                    ∀ j, (j < System.frames x.2)%nat → rows_cover x.2 j) dm).
  { apply Forall_forall. intros x Hx.
    apply list_elem_of_lookup in Hx as [k Hk].
    destruct (Forall2_lookup_r _ _ _ _ _ Hsys Hk)
      as ([i [fi d]] & He & _ & s & Hload & Hxs).
    assert (Hd : system_dir_wf d).
    { apply list_elem_of_lookup_2 in He.
      apply subdirs_lookup in He as [_ He].
      apply list_elem_of_lookup_2 in He.
      by apply (proj1 (Forall_forall _ _) Hwf) in He. }
    destruct (to_system_data_wf (path_join folder fi) d Hd)
      as (s' & Hload' & Hef & Hcov).
    simpl in Hload. rewrite Hload in Hload'. injection Hload' as <-.
    by rewrite Hxs. }
  assert (Hne : dm ≠ []).
  { apply Exists_exists in Hdir as ([fi ent] & Hin & Hd).
    destruct ent as [|d]; [done|].
    apply list_elem_of_lookup in Hin as [k Hk].
    assert (Hsub : (Z.of_nat k, (fi, d)) ∈ subdirs listing).
    { apply subdirs_lookup. split; [lia|by rewrite Nat2Z.id]. }
    intros ->. inversion Hsys as [Hnil|]. rewrite <- Hnil in Hsub.
    by apply elem_of_nil in Hsub. }
  destruct (merge_Ok dm Hne Hswf) as [d Hd].
  { eapply Forall_impl; [exact Hgood|]. by intros x [? _]. }
  assert (Hread : read_multi_deepmd folder listing = Ok d).
  { unfold read_multi_deepmd. by rewrite Hscan. }
  destruct (dump d) as [text r] eqn:Hdump.
  destruct (dump_ends _ _ _ _ _ Hread Hb Hdump)
    as (dm' & header & body & Hscan' & _ & _ & _ & _ & Hiff).
  rewrite Hscan in Hscan'. injection Hscan' as <-.
  assert (Hr : r = Ok ()).
  { apply Hiff. apply Forall_forall. intros [s j] Hsj. simpl.
    unfold origins in Hsj.
    apply list_elem_of_bind in Hsj as (x & Hin & Hx).
    apply list_elem_of_fmap in Hin as (j' & [= -> ->] & Hj').
    apply elem_of_seq in Hj'.
    destruct (proj1 (Forall_forall _ _) Hgood _ Hx) as [_ Hcov].
    apply Hcov. lia. }
  subst r. exists d, text. split; [done|]. split; [done|].
  unfold main. fold folder. by rewrite Hread, Hdump.
Qed.

End Converts.

(** X16. The run completes on a tree in which every system directory
    has a [type.raw] with at least one atom, enough names in
    [type_map.raw] if that file is there, and at least one subset, and
    every subset has a cell, an energy and as many coordinate rows and
    force rows as the system has atoms for each of its frames, and a
    virial for each frame or none: if there is at least one system
    directory, [main] writes [train.in] and returns, and the frame count
    is the sum of the frame counts of the last subsets.  Atom counts are
    taken to be at most 2^53. *)
Theorem well_formed_tree_converts `{Float64} instr listing :
  Forall (λ e, entry_wf e.2) listing →
  Exists (λ e, is_dir e.2) listing →
  exact_counts listing →
  ∃ d text,
    read_multi_deepmd ("./" +:+ instr) listing = Ok d ∧
    dump d = (text, Ok ()) ∧
    main instr listing = (Some text, Ok ()) ∧
    Merged.nframe d
    = Z.of_nat (sum_list_with (λ e, last_subset_frames e.2.2)
                              (subdirs listing)).
Proof.
  intros Hwf Hdir Hb.
  destruct (wf_tree_runs instr listing Hwf Hdir Hb)
    as (d & text & Hread & Hdump & Hmain).
  exists d, text. do 3 (split; [done|]).
  by eapply nframe_last_subsets.
Qed.

Lemma sample_subsets_wf :
  subset_wf 2 Sample.set_000 ∧ subset_wf 2 Sample.set_001.
Proof.
  split.
  - exists 2%nat. do 4 eexists. split; [lia|].
    repeat (split; [reflexivity|]). by right.
  - exists 1%nat. do 4 eexists. split; [lia|].
    repeat (split; [reflexivity|]). done.
Qed.

Lemma well_formed_tree_converts_witness :
  ∃ d text,
    read_multi_deepmd "./deepmd" Sample.two_systems = Ok d ∧
    dump d = (text, Ok ()) ∧
    main "deepmd" Sample.two_systems = (Some text, Ok ()) ∧
    Merged.nframe d
    = Z.of_nat (sum_list_with (λ e, last_subset_frames e.2.2)
                              (subdirs Sample.two_systems)).
Proof.
  apply (well_formed_tree_converts "deepmd" Sample.two_systems).
  - destruct sample_subsets_wf as [H0 H1].
    repeat constructor.
    + exists [0; 1]. split; [done|]. split; [done|]. split; [done|].
      split; [done|]. by repeat constructor.
    + exists [0; 1]. split; [done|]. split; [done|]. split; [done|].
      split; [done|]. by repeat constructor.
  - by left.
  - exact exact_counts_two_systems.
Defined.

(** X17. The text of a run that completes has one line for the frame
    count, one header line for each frame and, for each frame, an energy
    line, a cell line and one line for each atom of its system. *)
Theorem train_in_line_count `{Float64} instr listing text :
  main instr listing = (Some text, Ok ()) →
  exact_counts listing →
  ∃ dm,
    scan ("./" +:+ instr) listing = Ok dm ∧
    length (lines text)
    = (1 + length (origins dm)
       + sum_list_with (λ sj, 2 + length (System.atom_types sj.1))
                       (origins dm))%nat.
Proof.
  intros Hmain Hb.
  destruct (main_Ok _ _ _ _ Hmain) as (d & Hread & Hdump).
  destruct (dump_ends _ _ _ _ _ Hread Hb Hdump)
    as (dm & header & body & Hscan & Htab & Hhead & Hbody & Hend & _).
  exists dm. split; [done|].
  destruct Hend as [[_ Hlen]|[? _]]; [|done].
  rewrite Hlen, firstn_all in Hbody.
  assert (Hl : length (lines text) = length (read_table text))
    by (unfold read_table; by rewrite length_fmap).
  rewrite Hl, Htab, length_app, Hhead.
  assert (Hsum : length (concat body)
                 = sum_list_with (λ sj, 2 + length (System.atom_types sj.1))%nat
                                 (origins dm)).
  { clear -Hbody. induction Hbody as [|sj rows sjs body [_ Hrows] _ IH];
      [done|].
    simpl. rewrite length_app, IH, Hrows. done. }
  rewrite Hsum. lia.
Qed.

Lemma train_in_line_count_witness :
  length (lines Evaluated.train_in) = 16%nat.
Proof.
  destruct (train_in_line_count "deepmd" Sample.two_systems
              Evaluated.train_in main_completes_two_systems
              exact_counts_two_systems) as (dm & Hscan & Hlines).
  change ("./" +:+ "deepmd")%string with "./deepmd"%string in Hscan.
  rewrite Evaluated.scan_two_systems in Hscan. injection Hscan as <-.
  rewrite Hlines. reflexivity.
Defined.

(** X18. In the text of a run that completes, the record of a frame
    holds the data of that frame of its system: after the energy line
    comes the cell line with the nine numbers of the 3x3 cell row by row,
    and then for each atom a line with its type index plus one, the
    three numbers of its coordinate row and the three numbers of its
    force row. *)
Theorem record_content `{Float64} instr listing text :
  main instr listing = (Some text, Ok ()) →
  exact_counts listing →
  ∃ dm header body,
    scan ("./" +:+ instr) listing = Ok dm ∧
    read_table text = header ++ concat body ∧
    length header = S (length (origins dm)) ∧
    Forall2 (λ sj rows,
               let '(s, j) := sj in
               ∃ energy atoms c co fs f,
                 rows = energy :: (str_float <$> concat c) :: atoms ∧
                 System.cells s !! j = Some c ∧
                 System.coords s !! j = Some co ∧
                 System.forces s = Some fs ∧ fs !! j = Some f ∧
                 length atoms = length (System.atom_types s) ∧
                 ∀ i row, atoms !! i = Some row →
                   ∃ t xyz fxyz,
                     System.atom_types s !! i = Some t ∧
                     co !! i = Some xyz ∧ f !! i = Some fxyz ∧
                     row = str_int (t + 1)
                           :: (str_float <$> xyz) ++ (str_float <$> fxyz))
            (origins dm) body.
Proof.
  intros Hmain Hb.
  destruct (main_Ok _ _ _ _ Hmain) as (d & Hrun & Hdump).
  destruct (pipeline_table _ _ _ _ _ Hrun Hb Hdump)
    as (dm & frs & m & body & Hscan & Hwf & Hn & Hof & Hat & _ & Hm & Hbody
        & Htab).
  rewrite Hm, firstn_all in Hbody by done.
  exists dm, ([str_int (Merged.nframe d)]
              :: ((λ sj, pair_row (pair_of sj.1)) <$> origins dm)), body.
  split; [done|]. split; [done|]. split.
  { simpl. by rewrite length_fmap. }
  pose proof (origins_Forall _ _ Hwf) as Hwf'.
  pose proof (origins_Forall
                (λ s, Z.of_nat (length (System.atom_types s)) ≤ 2 ^ 53)
                _ (scan_exact_counts _ _ _ Hb Hscan)) as Hc'.
  clear -Hof Hbody Hwf' Hc'. revert body Hbody.
  induction Hof as [|[s j] fr sjs frs' Hfr _ IH]; intros body Hbody.
  - inversion Hbody. constructor.
  - inversion Hbody as [|? rows ? body' Hrows Hbody']; subst.
    apply Forall_cons in Hwf' as [Hw Hwf'].
    apply Forall_cons in Hc' as [Hc Hc'].
    constructor; [|by apply IH].
    destruct Hrows as (a & atoms & Ha & Hatoms & ->).
    simpl in Hfr. destruct (frame_of_flag _ _ _ Hw Hfr) as (_ & Han & Hty).
    rewrite Han, to_int_of_int in Ha by (split; [lia|exact Hc]).
    injection Ha as <-. rewrite Nat2Z.id in Hatoms.
    apply frame_of_Some in Hfr
      as (flags & flag & es & c & co & fs & _ & _ & _ & _ & _ & Hcj & Hc9
          & _ & Hcoj & Hfco & Hfs & Hfj & _ & _ & _ & _).
    apply reshape_9_concat in Hc9.
    exists (energy_row fr), atoms, c, co, fs, (f_forces fr).
    unfold cell_row. rewrite Hc9. do 5 (split; [done|]). split.
    + apply Forall2_length in Hatoms. by rewrite length_seq in Hatoms.
    + intros i row Hrow.
      assert (Hi : seq 0 (length (System.atom_types s)) !! i = Some i).
      { apply lookup_seq. split; [done|].
        apply lookup_lt_Some in Hrow. apply Forall2_length in Hatoms.
        rewrite length_seq in Hatoms. lia. }
      pose proof (Forall2_lookup_lr _ _ _ _ _ _ Hatoms Hi Hrow) as Har.
      unfold atom_row in Har. rewrite Hty, Hfco in Har.
      cbn [fst snd] in Har.
      destruct (System.atom_types s !! i) as [t|]; simpl in Har; [|done].
      destruct (co !! i) as [xyz|]; simpl in Har; [|done].
      destruct (f_forces fr !! i) as [fxyz|]; simpl in Har; [|done].
      injection Har as <-. by exists t, xyz, fxyz.
Qed.

Lemma record_content_witness :
  ∃ header body,
    read_table Evaluated.train_in = header ++ concat body ∧
    length header = S (length (origins Evaluated.data_multi)) ∧
    length body = length (origins Evaluated.data_multi).
Proof.
  destruct (record_content "deepmd" Sample.two_systems
              Evaluated.train_in main_completes_two_systems
              exact_counts_two_systems)
    as (dm & header & body & Hscan & Htab & Hlen & Hbody).
  change ("./" +:+ "deepmd")%string with "./deepmd"%string in Hscan.
  rewrite Evaluated.scan_two_systems in Hscan. injection Hscan as <-.
  exists header, body. split; [done|]. split; [done|].
  symmetry. by eapply Forall2_length.
Defined.

(** ** What is loaded and not written *)

Section NotWritten.
Context `{Float64}.

Lemma for_each_ext {A S} (body body' : A → S → result S) (l : list A) :
  (∀ x s, body x s = body' x s) →
  ∀ s, for_each body l s = for_each body' l s.
Proof.
  intros Hext. induction l as [|x l IH]; intros s; [done|].
  cbn [for_each]. rewrite Hext. destruct (body' x s); simpl; [apply IH|done].
Qed.

Lemma merge_unnamed (dm dm' : list (Z * System.t)) :
  unnamed <$> dm.*2 = unnamed <$> dm'.*2 → merge dm = merge dm'.
Proof.
  intros Heq.
  assert (Hun : ∀ l : list (Z * System.t),
            merge l = merge ((λ x, (x.1, unnamed x.2)) <$> l)).
  { intros l. unfold merge. rewrite <- list_fmap_compose.
    destruct (Np.index _) as [n|e]; [|done].
    cbn [mbind result_bind Py.bind]. rewrite for_each_fmap.
    by rewrite (for_each_ext merge_system
                  (λ x, merge_system (x.1, unnamed x.2))). }
  rewrite (Hun dm), (Hun dm'). apply merge_values.
  transitivity (unnamed <$> dm.*2); [by rewrite <- !list_fmap_compose|].
  rewrite Heq. by rewrite <- !list_fmap_compose.
Qed.

Lemma to_system_data_same path d d' s s' :
  type_raw d = type_raw d' → sets d = sets d' →
  to_system_data path d = Ok s →
  to_system_data path d' = Ok s' →
  unnamed (with_has_virial s) = unnamed (with_has_virial s').
Proof.
  intros Hraw Hsets Hs Hs'. unfold to_system_data in Hs, Hs'.
  destruct (load_type d None) as [t|] eqn:Ht; [|done].
  destruct (load_type d' None) as [t'|] eqn:Ht'; [|done].
  cbn [mbind result_bind Py.bind] in Hs, Hs'.
  destruct (load_type_Ok _ _ _ Ht) as (x & l & Hr & Hty & Hnu & _).
  destruct (load_type_Ok _ _ _ Ht') as (x' & l' & Hr' & Hty' & Hnu' & _).
  rewrite Hraw, Hr' in Hr. injection Hr as <- <-.
  rewrite <- Hsets in Hs'.
  destruct (for_each sets_step (sets d) sets_acc0) as [acc|]; [|done].
  cbn [mbind result_bind Py.bind] in Hs, Hs'.
  destruct (nframes acc) as [n|]; [|done].
  cbn [mbind result_bind Py.bind] in Hs, Hs'.
  destruct (Np.concatenate (all_cells acc)) as [cells|]; [|done].
  cbn [mbind result_bind Py.bind] in Hs, Hs'.
  destruct (Np.concatenate_x3 (all_coords acc)) as [coords|]; [|done].
  cbn [mbind result_bind Py.bind] in Hs, Hs'.
  destruct (concat_if_any Np.concatenate (all_eners acc)) as [es|]; [|done].
  cbn [mbind result_bind Py.bind] in Hs, Hs'.
  destruct (concat_if_any Np.concatenate_x3 (all_forces acc)) as [fs|];
    [|done].
  cbn [mbind result_bind Py.bind] in Hs, Hs'.
  destruct (concat_if_any Np.concatenate (all_virs acc)) as [vs|]; [|done].
  cbn [mbind result_bind Py.bind] in Hs, Hs'.
  injection Hs as <-. injection Hs' as <-.
  unfold unnamed, with_has_virial. simpl. by rewrite Hty, Hty', Hnu, Hnu'.
Qed.

Lemma scan_same folder (l l' : list (string * entry)) :
  Forall2 same_data l l' →
  ∀ (ks ks' : list Z) (acc acc' dm dm' : list (Z * System.t)),
    unnamed <$> acc.*2 = unnamed <$> acc'.*2 →
    for_each (scan_step folder) (zip ks l) acc = Ok dm →
    for_each (scan_step folder) (zip ks' l') acc' = Ok dm' →
    length ks = length l → length ks' = length l' →
    unnamed <$> dm.*2 = unnamed <$> dm'.*2.
Proof.
  induction 1 as [|[fi ent] [fi' ent'] l l' [Hname Hsame] _ IH];
    intros ks ks' acc acc' dm dm' Hacc Hdm Hdm' Hks Hks'.
  - destruct ks, ks'; try done. simpl in *. congruence.
  - destruct ks as [|k ks], ks' as [|k' ks']; try done.
    simpl in Hname, Hsame. subst fi'.
    cbn [zip zip_with for_each scan_step] in Hdm, Hdm'.
    destruct ent as [|d], ent' as [|d']; try done.
    + refine (IH ks ks' acc acc' dm dm' Hacc Hdm Hdm' _ _);
        [by injection Hks|by injection Hks'].
    + destruct Hsame as [Hraw Hsets].
      destruct (to_system_data (path_join folder fi) d) as [s|] eqn:Es;
        [|done].
      destruct (to_system_data (path_join folder fi) d') as [s'|] eqn:Es';
        [|done].
      cbn [mbind result_bind Py.bind] in Hdm, Hdm'.
      refine (IH ks ks' _ _ dm dm' _ Hdm Hdm' _ _);
        [|by injection Hks|by injection Hks'].
      rewrite !fmap_app, Hacc. simpl.
      by rewrite (to_system_data_same _ _ _ _ _ Hraw Hsets Es Es').
Qed.

End NotWritten.

(** X19. The type names and the [nopbc] marker are loaded and never
    written: two trees with the same entries that differ only in their
    [type_map.raw] files and [nopbc] markers, and whose systems all load,
    give the same merged collection or the same exception, and the same
    text. *)
Theorem names_and_nopbc_not_written `{Float64} instr listing listing' :
  Forall2 same_data listing listing' →
  is_Ok (scan ("./" +:+ instr) listing) →
  is_Ok (scan ("./" +:+ instr) listing') →
  read_multi_deepmd ("./" +:+ instr) listing
  = read_multi_deepmd ("./" +:+ instr) listing' ∧
  main instr listing = main instr listing'.
Proof.
  intros Hsame [dm Hdm] [dm' Hdm'].
  assert (Hread : read_multi_deepmd ("./" +:+ instr) listing
                  = read_multi_deepmd ("./" +:+ instr) listing').
  { unfold read_multi_deepmd. rewrite Hdm, Hdm'.
    cbn [mbind result_bind Py.bind]. apply merge_unnamed.
    unfold scan, enumerate in Hdm, Hdm'.
    eapply (scan_same _ _ _ Hsame _ _ [] []); eauto.
    - by rewrite length_seqZ, Nat2Z.id.
    - by rewrite length_seqZ, Nat2Z.id. }
  split; [done|]. unfold main. by rewrite Hread.
Qed.

Lemma names_and_nopbc_not_written_witness :
  main "deepmd" Sample.two_systems
  = main "deepmd"
      [("init.000"%string,
        Dir {| type_raw := Some [0; 1];
               type_map_raw := Some ["O"%string; "H"%string];
               nopbc_file := true; sets := [Sample.set_000] |});
       ("README"%string, File);
       ("init.001"%string, Dir (Sample.system [Sample.set_001]))].
Proof.
  refine (proj2 (names_and_nopbc_not_written "deepmd" _ _ _ _ _)).
  - repeat constructor.
  - exists Evaluated.data_multi. exact Evaluated.scan_two_systems.
  - apply scan_wf_Ok. unfold enumerate.
    destruct sample_subsets_wf as [H0 H1].
    repeat constructor; simpl.
    + exists [0; 1]. split; [done|]. split; [done|]. split; [simpl; lia|].
      split; [done|]. by repeat constructor.
    + exists [0; 1]. split; [done|]. split; [done|]. split; [done|].
      split; [done|]. by repeat constructor.
Defined.

(** ** The shapes of a subset *)

Section Shapes.
Context `{Float64}.

Lemma append_if_data_result {A} a (reshape : vector → result A) acc :
  append_if_data a reshape acc
  = match a with
    | Some (x :: v) => r ← reshape (x :: v); Ok (acc ++ [r])
    | _ => Ok acc
    end.
Proof.
  unfold append_if_data. by destruct a as [[|x v]|].
Qed.

Lemma reshape_1_Ok (e : vector) n : is_Ok (Np.reshape_1 e n) ↔ length e = n.
Proof.
  unfold Np.reshape_1. case_decide; split; try done.
  - by eexists.
  - by intros [? ?].
Qed.

Lemma reshape_33_Ok (v : vector) n :
  is_Ok (Np.reshape_33 v n) ↔ length v = (n * 9)%nat.
Proof.
  unfold Np.reshape_33. case_decide; split; try done.
  - by eexists.
  - by intros [? ?].
Qed.

Lemma reshape_x3_Ok (v : vector) n :
  is_Ok (Np.reshape_x3 v n)
  ↔ (1 ≤ n)%nat ∧ (length v `mod` (n * 3) = 0)%nat.
Proof.
  unfold Np.reshape_x3. case_decide as Hk; split.
  - by intros [? ?].
  - intros [? ?]. lia.
  - intros _. lia.
  - by eexists.
Qed.

Lemma raises_bind {A B} (m : result A) (k : A → result B) :
  raises_ValueError m → (∀ a, raises_ValueError (k a)) →
  raises_ValueError (m ≫= k).
Proof.
  intros Hm Hk e. destruct m as [a|e']; simpl.
  - apply Hk.
  - intros [= <-]. by apply Hm.
Qed.

Lemma raises_Ok {A} (a : A) : raises_ValueError (Ok a).
Proof. by intros e. Qed.

Lemma raises_reshape_1 (v : vector) n : raises_ValueError (Np.reshape_1 v n).
Proof. intros e. unfold Np.reshape_1. case_decide; [done|]. by intros [= <-]. Qed.

Lemma raises_reshape_33 (v : vector) n :
  raises_ValueError (Np.reshape_33 v n).
Proof.
  intros e. unfold Np.reshape_33. case_decide; [done|]. by intros [= <-].
Qed.

Lemma raises_reshape_x3 (v : vector) n :
  raises_ValueError (Np.reshape_x3 v n).
Proof.
  intros e. unfold Np.reshape_x3. case_decide; [|done]. by intros [= <-].
Qed.

Lemma raises_count_33 (v : vector) : raises_ValueError (Np.count_33 v).
Proof.
  intros e. unfold Np.count_33. case_decide; [done|]. by intros [= <-].
Qed.

Lemma raises_append_if_data {A} a (reshape : vector → result A) acc :
  (∀ v, raises_ValueError (reshape v)) →
  raises_ValueError (append_if_data a reshape acc).
Proof.
  intros Hr. unfold append_if_data. destruct a as [v|]; [|apply raises_Ok].
  case_decide; [|apply raises_Ok].
  apply raises_bind; [apply Hr|]. intros r. apply raises_Ok.
Qed.

(** A subset whose [box.npy] and [coord.npy] are there can only raise
    [ValueError]. *)
Lemma sets_step_raises sd acc b c :
  box_npy sd = Some b → coord_npy sd = Some c →
  raises_ValueError (sets_step sd acc).
Proof.
  intros Hb Hc. unfold sets_step, load_set. rewrite Hb, Hc.
  cbn [np_load mbind result_bind Py.bind].
  apply raises_bind; [apply raises_count_33|]. intros n.
  apply raises_bind; [apply raises_reshape_33|]. intros cs.
  apply raises_bind; [apply raises_reshape_x3|]. intros co.
  apply raises_bind.
  { destruct (cond_load_data (energy_npy sd)); [|apply raises_Ok].
    apply raises_bind; [apply raises_reshape_1|]. intros e'.
    apply raises_Ok. }
  intros eners.
  apply raises_bind;
    [apply raises_append_if_data; intros v; apply raises_reshape_1|].
  intros es.
  apply raises_bind;
    [apply raises_append_if_data; intros v; apply raises_reshape_x3|].
  intros fs.
  apply raises_bind;
    [apply raises_append_if_data; intros v; apply raises_reshape_33|].
  intros vs. apply raises_Ok.
Qed.

Lemma append_if_data_is_Ok {A} a (reshape : vector → result A) acc :
  is_Ok (append_if_data a reshape acc)
  ↔ ∀ v, a = Some v → v ≠ [] → is_Ok (reshape v).
Proof.
  unfold append_if_data. destruct a as [v|].
  - case_decide as Hv.
    + split.
      * intros [r Hr] v' [= <-] _. destruct (reshape v); [by eexists|done].
      * intros Hr. destruct (Hr v eq_refl) as [r ->]; [|by eexists].
        destruct v; simpl in *; [lia|done].
    + split; [|by eexists]. intros _ v' [= <-] Hne.
      destruct v; simpl in *; [done|lia].
  - split; [done|by eexists].
Qed.

Lemma is_Ok_bind {A B} (m : result A) (k : A → result B) :
  is_Ok (m ≫= k) ↔ ∃ a, m = Ok a ∧ is_Ok (k a).
Proof.
  destruct m as [a|e]; simpl; split.
  - intros Hk. by exists a.
  - by intros (a' & [= <-] & Hk).
  - by intros [? ?].
  - by intros (? & ? & _).
Qed.

(** When a subset whose two required files are there is loaded. *)
Lemma sets_step_is_Ok sd acc b c :
  box_npy sd = Some b → coord_npy sd = Some c →
  is_Ok (sets_step sd acc) ↔ shapes_ok sd b c.
Proof.
  intros Hb Hc. unfold sets_step, load_set, shapes_ok. rewrite Hb, Hc.
  cbn [np_load mbind result_bind Py.bind]. cbv zeta.
  unfold Np.count_33. case_decide as Hmod; cbn [mbind result_bind Py.bind].
  2: { split; [by intros [? ?]|]. by intros [? _]. }
  set (n := (length b `div` 9)%nat).
  assert (Hlen : length b = (n * 9)%nat).
  { unfold n. pose proof (Nat.div_mod_eq (length b) 9). lia. }
  destruct (proj2 (reshape_33_Ok b n) Hlen) as [cs ->].
  cbn [mbind result_bind Py.bind]. rewrite is_Ok_bind.
  unfold cond_load_data. split.
  - intros (co & Hco & Hrest).
    assert (Hco' : is_Ok (Np.reshape_x3 c n)) by (by eexists).
    apply reshape_x3_Ok in Hco' as [Hn Hcm].
    split; [done|]. split; [done|]. split; [done|].
    apply is_Ok_bind in Hrest as (eners & Hen & Hrest).
    apply is_Ok_bind in Hrest as (es & _ & Hrest).
    apply is_Ok_bind in Hrest as (fs & Hfs & Hrest).
    apply is_Ok_bind in Hrest as (vs & Hvs & _).
    split; [|split].
    + intros e He. rewrite He in Hen.
      apply reshape_1_Ok. destruct (Np.reshape_1 e n); [by eexists|done].
    + intros f Hf Hne.
      assert (Hok : is_Ok (append_if_data
                      match force_npy sd with Some a => Some a | None => None end
                      (λ f, Np.reshape_x3 f n) (all_forces acc)))
        by (by eexists).
      rewrite append_if_data_is_Ok in Hok. rewrite Hf in Hok.
      by apply (reshape_x3_Ok f n), Hok.
    + intros v Hv Hne.
      assert (Hok : is_Ok (append_if_data
                      match virial_npy sd with Some a => Some a | None => None end
                      (λ v, Np.reshape_33 v n) (all_virs acc)))
        by (by eexists).
      rewrite append_if_data_is_Ok in Hok. rewrite Hv in Hok.
      by apply (reshape_33_Ok v n), Hok.
  - intros (_ & Hn & Hcm & He & Hf & Hv).
    destruct (proj2 (reshape_x3_Ok c n) (conj Hn Hcm)) as [co Hco].
    exists co. split; [done|].
    assert (Hen : ∃ eners,
              match energy_npy sd with Some a => Some a | None => None end
              = eners ∧
              match eners with
              | Some e => Np.reshape_1 e n ≫= λ e', Ok (Some e')
              | None => Ok None
              end = Ok eners ∧
              is_Ok (append_if_data eners (λ e, Np.reshape_1 e n)
                                    (all_eners acc))).
    { destruct (energy_npy sd) as [e|]; eexists; (split; [done|]).
      - assert (Hr : Np.reshape_1 e n = Ok e).
        { unfold Np.reshape_1. by rewrite decide_True by by apply He. }
        cbv iota beta. rewrite Hr. split; [done|].
        apply append_if_data_is_Ok. intros v [= <-] _. rewrite Hr.
        by eexists.
      - split; [done|]. by eexists. }
    destruct Hen as (eners & Heq & Hresh & [es Hes]).
    rewrite Heq, Hresh. cbn [mbind result_bind Py.bind]. rewrite Hes.
    cbn [mbind result_bind Py.bind].
    destruct (proj2 (append_if_data_is_Ok
                match force_npy sd with Some a => Some a | None => None end
                (λ f, Np.reshape_x3 f n) (all_forces acc))) as [fs ->].
    { intros f Hsome Hne. apply reshape_x3_Ok. split; [done|].
      apply Hf; [|done]. by destruct (force_npy sd). }
    cbn [mbind result_bind Py.bind].
    destruct (proj2 (append_if_data_is_Ok
                match virial_npy sd with Some a => Some a | None => None end
                (λ v, Np.reshape_33 v n) (all_virs acc))) as [vs ->].
    { intros v Hsome Hne. apply reshape_33_Ok.
      apply Hv; [|done]. by destruct (virial_npy sd). }
    cbn [mbind result_bind Py.bind]. by eexists.
Qed.

End Shapes.

(** X20. The loop of [to_system_data] loads a subset exactly when
    [box.npy] and [coord.npy] are there and the sizes fit: the cell
    array is a multiple of 9 numbers and holds at least one frame, the
    coordinates divide into that many frames of rows of three, an
    [energy.npy] that is there has one number per frame, a [force.npy]
    that is not empty divides like the coordinates and a [virial.npy]
    that is not empty has nine numbers per frame.  A subset without one
    of the two required files raises [FileNotFoundError], any other
    subset that is not loaded raises [ValueError]. *)
Theorem subset_loads_iff `{Float64} (sd : set_dir) (acc : sets_acc) :
  (is_Ok (sets_step sd acc)
   ↔ ∃ b c, box_npy sd = Some b ∧ coord_npy sd = Some c ∧ shapes_ok sd b c) ∧
  (box_npy sd = None ∨ coord_npy sd = None →
   sets_step sd acc = Err FileNotFoundError) ∧
  (∀ b c, box_npy sd = Some b → coord_npy sd = Some c →
          ¬ shapes_ok sd b c → sets_step sd acc = Err ValueError).
Proof.
  split; [|split].
  - split.
    + intros Hok. destruct (box_npy sd) as [b|] eqn:Hb.
      * destruct (coord_npy sd) as [c|] eqn:Hc.
        -- exists b, c. do 2 (split; [done|]).
           by apply (sets_step_is_Ok sd acc).
        -- rewrite (sets_step_missing sd acc) in Hok by (by right).
           by destruct Hok.
      * rewrite (sets_step_missing sd acc) in Hok by (by left).
        by destruct Hok.
    + intros (b & c & Hb & Hc & Hshapes).
      by apply (sets_step_is_Ok sd acc b c).
  - apply sets_step_missing.
  - intros b c Hb Hc Hno.
    destruct (sets_step sd acc) as [acc'|e] eqn:Hrun.
    + exfalso. apply Hno. apply (sets_step_is_Ok sd acc b c Hb Hc).
      rewrite Hrun. by eexists.
    + f_equal. by apply (sets_step_raises sd acc b c Hb Hc).
Qed.

Lemma subset_loads_iff_witness :
  sets_step {| box_npy := Some (Sample.fl [3; 0; 0; 0; 3; 0; 0; 0; 3]);
               coord_npy := Some (Sample.fl [0; 0; 0; 3; 3; 3]);
               energy_npy := Some (Sample.fl [7; 8]);
               force_npy := None; virial_npy := None |} sets_acc0
  = Err ValueError.
Proof.
  eapply (proj2 (proj2 (subset_loads_iff _ _))); [reflexivity..|].
  intros (_ & _ & _ & He & _). by specialize (He _ eq_refl).
Defined.
